(** * Verification of [scripts/extract_schemas.py]

    The script loads an OpenAPI document, converts a list of named schema
    definitions to a simplified JSON Schema form and writes one file per
    schema.  This development embeds the three functions of the script
    ([convert_property], [convert_openapi_to_jsonschema], [extract_schemas])
    and its entry point [main], and proves the properties stated about them.

    Two embeddings are given.

    - A _tree_ embedding, where a parsed document is a finite tree
      ([value]).  Python dictionaries keep insertion order, so a dictionary
      is an association list; exceptions are an explicit result type [res].
    - A _store_ embedding, where lists, dictionaries, tuples and sets are
      objects with an identity living in a store ([heap]), so that aliasing
      and mutation can be stated, and where the depth of calls that the
      interpreter allows is explicit (the tree embedding takes it to be
      enough).  It is related to the tree embedding by a simulation theorem.

    What the Python runtime and the libraries provide is taken as given:
    [str()] of an object that is not a string, the case of the characters
    outside the ASCII range, path joining and printing of [pathlib], and the
    parser.  The file system is taken to accept the directory and the files,
    and the output streams the lines.  A string holds the UTF-8 bytes of a
    Python [str]. *)

From Stdlib Require Import String Ascii List ZArith Lia Bool Arith.
From Stdlib Require Import DecimalString.
From stdpp Require Import base list.
Import ListNotations.
Local Open Scope string_scope.
Local Open Scope list_scope.

(** ** Exceptions and results

    The exceptions the script can meet.  [RecursionError] and
    [SystemError] only occur in the store embedding: the first when the
    allowed depth of calls is exhausted, the second marks the use of an
    address that the store does not have, which no run from a well-formed
    store reaches. *)

Inductive exn : Type :=
| TypeError
| AttributeError
| KeyError
| RecursionError
| SystemError.

Inductive res (A : Type) : Type :=
| Ok (a : A)
| Raise (e : exn).
Arguments Ok {A} a.
Arguments Raise {A} e.

Definition bind {A B : Type} (m : res A) (k : A -> res B) : res B :=
  match m with
  | Ok a => k a
  | Raise e => Raise e
  end.

Notation "'do' x <- m ; k" := (bind m (fun x => k))
  (at level 10, x name, m at level 100, k at level 200).

(** ** Dictionaries: insertion-ordered association lists *)

Definition dict (A : Type) : Type := list (string * A).

(** [k in d] *)
Fixpoint dict_mem {A : Type} (k : string) (d : dict A) : bool :=
  match d with
  | [] => false
  | (k', _) :: tl => if String.eqb k' k then true else dict_mem k tl
  end.

(** [d.get(k)], with [None] for a missing key *)
Fixpoint dict_get {A : Type} (d : dict A) (k : string) : option A :=
  match d with
  | [] => None
  | (k', v) :: tl => if String.eqb k' k then Some v else dict_get tl k
  end.

(** [d[k] = v]: an existing key keeps its position, a new key goes last *)
Fixpoint dict_set {A : Type} (d : dict A) (k : string) (v : A) : dict A :=
  match d with
  | [] => [(k, v)]
  | (k', v') :: tl =>
      if String.eqb k' k then (k', v) :: tl else (k', v') :: dict_set tl k v
  end.

Definition keys {A : Type} (d : dict A) : list string := map fst d.

(** [needle in hay] on two strings: substring test *)
Definition str_contains (needle hay : string) : bool :=
  match String.index 0 needle hay with
  | Some _ => true
  | None => false
  end.

(** ** Parsed documents as trees

    What [yaml.safe_load] builds.  The first seven kinds are those of JSON;
    the last four are what YAML has beyond them: the bytes of [!!binary],
    the date or date and time of [!!timestamp] (kept by its ISO form), the
    pairs that [!!omap] and [!!pairs] are lists of, and the set of [!!set].
    The keys of a mapping are strings, as those of an OpenAPI document
    are. *)

Unset Elimination Schemes.
Inductive value : Type :=
| VNone
| VBool (b : bool)
| VInt (n : Z)
| VFloat (bits : Z)
| VStr (s : string)
| VList (elems : list value)
| VDict (entries : list (string * value))
| VBytes (b : string)
| VDate (iso : string)
| VTuple (elems : list value)
| VSet (elems : list value).
Set Elimination Schemes.

(** [v == s] for a string literal [s]: only a string equals a string. *)
Definition is_str (s : string) (v : value) : bool :=
  match v with
  | VStr t => String.eqb t s
  | _ => false
  end.

(** [d.get(k) == s] *)
Definition get_is (d : dict value) (k s : string) : bool :=
  match dict_get d k with
  | Some v => is_str s v
  | None => false
  end.

(** [if k in prop: result[k] = prop[k]] *)
Definition copy_key {A : Type} (k : string) (prop result : dict A) : dict A :=
  match dict_get prop k with
  | Some v => dict_set result k v
  | None => result
  end.

(** What [k in x] and then [x[k]] or [x.get] do when [x] is a string, a
    list, a tuple or a set: the first recognised key found in it is indexed
    with a string ([TypeError]); when none is found the code reaches [x.get]
    ([AttributeError]). *)
Definition probe_non_dict (found : string -> bool) (probes : list string) : exn :=
  if existsb found probes then TypeError else AttributeError.

(** The fields copied before [items] is looked at. *)
Definition first_copies {A : Type} (d : dict A) : dict A :=
  copy_key "example" d (copy_key "description" d (copy_key "type" d [])).

(** The fields copied after [items]. *)
Definition finished {A : Type} (d result : dict A) : dict A :=
  copy_key "enum" d (copy_key "format" d result).

Definition draft07 : string := "http://json-schema.org/draft-07/schema#".

(** The converted schema before [properties] is looked at. *)
Definition schema_head (d : dict value) : dict value :=
  copy_key "description" d
    (copy_key "title" d
       [("$schema", VStr draft07);
        ("type", match dict_get d "type" with
                 | Some t => t
                 | None => VStr "object"
                 end)]).

(** The documents on which the conversions return: a Property Object is a
    dictionary whose [items], where the conversion looks at it (no [$ref],
    [type] equal to ["array"]), is a Property Object again; a Schema Object
    is a dictionary whose [properties], when present, is a dictionary of
    Property Objects. *)
Fixpoint property_object (v : value) : bool :=
  match v with
  | VDict d =>
      match dict_get d "$ref" with
      | Some _ => true
      | None =>
          if get_is d "type" "array" then
            (fix items_ok (l : list (string * value)) : bool :=
               match l with
               | [] => true
               | (k, x) :: tl =>
                   if String.eqb k "items" then property_object x
                   else items_ok tl
               end) d
          else true
      end
  | _ => false
  end.

Definition schema_object (v : value) : bool :=
  match v with
  | VDict d =>
      match dict_get d "properties" with
      | None => true
      | Some (VDict props) => forallb (fun kv => property_object (snd kv)) props
      | Some _ => false
      end
  | _ => false
  end.

(** What [json.dump] can write: everything but bytes, a date and a set,
    wherever they are in the value (a tuple is written as a list is). *)
Fixpoint json_serialisable (v : value) : bool :=
  match v with
  | VNone | VBool _ | VInt _ | VFloat _ | VStr _ => true
  | VList l | VTuple l =>
      (fix all (l : list value) : bool :=
         match l with
         | [] => true
         | x :: tl => json_serialisable x && all tl
         end) l
  | VDict d =>
      (fix all (l : list (string * value)) : bool :=
         match l with
         | [] => true
         | (_, x) :: tl => json_serialisable x && all tl
         end) d
  | VBytes _ | VDate _ | VSet _ => false
  end.

(** What [json.dump] leaves in the file it writes to: the text of a value,
    or, when it meets something it cannot write, the beginning of that text
    (the text is written piece by piece, and the pieces before the
    exception stay in the file). *)
Inductive dumped : Type :=
| Complete (v : value)
| Truncated (v : value).

(** [n] arrays around [leaf]: [{type: array, items: {type: array, ...}}] *)
Fixpoint array_of (n : nat) (leaf : value) : value :=
  match n with
  | 0 => leaf
  | S n => VDict [("type", VStr "array"); ("items", array_of n leaf)]
  end.

(** The keys [convert_property] copies, and the keys a converted schema
    may carry. *)
Definition copied_keys : list string :=
  ["type"; "description"; "example"; "format"; "enum"].

Definition schema_keys : list string :=
  ["$schema"; "type"; "title"; "description"; "properties"; "required"].

(** ** Characters

    A string holds the UTF-8 bytes of a Python [str].  The loop
    [for c in schema_name] goes through the characters of the name, and a
    character is the group of bytes that encodes one code point. *)

(** The number of bytes of the character that begins with the byte [b]. *)
Definition utf8_width (b : ascii) : nat :=
  let n := nat_of_ascii b in
  if Nat.ltb n 192 then 1
  else if Nat.ltb n 224 then 2
  else if Nat.ltb n 240 then 3
  else 4.

(** The characters of [s], when [missing] bytes of the character being
    read are still to come: these bytes (or those there are), and the
    characters after them. *)
Fixpoint chars_from (missing : nat) (s : string) : string * list string :=
  match s with
  | EmptyString => (EmptyString, [])
  | String b tl =>
      match missing with
      | S m => let (cur, rest) := chars_from m tl in (String b cur, rest)
      | 0 =>
          let (cur, rest) := chars_from (utf8_width b - 1) tl in
          (EmptyString, String b cur :: rest)
      end
  end.

(** [list(s)]: the characters of [s] *)
Definition chars (s : string) : list string := snd (chars_from 0 s).

(** [s.isascii()] *)
Fixpoint isascii (s : string) : bool :=
  match s with
  | EmptyString => true
  | String b tl => Nat.ltb (nat_of_ascii b) 128 && isascii tl
  end.

(** [c.isupper()] and [c.lower()] for a character of the ASCII range: the
    upper-case letters are A to Z, and [lower] moves them to a to z. *)
Definition ascii_isupper (b : ascii) : bool :=
  Nat.leb 65 (nat_of_ascii b) && Nat.leb (nat_of_ascii b) 90.

Definition ascii_lower (b : ascii) : ascii :=
  if ascii_isupper b then ascii_of_nat (nat_of_ascii b + 32) else b.

(** [s.lstrip('_')] *)
Fixpoint lstrip_underscore (s : string) : string :=
  match s with
  | EmptyString => EmptyString
  | String c tl => if Ascii.eqb c "_" then lstrip_underscore tl else s
  end.

Definition starts_with_underscore (s : string) : bool :=
  match s with
  | String c _ => Ascii.eqb c "_"
  | EmptyString => false
  end.

(** [s] begins with something else than an underscore. *)
Definition letter_first (s : string) : bool :=
  match s with
  | String c _ => negb (Ascii.eqb c "_")
  | EmptyString => false
  end.

(** The built-in list used when no schema name is requested. *)
Definition default_schema_names : list string :=
  ["account"; "status"; "instance"; "accountRelationship"; "poll";
   "notification"; "list"; "filter"; "filterV2"; "conversation";
   "scheduledStatus"; "mediaAttachment"; "emoji"; "tag"; "card";
   "application"].

(** [str(n)] for a count *)
Definition nat_str (n : nat) : string :=
  NilEmpty.string_of_uint (Nat.to_uint n).

Section Tree.

(** [str(v)] for an object that is not a string (builtin). *)
Variable py_repr : value -> string.

(** [f"{v}"] *)
Definition py_str (v : value) : string :=
  match v with
  | VStr s => s
  | _ => py_repr v
  end.

(** [{"type": "object", "description": f"Reference: {prop['$ref']}"}] *)
Definition ref_stub (r : value) : value :=
  VDict [("type", VStr "object");
         ("description", VStr ("Reference: " ++ py_str r))].

Fixpoint convert_property (prop : value) : res value :=
  match prop with
  | VDict d =>
      let result := [] in
      match dict_get d "$ref" with
      | Some r => Ok (ref_stub r)
      | None =>
          let result := copy_key "type" d result in
          let result := copy_key "description" d result in
          let result := copy_key "example" d result in
          do result <-
            (if get_is d "type" "array" then
               (fix items_of (l : list (string * value)) : res (dict value) :=
                  match l with
                  | [] => Ok result
                  | (k, v) :: tl =>
                      if String.eqb k "items" then
                        do c <- convert_property v;
                        Ok (dict_set result "items" c)
                      else items_of tl
                  end) d
             else Ok result);
          let result := copy_key "format" d result in
          let result := copy_key "enum" d result in
          Ok (VDict result)
      end
  | VStr s =>
      Raise (probe_non_dict (fun k => str_contains k s)
               ["$ref"; "type"; "description"; "example"])
  | VList l | VTuple l | VSet l =>
      Raise (probe_non_dict (fun k => existsb (is_str k) l)
               ["$ref"; "type"; "description"; "example"])
  | VNone | VBool _ | VInt _ | VFloat _ | VBytes _ | VDate _ => Raise TypeError
  end.

(** The [for prop_name, prop_def in ....items()] loop, filling the new
    [properties] dictionary [acc]. *)
Fixpoint convert_properties (props acc : dict value) : res (dict value) :=
  match props with
  | [] => Ok acc
  | (prop_name, prop_def) :: tl =>
      do c <- convert_property prop_def;
      convert_properties tl (dict_set acc prop_name c)
  end.

Definition convert_openapi_to_jsonschema (openapi_schema : value) : res value :=
  match openapi_schema with
  | VDict d =>
      let json_schema :=
        [("$schema", VStr draft07);
         ("type", match dict_get d "type" with
                  | Some t => t
                  | None => VStr "object"
                  end)] in
      let json_schema := copy_key "title" d json_schema in
      let json_schema := copy_key "description" d json_schema in
      do json_schema <-
        match dict_get d "properties" with
        | Some (VDict props) =>
            do converted <- convert_properties props [];
            Ok (dict_set json_schema "properties" (VDict converted))
        | Some _ => Raise AttributeError
        | None => Ok json_schema
        end;
      let json_schema := copy_key "required" d json_schema in
      Ok (VDict json_schema)
  | _ => Raise AttributeError
  end.

(** *** Output file names *)

(** [c.isupper()] and [c.lower()] for a character outside the ASCII range
    (builtins, from the Unicode database of the interpreter).  The
    lower-case form may be the character itself, another character or
    several characters. *)
Variable unicode_isupper : string -> bool.
Variable unicode_lower : string -> string.

(** [c.isupper()] for a character [c] *)
Definition isupper (c : string) : bool :=
  match c with
  | String b EmptyString =>
      if Nat.ltb (nat_of_ascii b) 128 then ascii_isupper b else unicode_isupper c
  | _ => unicode_isupper c
  end.

(** [c.lower()] for a character [c] *)
Definition lower (c : string) : string :=
  match c with
  | String b EmptyString =>
      if Nat.ltb (nat_of_ascii b) 128 then String (ascii_lower b) EmptyString
      else unicode_lower c
  | _ => unicode_lower c
  end.

(** [['_' + c.lower() if c.isupper() else c for c in schema_name]] *)
Definition snake_pieces (schema_name : string) : list string :=
  map (fun c => if isupper c then String "_" (lower c) else c)
    (chars schema_name).

(** [''.join([...]).lstrip('_')], line 140 of the script *)
Definition output_name (schema_name : string) : string :=
  lstrip_underscore (String.concat "" (snake_pieces schema_name)).

(** The transform as the specification words it: every upper-case letter
    becomes an underscore and its lower-case form, and the leading underscore
    that this produces (the name began with an upper-case letter) is
    removed. *)
Fixpoint spec_replace_chars (cs : list string) : string :=
  match cs with
  | [] => EmptyString
  | c :: tl =>
      if isupper c then String "_" (lower c ++ spec_replace_chars tl)
      else c ++ spec_replace_chars tl
  end.

Definition spec_replace_upper (schema_name : string) : string :=
  spec_replace_chars (chars schema_name).

Definition spec_output_name (schema_name : string) : string :=
  match chars schema_name with
  | [] => EmptyString
  | c :: tl =>
      if isupper c then lower c ++ spec_replace_chars tl
      else spec_replace_upper schema_name
  end.

Definition has_upper (s : string) : bool := existsb isupper (chars s).

(** When [s] begins with an upper-case letter, the lower-case form of that
    letter begins with something else than an underscore (as a lower-case
    form does). *)
Definition first_lower_is_letter (s : string) : bool :=
  match chars s with
  | c :: _ => if isupper c then letter_first (lower c) else true
  | [] => true
  end.

(** *** The extraction run

    The run acts on the outside through directories it makes, files it
    writes and lines it prints; [world] records them in order. *)

(** [pathlib.Path], its [/] and its [str()] (library). *)
Variable path : Type.
Variable path_div : path -> string -> path.
Variable path_str : path -> string.

Record world : Type := mkWorld {
  made_dirs : list path;
  written : list (path * dumped);
  stdout : list string;
  stderr : list string
}.

Definition empty_world : world := mkWorld [] [] [] [].

Definition mkdir (p : path) (w : world) : world :=
  mkWorld (made_dirs w ++ [p]) (written w) (stdout w) (stderr w).

(** [with open(p, 'w') as f: json.dump(v, f, indent=2)]: the file is opened
    and the text of [v] written to it; when [v] holds something that cannot
    be written, [json.dump] raises [TypeError] on reaching it and the file
    is left with the beginning of the text. *)
Definition write_json (p : path) (v : value) (w : world) : world * res unit :=
  if json_serialisable v then
    (mkWorld (made_dirs w) (written w ++ [(p, Complete v)]) (stdout w) (stderr w),
     Ok tt)
  else
    (mkWorld (made_dirs w) (written w ++ [(p, Truncated v)]) (stdout w) (stderr w),
     Raise TypeError).

Definition print (line : string) (w : world) : world :=
  mkWorld (made_dirs w) (written w) (stdout w ++ [line]) (stderr w).

Definition print_err (line : string) (w : world) : world :=
  mkWorld (made_dirs w) (written w) (stdout w) (stderr w ++ [line]).

Definition not_found_line (schema_name : string) : string :=
  "✗ Schema '" ++ schema_name ++ "' not found in swagger.yaml".

Definition extracted_line (schema_name : string) (output_file : path) : string :=
  "✓ Extracted " ++ schema_name ++ " -> " ++ path_str output_file.

Definition summary_line (extracted : nat) (output_dir : path) : string :=
  String (ascii_of_nat 10)
    ("Extracted " ++ nat_str extracted ++ " schemas to " ++ path_str output_dir).

(** [schema_name in definitions] followed, when it holds, by
    [definitions[schema_name]].  A dictionary is the intended case; a
    string, a list, a tuple or a set answers the membership test and then
    cannot be indexed by a string; anything else cannot be tested. *)
Definition lookup_definition (definitions : value) (schema_name : string)
  : res (option value) :=
  match definitions with
  | VDict d => Ok (dict_get d schema_name)
  | VStr s => if str_contains schema_name s then Raise TypeError else Ok None
  | VList l | VTuple l | VSet l =>
      if existsb (is_str schema_name) l then Raise TypeError else Ok None
  | VNone | VBool _ | VInt _ | VFloat _ | VBytes _ | VDate _ => Raise TypeError
  end.

(** The [for schema_name in schema_names] loop; an exception leaves the
    loop with the world as it is at that point. *)
Fixpoint extract_loop (definitions : value) (output_dir : path)
    (schema_names : list string) (extracted : nat) (w : world)
  : world * res nat :=
  match schema_names with
  | [] => (w, Ok extracted)
  | schema_name :: rest =>
      match lookup_definition definitions schema_name with
      | Raise e => (w, Raise e)
      | Ok (Some schema_def) =>
          match convert_openapi_to_jsonschema schema_def with
          | Raise e => (w, Raise e)
          | Ok json_schema =>
              let output_file :=
                path_div output_dir (output_name schema_name ++ ".json") in
              match write_json output_file json_schema w with
              | (w, Raise e) => (w, Raise e)
              | (w, Ok _) =>
                  let w := print (extracted_line schema_name output_file) w in
                  extract_loop definitions output_dir rest (S extracted) w
              end
          end
      | Ok None =>
          let w := print_err (not_found_line schema_name) w in
          extract_loop definitions output_dir rest extracted w
      end
  end.

(** [swagger.get('definitions', {})] *)
Definition definitions_table (top : dict value) : value :=
  match dict_get top "definitions" with
  | Some v => v
  | None => VDict []
  end.

(** The names to extract: the requested ones, or the built-in list. *)
Definition requested (schema_names : option (list string)) : list string :=
  match schema_names with
  | Some l => l
  | None => default_schema_names
  end.

(** [swagger] is the parsed source document. *)
Definition extract_schemas (swagger : value) (output_dir : path)
    (schema_names : option (list string)) (w : world) : world * res unit :=
  match swagger with
  | VDict top =>
      let definitions := definitions_table top in
      let schema_names := requested schema_names in
      let w := mkdir output_dir w in
      match extract_loop definitions output_dir schema_names 0 w with
      | (w, Ok extracted) => (print (summary_line extracted output_dir) w, Ok tt)
      | (w, Raise e) => (w, Raise e)
      end
  | _ => (w, Raise AttributeError)
  end.

(** How the process ends: [sys.exit(n)] or falling off the end of [main]
    (status 0), or an exception nobody catches (the interpreter then exits
    with status 1). *)
Inductive ending : Type :=
| Exit (status : Z)
| Uncaught (e : exn).

Definition exit_status (e : ending) : Z :=
  match e with
  | Exit n => n
  | Uncaught _ => 1%Z
  end.

(** [source] is [None] when no file exists at [swagger_path], and the
    parsed document otherwise. *)
Definition main (swagger_path : path) (source : option value)
    (output_dir : path) (schemas : option (list string)) : world * ending :=
  match source with
  | None =>
      (print_err ("Error: swagger.yaml not found at " ++ path_str swagger_path)
         empty_world,
       Exit 1%Z)
  | Some swagger =>
      match extract_schemas swagger output_dir schemas empty_world with
      | (w, Ok _) => (w, Exit 0%Z)
      | (w, Raise e) => (w, Uncaught e)
      end
  end.

(** Two worlds with the same directories, files and standard output (they
    may differ on the error stream). *)
Definition same_outputs (w1 w2 : world) : Prop :=
  made_dirs w1 = made_dirs w2 /\ written w1 = written w2 /\
  stdout w1 = stdout w2.

End Tree.

Arguments made_dirs {path} w.
Arguments written {path} w.
Arguments stdout {path} w.
Arguments stderr {path} w.
Arguments print_err {path} line w.
Arguments same_outputs {path} w1 w2.

(** ** Store embedding

    Lists, dictionaries, tuples and sets are objects in a store, referred
    to by their address; the other values are immutable and carried in the
    reference.  A new object takes the next free address. *)

Inductive pyref : Type :=
| RNone
| RBool (b : bool)
| RInt (n : Z)
| RFloat (bits : Z)
| RStr (s : string)
| RObj (a : nat)
| RBytes (b : string)
| RDate (iso : string).

Inductive obj : Type :=
| OList (elems : list pyref)
| ODict (entries : dict pyref)
| OTuple (elems : list pyref)
| OSet (elems : list pyref).

Abbreviation heap := (list obj).

(** Computations on the store that may raise *)
Definition M (A : Type) : Type := heap -> heap * res A.

Definition ret {A : Type} (a : A) : M A := fun h => (h, Ok a).

Definition raise {A : Type} (e : exn) : M A := fun h => (h, Raise e).

Definition mbind {A B : Type} (m : M A) (k : A -> M B) : M B :=
  fun h =>
    match m h with
    | (h', Ok a) => k a h'
    | (h', Raise e) => (h', Raise e)
    end.

Notation "'let*' x := m 'in' k" := (mbind m (fun x => k))
  (at level 10, x name, m at level 100, k at level 200).
Notation "m ;;; k" := (mbind m (fun _ => k))
  (at level 60, right associativity).

(** [{...}]: a new dictionary object *)
Definition new_dict (d : dict pyref) : M pyref :=
  fun h => (h ++ [ODict d], Ok (RObj (length h))).

Definition ref_is_str (s : string) (r : pyref) : bool :=
  match r with
  | RStr t => String.eqb t s
  | _ => false
  end.

(** [k in x] *)
Definition contains (k : string) (x : pyref) : M bool :=
  fun h =>
    match x with
    | RObj a =>
        match h !! a with
        | Some (ODict d) => (h, Ok (dict_mem k d))
        | Some (OList l) | Some (OTuple l) | Some (OSet l) =>
            (h, Ok (existsb (ref_is_str k) l))
        | None => (h, Raise SystemError)
        end
    | RStr s => (h, Ok (str_contains k s))
    | RNone | RBool _ | RInt _ | RFloat _ | RBytes _ | RDate _ =>
        (h, Raise TypeError)
    end.

(** [x[k]] for a string [k] *)
Definition getitem (x : pyref) (k : string) : M pyref :=
  fun h =>
    match x with
    | RObj a =>
        match h !! a with
        | Some (ODict d) =>
            match dict_get d k with
            | Some v => (h, Ok v)
            | None => (h, Raise KeyError)
            end
        | Some (OList _) | Some (OTuple _) | Some (OSet _) =>
            (h, Raise TypeError)
        | None => (h, Raise SystemError)
        end
    | _ => (h, Raise TypeError)
    end.

(** [x.get(k, default)] *)
Definition get_method (x : pyref) (k : string) (default : pyref) : M pyref :=
  fun h =>
    match x with
    | RObj a =>
        match h !! a with
        | Some (ODict d) =>
            match dict_get d k with
            | Some v => (h, Ok v)
            | None => (h, Ok default)
            end
        | Some (OList _) | Some (OTuple _) | Some (OSet _) =>
            (h, Raise AttributeError)
        | None => (h, Raise SystemError)
        end
    | _ => (h, Raise AttributeError)
    end.

(** [x[k] = v] for a string [k]: the object at the address of [x] is
    updated in place. *)
Definition setitem (x : pyref) (k : string) (v : pyref) : M unit :=
  fun h =>
    match x with
    | RObj a =>
        match h !! a with
        | Some (ODict d) => (<[a := ODict (dict_set d k v)]> h, Ok tt)
        | Some (OList _) | Some (OTuple _) | Some (OSet _) =>
            (h, Raise TypeError)
        | None => (h, Raise SystemError)
        end
    | _ => (h, Raise TypeError)
    end.

(** [x.items()], as the sequence the loop goes through *)
Definition items_method (x : pyref) : M (list (string * pyref)) :=
  fun h =>
    match x with
    | RObj a =>
        match h !! a with
        | Some (ODict d) => (h, Ok d)
        | Some (OList _) | Some (OTuple _) | Some (OSet _) =>
            (h, Raise AttributeError)
        | None => (h, Raise SystemError)
        end
    | _ => (h, Raise AttributeError)
    end.

(** [if k in prop: result[k] = prop[k]] *)
Definition copy_key_h (k : string) (prop result : pyref) : M unit :=
  let* has := contains k prop in
  if has then let* v := getitem prop k in setitem result k v else ret tt.

Section Store.

(** [str(x)] for a stored object that is not a string (builtin). *)
Variable heap_repr : heap -> pyref -> string.

(** [f"{x}"] *)
Definition format (x : pyref) : M string :=
  fun h =>
    match x with
    | RStr s => (h, Ok s)
    | _ => (h, Ok (heap_repr h x))
    end.

(** [depth] is the number of calls the interpreter still allows; a cyclic
    document (YAML anchors allow one) exhausts it. *)
Fixpoint convert_property_h (depth : nat) (prop : pyref) : M pyref :=
  match depth with
  | 0 => raise RecursionError
  | S depth =>
      let* result := new_dict [] in
      let* has_ref := contains "$ref" prop in
      if has_ref then
        let* r := getitem prop "$ref" in
        let* s := format r in
        new_dict [("type", RStr "object");
                  ("description", RStr ("Reference: " ++ s))]
      else
        copy_key_h "type" prop result ;;;
        copy_key_h "description" prop result ;;;
        copy_key_h "example" prop result ;;;
        let* t := get_method prop "type" RNone in
        let* has_items := (if ref_is_str "array" t then contains "items" prop
                      else ret false) in
        (if has_items then
           let* it := getitem prop "items" in
           let* c := convert_property_h depth it in
           setitem result "items" c
         else ret tt) ;;;
        copy_key_h "format" prop result ;;;
        copy_key_h "enum" prop result ;;;
        ret result
  end.

(** The loop [json_schema["properties"][prop_name] = convert_property(prop_def)]:
    the right-hand side is evaluated first, then the target. *)
Fixpoint convert_properties_h (depth : nat) (props : list (string * pyref))
    (json_schema : pyref) : M unit :=
  match props with
  | [] => ret tt
  | (prop_name, prop_def) :: tl =>
      let* c := convert_property_h depth prop_def in
      let* target := getitem json_schema "properties" in
      setitem target prop_name c ;;;
      convert_properties_h depth tl json_schema
  end.

Definition convert_openapi_to_jsonschema_h (depth : nat)
    (openapi_schema : pyref) : M pyref :=
  let* t := get_method openapi_schema "type" (RStr "object") in
  let* json_schema := new_dict [("$schema", RStr draft07); ("type", t)] in
  copy_key_h "title" openapi_schema json_schema ;;;
  copy_key_h "description" openapi_schema json_schema ;;;
  let* has := contains "properties" openapi_schema in
  (if has then
     let* fresh := new_dict [] in
     setitem json_schema "properties" fresh ;;;
     let* props := getitem openapi_schema "properties" in
     let* its := items_method props in
     convert_properties_h depth its json_schema
   else ret tt) ;;;
  copy_key_h "required" openapi_schema json_schema ;;;
  ret json_schema.

End Store.

(** Reading a stored value back as a tree.  [n] bounds the nesting and
    only the objects at the addresses in [D] may be read. *)
Fixpoint read_all {A B : Type} (f : A -> option B) (l : list A) : option (list B) :=
  match l with
  | [] => Some []
  | a :: tl =>
      match f a, read_all f tl with
      | Some b, Some bs => Some (b :: bs)
      | _, _ => None
      end
  end.

Definition read_entry (f : pyref -> option value) (kr : string * pyref)
  : option (string * value) :=
  match f (snd kr) with
  | Some v => Some (fst kr, v)
  | None => None
  end.

Fixpoint read_back (D : nat -> bool) (n : nat) (h : heap) (r : pyref)
  : option value :=
  match r with
  | RNone => Some VNone
  | RBool b => Some (VBool b)
  | RInt z => Some (VInt z)
  | RFloat bits => Some (VFloat bits)
  | RStr s => Some (VStr s)
  | RBytes b => Some (VBytes b)
  | RDate iso => Some (VDate iso)
  | RObj a =>
      match n with
      | 0 => None
      | S n =>
          if D a then
            match h !! a with
            | Some (OList l) => option_map VList (read_all (read_back D n h) l)
            | Some (ODict d) =>
                option_map VDict (read_all (read_entry (read_back D n h)) d)
            | Some (OTuple l) =>
                option_map VTuple (read_all (read_back D n h) l)
            | Some (OSet l) => option_map VSet (read_all (read_back D n h) l)
            | None => None
            end
          else None
      end
  end.

(** All addresses, and the addresses of [D] together with those from [n]
    on. *)
Definition anywhere (i : nat) : bool := true.

Definition grown (D : nat -> bool) (n : nat) (i : nat) : bool :=
  D i || Nat.leb n i.

(** Two dictionaries with the same keys in the same order and related
    values. *)
Definition dict_reads (R : pyref -> value -> Prop) (d : dict pyref)
    (dv : dict value) : Prop :=
  Forall2 (fun kr kv => fst kr = fst kv /\ R (snd kr) (snd kv)) d dv.

(** *** Reasoning on the store *)

(** Every object of [h] is still there, with the same content, in [h']. *)
Definition unchanged (h h' : heap) : Prop :=
  forall i o, h !! i = Some o -> h' !! i = Some o.

(** [x] is a dictionary of [h'] that [h] does not have. *)
Definition fresh_dict (h h' : heap) (x : pyref) : Prop :=
  exists a d, x = RObj a /\ h !! a = None /\ h' !! a = Some (ODict d).

(** A computation that does not write. *)
Definition pure {A : Type} (m : M A) : Prop :=
  forall h h' r, m h = (h', r) -> h' = h.

(** From a store satisfying [P], [m] ends with a value and a store
    satisfying [Q], or raises leaving a store that satisfies [E]. *)
Definition triple {A : Type} (P : heap -> Prop) (m : M A)
    (Q : A -> heap -> Prop) (E : heap -> Prop) : Prop :=
  forall h h' r, P h -> m h = (h', r) ->
    match r with
    | Ok a => Q a h'
    | Raise _ => E h'
    end.

(** The store while a conversion is building its result at address [a]:
    the objects of the initial store [h0] are unchanged and [a], which [h0]
    does not have, holds a dictionary. *)
Definition building (h0 : heap) (a : nat) (h : heap) : Prop :=
  unchanged h0 h /\ h0 !! a = None /\ exists d, h !! a = Some (ODict d).

(** [H] is [Hb] with the dictionary [res] at address [a]. *)
Definition result_at (Hb : heap) (a : nat) (res : dict pyref) (H : heap) : Prop :=
  length H = length Hb /\ H !! a = Some (ODict res) /\
  forall i, i <> a -> H !! i = Hb !! i.

(** The same while the loop fills the dictionary at [b], which the result
    at [a] has under [properties]. *)
Definition filling (h0 : heap) (a b : nat) (h : heap) : Prop :=
  unchanged h0 h /\ h0 !! a = None /\ h0 !! b = None /\ a <> b /\
  (exists d, h !! a = Some (ODict d) /\ dict_get d "properties" = Some (RObj b)) /\
  (exists d, h !! b = Some (ODict d)).

(** ** Sample documents

    Concrete inputs on which the theorems below are instantiated. *)

Definition sample_repr (v : value) : string := "<object>".

Definition sample_heap_repr (h : heap) (x : pyref) : string := "<object>".

(** A part of the Unicode database: the upper-case letters [É], whose
    lower-case form is [é], [İ], whose lower-case form is the two characters
    [i] and a combining dot, and [ℂ], which is its own lower-case form. *)
Definition sample_isupper (c : string) : bool :=
  String.eqb c "É" || String.eqb c "İ" || String.eqb c "ℂ".

Definition sample_lower (c : string) : string :=
  if String.eqb c "É" then "é"
  else if String.eqb c "İ" then "i̇"
  else c.

Definition sample_path_div (dir name : string) : string :=
  dir ++ "/" ++ name.

Definition sample_path_str (p : string) : string := p.

Definition sample_ref : dict value :=
  [("description", VStr "the owner");
   ("$ref", VStr "#/definitions/account");
   ("type", VStr "array");
   ("items", VInt 3)].

Definition sample_array : dict value :=
  [("format", VStr "tags");
   ("type", VStr "array");
   ("x-nullable", VBool true);
   ("enum", VList [VList [VStr "a"]; VList []]);
   ("items", VDict [("type", VStr "array");
                    ("items", VDict [("type", VStr "string");
                                     ("example", VStr "rust")])]);
   ("example", VList [VList [VStr "rust"]]);
   ("description", VStr "groups of tags")].

Definition sample_schema : dict value :=
  [("title", VStr "Account");
   ("items", VDict [("type", VStr "string")]);
   ("example", VInt 1);
   ("type", VStr "array");
   ("properties", VDict [("id", VDict [("type", VStr "string")]);
                         ("tags", VDict sample_array);
                         ("owner", VDict sample_ref)]);
   ("required", VList [VStr "id"])].

Definition sample_definitions : dict value :=
  [("account", VDict sample_schema);
   ("status", VDict [("type", VStr "object")])].

Definition sample_swagger : dict value :=
  [("swagger", VStr "2.0"); ("definitions", VDict sample_definitions)].

(** A store holding a schema whose two properties share one object, and
    a list referred to from two places. *)
Definition sample_heap : heap :=
  [ODict [("type", RStr "object"); ("properties", RObj 1); ("required", RObj 2)];
   ODict [("tags", RObj 3); ("more_tags", RObj 3)];
   OList [RStr "tags"];
   ODict [("type", RStr "array"); ("items", RObj 4); ("enum", RObj 2)];
   ODict [("$ref", RStr "#/definitions/tag")]].

(** More sample documents: the sample array with its keys in another
    order and two more keys; a schema with a property whose [items] is not a
    dictionary; a Definitions Table holding it; a store whose only object is
    an array that is its own [items]. *)
Definition sample_array_reordered : dict value :=
  [("enum", VList [VList [VStr "a"]; VList []]);
   ("x-order", VInt 7);
   ("items", VDict [("type", VStr "array");
                    ("items", VDict [("type", VStr "string");
                                     ("example", VStr "rust")])]);
   ("description", VStr "groups of tags");
   ("type", VStr "array");
   ("example", VList [VList [VStr "rust"]]);
   ("format", VStr "tags");
   ("title", VStr "Tags")].

Definition sample_schema_reordered : dict value :=
  [("required", VList [VStr "id"]);
   ("properties", VDict [("id", VDict [("type", VStr "string")]);
                         ("tags", VDict sample_array);
                         ("owner", VDict sample_ref)]);
   ("type", VStr "array");
   ("title", VStr "Account");
   ("x-go-name", VStr "Account")].

Definition sample_broken_schema : dict value :=
  [("type", VStr "object");
   ("properties", VDict [("id", VDict [("type", VStr "string")]);
                         ("tags", VDict [("type", VStr "array");
                                         ("items", VStr "string")]);
                         ("owner", VDict sample_ref)])].

Definition sample_broken_definitions : dict value :=
  [("account", VDict sample_schema);
   ("card", VDict sample_broken_schema);
   ("status", VDict [("type", VStr "object")])].

Definition sample_broken_swagger : dict value :=
  [("definitions", VDict sample_broken_definitions)].

(** A schema with a date given as an example, which the parser reads as a
    date, and a Definitions Table holding it. *)
Definition sample_dated_schema : dict value :=
  [("type", VStr "object");
   ("properties",
    VDict [("created_at", VDict [("type", VStr "string");
                                 ("format", VStr "date");
                                 ("example", VDate "2020-01-02")])])].

Definition sample_dated_converted : value :=
  VDict [("$schema", VStr draft07);
         ("type", VStr "object");
         ("properties",
          VDict [("created_at", VDict [("type", VStr "string");
                                       ("example", VDate "2020-01-02");
                                       ("format", VStr "date")])])].

Definition sample_dated_definitions : dict value :=
  [("account", VDict sample_schema);
   ("event", VDict sample_dated_schema);
   ("status", VDict [("type", VStr "object")])].

Definition sample_dated_swagger : dict value :=
  [("definitions", VDict sample_dated_definitions)].

Definition sample_cycle : heap :=
  [ODict [("type", RStr "array"); ("items", RObj 0)]].

(** ** Vocabulary of the further properties *)

(** The order in which [convert_property] writes its keys, and the keys of
    that order that a Property Object [d] without [$ref] gets on its
    output. *)
Definition property_key_order : list string :=
  ["type"; "description"; "example"; "items"; "format"; "enum"].

Definition on_output (d : dict value) (k : string) : bool :=
  if String.eqb k "items"
  then get_is d "type" "array" && dict_mem "items" d
  else dict_mem k d.

(** The keys the conversions look at. *)
Definition recognised_keys : list string :=
  ["$ref"; "type"; "description"; "example"; "items"; "format"; "enum"].

Definition recognised_schema_keys : list string :=
  ["type"; "title"; "description"; "properties"; "required"].

(** A definition that a run can extract: it is converted, and [json.dump]
    can write what it is converted to. *)
Definition extractable (py_repr : value -> string) (schema_def : value) : bool :=
  match convert_openapi_to_jsonschema py_repr schema_def with
  | Ok json_schema => json_serialisable json_schema
  | Raise _ => false
  end.

(** [m2] does what [m1] does, unless [m1] exhausts the depth of calls. *)
Definition spared {A : Type} (m1 m2 : M A) : Prop :=
  forall h h' r, m1 h = (h', r) -> r <> Raise RecursionError -> m2 h = (h', r).

(** * Properties *)

(** ** Dictionaries *)

Lemma dict_mem_get {A : Type} (k : string) (d : dict A) :
  dict_mem k d = match dict_get d k with Some _ => true | None => false end.
Proof.
  induction d as [|[k' v] tl IH]; simpl; [reflexivity|].
  destruct (String.eqb k' k); [reflexivity | exact IH].
Qed.

Lemma dict_get_set {A : Type} (d : dict A) (k k' : string) (v : A) :
  dict_get (dict_set d k v) k' =
  if String.eqb k k' then Some v else dict_get d k'.
Proof.
  induction d as [|[k0 v0] tl IH]; simpl.
  - reflexivity.
  - destruct (String.eqb k0 k) eqn:E0; simpl.
    + apply String.eqb_eq in E0; subst k0.
      destruct (String.eqb k k'); reflexivity.
    + rewrite IH. destruct (String.eqb k0 k') eqn:E1; [|reflexivity].
      apply String.eqb_eq in E1; subst k0.
      rewrite String.eqb_sym, E0. reflexivity.
Qed.

Lemma keys_dict_set {A : Type} (d : dict A) (k : string) (v : A) :
  keys (dict_set d k v) = if dict_mem k d then keys d else keys d ++ [k].
Proof.
  unfold keys. induction d as [|[k0 v0] tl IH]; simpl.
  - reflexivity.
  - destruct (String.eqb k0 k); simpl; [reflexivity|].
    rewrite IH. destruct (dict_mem k tl); reflexivity.
Qed.

Lemma dict_mem_In {A : Type} (k : string) (d : dict A) :
  dict_mem k d = true <-> In k (keys d).
Proof.
  unfold keys. induction d as [|[k0 v0] tl IH]; simpl.
  - split; [discriminate | tauto].
  - destruct (String.eqb k0 k) eqn:E.
    + apply String.eqb_eq in E. tauto.
    + apply String.eqb_neq in E. rewrite IH. tauto.
Qed.

Lemma dict_set_fresh {A : Type} (d : dict A) (k : string) (v : A) :
  ~ In k (keys d) -> dict_set d k v = d ++ [(k, v)].
Proof.
  unfold keys. induction d as [|[k0 v0] tl IH]; simpl; intros Hn.
  - reflexivity.
  - destruct (String.eqb k0 k) eqn:E.
    + apply String.eqb_eq in E. tauto.
    + rewrite IH; [reflexivity | tauto].
Qed.

Lemma dict_get_copy_key (k k' : string) (prop result : dict value) :
  dict_get (copy_key k prop result) k' =
  if String.eqb k k'
  then match dict_get prop k with
       | Some v => Some v
       | None => dict_get result k'
       end
  else dict_get result k'.
Proof.
  unfold copy_key. destruct (dict_get prop k) as [v|].
  - rewrite dict_get_set. reflexivity.
  - destruct (String.eqb k k'); reflexivity.
Qed.

Lemma keys_copy_key_incl (k : string) (prop result : dict value) (x : string) :
  In x (keys (copy_key k prop result)) -> In x (keys result) \/ x = k.
Proof.
  unfold copy_key. destruct (dict_get prop k) as [v|]; [|tauto].
  rewrite keys_dict_set. destruct (dict_mem k result); [tauto|].
  rewrite in_app_iff. simpl. intuition.
Qed.

(** ** Induction on documents *)

Section ValueInduction.

Variable P : value -> Prop.
Hypothesis P_none : P VNone.
Hypothesis P_bool : forall b, P (VBool b).
Hypothesis P_int : forall n, P (VInt n).
Hypothesis P_float : forall bits, P (VFloat bits).
Hypothesis P_str : forall s, P (VStr s).
Hypothesis P_list : forall l, Forall P l -> P (VList l).
Hypothesis P_dict : forall d, Forall (fun kv => P (snd kv)) d -> P (VDict d).
Hypothesis P_bytes : forall b, P (VBytes b).
Hypothesis P_date : forall iso, P (VDate iso).
Hypothesis P_tuple : forall l, Forall P l -> P (VTuple l).
Hypothesis P_set : forall l, Forall P l -> P (VSet l).

Lemma value_ind : forall v, P v.
Proof.
  fix IH 1. intros [| b | n | bits | s | l | d | b | iso | l | l].
  - exact P_none.
  - apply P_bool.
  - apply P_int.
  - apply P_float.
  - apply P_str.
  - apply P_list. induction l as [|x tl IHl]; constructor; [apply IH | exact IHl].
  - apply P_dict. induction d as [|kv tl IHd]; constructor; [apply IH | exact IHd].
  - apply P_bytes.
  - apply P_date.
  - apply P_tuple. induction l as [|x tl IHl]; constructor; [apply IH | exact IHl].
  - apply P_set. induction l as [|x tl IHl]; constructor; [apply IH | exact IHl].
Qed.

End ValueInduction.

Lemma dict_get_In {A : Type} (d : dict A) (k : string) (v : A) :
  dict_get d k = Some v -> In (k, v) d.
Proof.
  induction d as [|[k0 v0] tl IH]; simpl; [discriminate|].
  destruct (String.eqb k0 k) eqn:E; [|auto].
  apply String.eqb_eq in E. intros [= <-]. left. congruence.
Qed.

(** ** The conversions on trees *)

Section TreeFacts.

Variable py_repr : value -> string.

Local Abbreviation convert_property := (convert_property py_repr).
Local Abbreviation convert_properties := (convert_properties py_repr).
Local Abbreviation convert_openapi_to_jsonschema :=
  (convert_openapi_to_jsonschema py_repr).
Local Abbreviation py_str := (py_str py_repr).

(** The body of [convert_property] on a dictionary, with the search for
    [items] written as a lookup. *)
Lemma convert_property_dict (d : dict value) :
  convert_property (VDict d) =
  match dict_get d "$ref" with
  | Some r => Ok (ref_stub py_repr r)
  | None =>
      do result <-
        (if get_is d "type" "array" then
           match dict_get d "items" with
           | Some it =>
               do c <- convert_property it;
               Ok (dict_set (first_copies d) "items" c)
           | None => Ok (first_copies d)
           end
         else Ok (first_copies d));
      Ok (VDict (copy_key "enum" d (copy_key "format" d result)))
  end.
Proof.
  simpl. destruct (dict_get d "$ref"); [reflexivity|].
  destruct (get_is d "type" "array"); [|reflexivity].
  fold (first_copies d). generalize (first_copies d) as result. intros result.
  f_equal.
  induction d as [|[k v] tl IH]; simpl; [reflexivity|].
  destruct (String.eqb k "items"); [reflexivity | exact IH].
Qed.

Lemma property_object_dict (d : dict value) :
  property_object (VDict d) =
  match dict_get d "$ref" with
  | Some _ => true
  | None =>
      if get_is d "type" "array" then
        match dict_get d "items" with
        | Some it => property_object it
        | None => true
        end
      else true
  end.
Proof.
  simpl. destruct (dict_get d "$ref"); [reflexivity|].
  destruct (get_is d "type" "array"); [|reflexivity].
  induction d as [|[k v] tl IH]; simpl; [reflexivity|].
  destruct (String.eqb k "items"); [reflexivity | exact IH].
Qed.

(** [convert_property] returns exactly on Property Objects, and what it
    returns is a dictionary. *)
Lemma convert_property_returns (v : value) :
  property_object v = true -> exists o, convert_property v = Ok (VDict o).
Proof.
  induction v as [| | | | | l _ | d IH | | | l _ | l _] using value_ind; try discriminate.
  rewrite property_object_dict, convert_property_dict.
  destruct (dict_get d "$ref") as [r|]; [intros _; eexists; reflexivity|].
  destruct (get_is d "type" "array"); [|intros _; eexists; reflexivity].
  destruct (dict_get d "items") as [it|] eqn:Eit; [|intros _; eexists; reflexivity].
  intros Hit. rewrite List.Forall_forall in IH.
  destruct (IH _ (dict_get_In _ _ _ Eit) Hit) as [o Ho]. simpl in Ho. rewrite Ho.
  eexists; reflexivity.
Qed.

Lemma convert_property_raises (v : value) :
  property_object v = false -> exists e, convert_property v = Raise e.
Proof.
  induction v as [| | | | | l _ | d IH | | | l _ | l _] using value_ind;
    try (intros _; eexists; reflexivity).
  rewrite property_object_dict, convert_property_dict.
  destruct (dict_get d "$ref") as [r|]; [discriminate|].
  destruct (get_is d "type" "array"); [|discriminate].
  destruct (dict_get d "items") as [it|] eqn:Eit; [|discriminate].
  intros Hit. rewrite List.Forall_forall in IH.
  destruct (IH _ (dict_get_In _ _ _ Eit) Hit) as [e He]. simpl in He. rewrite He.
  eexists; reflexivity.
Qed.

Lemma convert_property_ok_iff (v : value) :
  (exists r, convert_property v = Ok r) <-> property_object v = true.
Proof.
  split.
  - intros [r Hr]. destruct (property_object v) eqn:E; [reflexivity|].
    destruct (convert_property_raises v E) as [e He]. congruence.
  - intros H. destruct (convert_property_returns v H) as [o Ho]. eauto.
Qed.

Lemma dict_mem_false_get {A : Type} (k : string) (d : dict A) :
  dict_mem k d = false -> dict_get d k = None.
Proof.
  rewrite dict_mem_get. destruct (dict_get d k); [discriminate | reflexivity].
Qed.

Lemma dict_mem_true_get {A : Type} (k : string) (d : dict A) :
  dict_mem k d = true -> exists v, dict_get d k = Some v.
Proof.
  rewrite dict_mem_get. destruct (dict_get d k) as [v|]; [eauto | discriminate].
Qed.

(** What [convert_property] returns on a dictionary without [$ref]: the
    copies made before [items], then [items] when it is converted, then
    [format] and [enum]. *)
Lemma convert_property_no_ref (d : dict value) (out : value) :
  dict_mem "$ref" d = false ->
  convert_property (VDict d) = Ok out ->
  (get_is d "type" "array" = true /\
   exists it c, dict_get d "items" = Some it /\ convert_property it = Ok c /\
     out = VDict (finished d (dict_set (first_copies d) "items" c)))
  \/
  ((get_is d "type" "array" = false \/ dict_get d "items" = None) /\
   out = VDict (finished d (first_copies d))).
Proof.
  intros Href. rewrite convert_property_dict, (dict_mem_false_get _ _ Href).
  destruct (get_is d "type" "array").
  - destruct (dict_get d "items") as [it|].
    + destruct (convert_property it) as [c|e] eqn:Ec; simpl; [|discriminate].
      intros [= <-]. left. split; [reflexivity|]. exists it, c. auto.
    + simpl. intros [= <-]. right. auto.
  - simpl. intros [= <-]. right. auto.
Qed.

Lemma convert_property_with_ref (d : dict value) (r : value) :
  dict_get d "$ref" = Some r -> convert_property (VDict d) = Ok (ref_stub py_repr r).
Proof. intros Hr. rewrite convert_property_dict, Hr. reflexivity. Qed.

(** C1: a Property Object that has a [$ref] key is converted to exactly
    the two fields [type: "object"] and [description: "Reference: <ref>"],
    whatever its other keys are. *)
Theorem convert_property_ref (d : dict value) :
  dict_mem "$ref" d = true ->
  exists r, dict_get d "$ref" = Some r /\
    convert_property (VDict d) =
    Ok (VDict [("type", VStr "object");
               ("description", VStr ("Reference: " ++ py_str r))]).
Proof.
  intros H. destruct (dict_mem_true_get _ _ H) as [r Hr].
  exists r. split; [exact Hr|].
  exact (convert_property_with_ref d r Hr).
Qed.

(** A reference that is a string is printed as it is. *)
Lemma py_str_string (s : string) : py_str (VStr s) = s.
Proof. reflexivity. Qed.

(** C3: on a Property Object without [$ref] the conversion returns, and
    each of [type], [description], [example], [format], [enum] has on the
    output the value it has on the input, and is absent on the output when
    absent on the input. *)
Theorem convert_property_copies (d : dict value) :
  dict_mem "$ref" d = false ->
  (property_object (VDict d) = true ->
   exists out, convert_property (VDict d) = Ok out) /\
  (forall out, convert_property (VDict d) = Ok out ->
   exists o, out = VDict o /\
     forall k, In k copied_keys -> dict_get o k = dict_get d k).
Proof.
  intros Href. split.
  - intros Hp. destruct (convert_property_returns _ Hp) as [o Ho]. eauto.
  - intros out Hout.
    destruct (convert_property_no_ref d out Href Hout)
      as [(_ & it & c & _ & _ & ->) | (_ & ->)];
      eexists; (split; [reflexivity|]); intros k Hk;
      unfold copied_keys, finished, first_copies in *; simpl in Hk;
      repeat (destruct Hk as [<-|Hk]);
      try contradiction;
      rewrite ?dict_get_copy_key, ?dict_get_set; simpl;
      rewrite ?dict_get_copy_key, ?dict_get_set; simpl;
      repeat match goal with
             | |- context [match dict_get d ?k with _ => _ end] =>
                 destruct (dict_get d k)
             end; reflexivity.
Qed.

Lemma convert_property_array_of (n : nat) (leaf c : value) :
  convert_property leaf = Ok c ->
  convert_property (array_of n leaf) = Ok (array_of n c).
Proof.
  intros Hleaf. induction n as [|n IH]; [exact Hleaf|].
  cbn [array_of]. rewrite convert_property_dict. simpl.
  rewrite IH. reflexivity.
Qed.

(** C4: on a Property Object without [$ref] whose [type] is ["array"] and
    which has [items], the output's [items] is the conversion of the input's
    [items] (and the conversion fails when that of [items] fails); the
    output has an [items] key only in that case; arrays nested to any depth
    are converted level by level. *)
Theorem convert_property_items (d : dict value) :
  (forall it,
     dict_mem "$ref" d = false ->
     get_is d "type" "array" = true ->
     dict_get d "items" = Some it ->
     match convert_property it with
     | Ok c =>
         exists o, convert_property (VDict d) = Ok (VDict o) /\
                   dict_get o "items" = Some c
     | Raise e => convert_property (VDict d) = Raise e
     end) /\
  (forall o,
     convert_property (VDict d) = Ok (VDict o) ->
     dict_mem "items" o = true ->
     dict_mem "$ref" d = false /\
     get_is d "type" "array" = true /\
     dict_mem "items" d = true) /\
  (forall n leaf c,
     convert_property leaf = Ok c ->
     convert_property (array_of n leaf) = Ok (array_of n c)).
Proof.
  split; [|split].
  - intros it Href Harr Hit.
    rewrite convert_property_dict, (dict_mem_false_get _ _ Href), Harr, Hit.
    destruct (convert_property it) as [c|e]; simpl; [|reflexivity].
    eexists. split; [reflexivity|].
    unfold finished. rewrite !dict_get_copy_key, dict_get_set. reflexivity.
  - intros o Ho Hitems.
    destruct (dict_mem "$ref" d) eqn:Href.
    + destruct (dict_mem_true_get _ _ Href) as [r Hr].
      rewrite (convert_property_with_ref d r Hr) in Ho.
      injection Ho as <-. discriminate.
    + destruct (convert_property_no_ref d _ Href Ho)
        as [(Harr & it & c & Hit & _ & _) | (_ & Hout)].
      * rewrite dict_mem_get, Hit. auto.
      * injection Hout as ->. exfalso.
        rewrite dict_mem_get in Hitems. revert Hitems.
        unfold finished, first_copies.
        rewrite !dict_get_copy_key. simpl. discriminate.
  - exact convert_property_array_of.
Qed.

(** C10: when [type] (equal to ["array"]), [description], [example],
    [format], [enum] and [items] are all present and there is no [$ref], the
    keys of the output come in the order type, description, example, items,
    format, enum. *)
Theorem convert_property_key_order (d : dict value) :
  dict_mem "$ref" d = false ->
  get_is d "type" "array" = true ->
  dict_mem "description" d = true ->
  dict_mem "example" d = true ->
  dict_mem "format" d = true ->
  dict_mem "enum" d = true ->
  dict_mem "items" d = true ->
  (property_object (VDict d) = true ->
   exists out, convert_property (VDict d) = Ok out) /\
  (forall out, convert_property (VDict d) = Ok out ->
   exists o, out = VDict o /\
     keys o = ["type"; "description"; "example"; "items"; "format"; "enum"]).
Proof.
  intros Href Harr Hd He Hf Hn Hi. split.
  - intros Hp. destruct (convert_property_returns _ Hp) as [o Ho]. eauto.
  - intros out Hout.
    destruct (dict_mem_true_get _ _ Hd) as [vd Ed].
    destruct (dict_mem_true_get _ _ He) as [ve Ee].
    destruct (dict_mem_true_get _ _ Hf) as [vf Ef].
    destruct (dict_mem_true_get _ _ Hn) as [vn En].
    destruct (dict_mem_true_get _ _ Hi) as [vi Ei].
    assert (exists vt, dict_get d "type" = Some vt) as [vt Et].
    { unfold get_is in Harr. destruct (dict_get d "type"); [eauto | discriminate]. }
    destruct (convert_property_no_ref d out Href Hout)
      as [(_ & it & c & _ & _ & ->) | ([Hno | Hno] & _)];
      [| congruence | congruence].
    eexists. split; [reflexivity|].
    unfold finished, first_copies, copy_key.
    rewrite Et, Ed, Ee, Ef, En. reflexivity.
Qed.

(** *** Schemas *)

Lemma convert_properties_returns (props acc : dict value) :
  forallb (fun kv => property_object (snd kv)) props = true ->
  exists out, convert_properties props acc = Ok out.
Proof.
  revert acc. induction props as [|[k v] tl IH]; simpl; intros acc H.
  - eauto.
  - apply andb_true_iff in H as [Hv Htl].
    destruct (convert_property_returns v Hv) as [o ->]. simpl. apply IH, Htl.
Qed.

Lemma convert_properties_raises (props acc : dict value) :
  forallb (fun kv => property_object (snd kv)) props = false ->
  exists e, convert_properties props acc = Raise e.
Proof.
  revert acc. induction props as [|[k v] tl IH]; simpl; intros acc H.
  - discriminate.
  - destruct (property_object v) eqn:Hv; simpl in H.
    + destruct (convert_property_returns v Hv) as [o ->]. simpl. apply IH, H.
    + destruct (convert_property_raises v Hv) as [e ->]. simpl. eauto.
Qed.

(** The loop adds, in order, one entry per property: its name and its
    conversion. *)
Lemma convert_properties_ok (props acc out : dict value) :
  List.NoDup (keys acc ++ keys props) ->
  convert_properties props acc = Ok out ->
  exists cs, out = acc ++ cs /\
    Forall2 (fun kv kc => fst kc = fst kv /\
                          convert_property (snd kv) = Ok (snd kc)) props cs.
Proof.
  revert acc. induction props as [|[k v] tl IH]; simpl; intros acc Hnd Hout.
  - injection Hout as <-. exists []. rewrite app_nil_r. auto.
  - destruct (convert_property v) as [c|e] eqn:Ec; simpl in Hout; [|discriminate].
    assert (Hk : ~ In k (keys acc)).
    { apply List.NoDup_remove_2 in Hnd. rewrite in_app_iff in Hnd. tauto. }
    rewrite (dict_set_fresh _ _ _ Hk) in Hout.
    destruct (IH (acc ++ [(k, c)])) as (cs & -> & Hcs); [|exact Hout|].
    + unfold keys in *. rewrite map_app, <- app_assoc. exact Hnd.
    + exists ((k, c) :: cs). rewrite <- app_assoc. split; [reflexivity|].
      constructor; [split; [reflexivity | exact Ec] | exact Hcs].
Qed.

Lemma Forall2_same_keys {A B : Type} (R : string * A -> string * B -> Prop)
    (props : dict A) (cs : dict B) :
  (forall kv kc, R kv kc -> fst kc = fst kv) ->
  Forall2 R props cs -> keys cs = keys props.
Proof.
  intros HR. unfold keys. induction 1 as [|kv kc tl1 tl2 Hk _ IH]; simpl;
    [reflexivity|].
  rewrite (HR _ _ Hk), IH. reflexivity.
Qed.

(** The body of [convert_openapi_to_jsonschema] on a dictionary. *)
Lemma convert_openapi_dict (d : dict value) (out : value) :
  convert_openapi_to_jsonschema (VDict d) = Ok out ->
  (dict_get d "properties" = None /\
   out = VDict (copy_key "required" d (schema_head d)))
  \/
  (exists props converted,
     dict_get d "properties" = Some (VDict props) /\
     convert_properties props [] = Ok converted /\
     out = VDict (copy_key "required" d
                    (dict_set (schema_head d) "properties" (VDict converted)))).
Proof.
  unfold convert_openapi_to_jsonschema. fold (schema_head d).
  destruct (dict_get d "properties") as [[| | | | | |props| | | |]|]; simpl;
    try discriminate.
  - destruct (convert_properties props []) as [converted|e] eqn:Ec; simpl;
      [|discriminate].
    intros [= <-]. right. exists props, converted. auto.
  - intros [= <-]. left. auto.
Qed.

Lemma convert_openapi_returns (v : value) :
  schema_object v = true -> exists out, convert_openapi_to_jsonschema v = Ok out.
Proof.
  destruct v as [| | | | | |d| | | |]; try discriminate.
  unfold schema_object, convert_openapi_to_jsonschema.
  destruct (dict_get d "properties") as [[| | | | | |props| | | |]|]; simpl;
    try discriminate; [|eauto].
  intros H. destruct (convert_properties_returns props [] H) as [c ->].
  simpl. eauto.
Qed.

Lemma convert_openapi_raises (v : value) :
  schema_object v = false -> exists e, convert_openapi_to_jsonschema v = Raise e.
Proof.
  destruct v as [| | | | | |d| | | |]; try (intros _; eexists; reflexivity).
  unfold schema_object, convert_openapi_to_jsonschema.
  destruct (dict_get d "properties") as [[| | | | | |props| | | |]|]; simpl;
    try discriminate; try (intros _; eexists; reflexivity).
  intros H. destruct (convert_properties_raises props [] H) as [e ->].
  simpl. eauto.
Qed.

Lemma dict_get_schema_head (d : dict value) :
  dict_get (schema_head d) "$schema" = Some (VStr draft07) /\
  dict_get (schema_head d) "type" =
    Some (match dict_get d "type" with Some t => t | None => VStr "object" end).
Proof.
  unfold schema_head. rewrite !dict_get_copy_key. simpl. auto.
Qed.

(** C2: the output of [convert_openapi_to_jsonschema] always has
    [$schema], equal to the draft-07 identifier, and [type], equal to the
    input's [type] or to ["object"] when the input has none; the conversion
    returns on every Schema Object. *)
Theorem convert_openapi_schema_and_type (d : dict value) :
  (schema_object (VDict d) = true ->
   exists out, convert_openapi_to_jsonschema (VDict d) = Ok out) /\
  (forall out, convert_openapi_to_jsonschema (VDict d) = Ok out ->
   exists o, out = VDict o /\
     dict_get o "$schema" = Some (VStr "http://json-schema.org/draft-07/schema#") /\
     dict_get o "type" =
       Some (match dict_get d "type" with
             | Some t => t
             | None => VStr "object"
             end)).
Proof.
  split; [apply convert_openapi_returns|].
  intros out Hout. destruct (dict_get_schema_head d) as [Hs Ht].
  destruct (convert_openapi_dict d out Hout)
    as [(_ & ->) | (props & converted & _ & _ & ->)];
    eexists; (split; [reflexivity|]);
    rewrite !dict_get_copy_key, ?dict_get_set; simpl; auto.
Qed.

(** C5: when [properties] is present (a dictionary, with distinct keys as
    every dictionary has), the output's [properties] has the same keys in
    the same order, each with the conversion of the input's value. *)
Theorem convert_openapi_properties (d props : dict value) :
  dict_get d "properties" = Some (VDict props) ->
  List.NoDup (keys props) ->
  (forallb (fun kv => property_object (snd kv)) props = true ->
   exists out, convert_openapi_to_jsonschema (VDict d) = Ok out) /\
  (forall out, convert_openapi_to_jsonschema (VDict d) = Ok out ->
   exists o cs, out = VDict o /\
     dict_get o "properties" = Some (VDict cs) /\
     keys cs = keys props /\
     Forall2 (fun kv kc => fst kc = fst kv /\
                           convert_property (snd kv) = Ok (snd kc)) props cs).
Proof.
  intros Hp Hnd. split.
  - intros Hall. apply convert_openapi_returns. simpl. rewrite Hp. exact Hall.
  - intros out Hout.
    destruct (convert_openapi_dict d out Hout)
      as [(Hno & _) | (props' & converted & Hp' & Hc & ->)]; [congruence|].
    rewrite Hp in Hp'. injection Hp' as <-.
    destruct (convert_properties_ok props [] converted Hnd Hc) as (cs & -> & Hcs).
    exists (copy_key "required" d
              (dict_set (schema_head d) "properties" (VDict cs))), cs.
    split; [reflexivity|]. split; [|split].
    + rewrite dict_get_copy_key, dict_get_set. reflexivity.
    + apply (Forall2_same_keys _ _ _ (fun kv kc H => proj1 H) Hcs).
    + exact Hcs.
Qed.

(** C9: the keys of the output of [convert_openapi_to_jsonschema] are
    among [$schema], [type], [title], [description], [properties],
    [required]; [example], [format], [enum] and [items] of the input are
    never on the output. *)
Theorem convert_openapi_keys (d : dict value) :
  (schema_object (VDict d) = true ->
   exists out, convert_openapi_to_jsonschema (VDict d) = Ok out) /\
  (forall out, convert_openapi_to_jsonschema (VDict d) = Ok out ->
   exists o, out = VDict o /\
     (forall k, In k (keys o) -> In k schema_keys) /\
     (forall k, In k ["example"; "format"; "enum"; "items"] ->
                dict_mem k o = false)).
Proof.
  split; [apply convert_openapi_returns|].
  intros out Hout.
  assert (Hkeys : exists o, out = VDict o /\
                    forall k, In k (keys o) -> In k schema_keys).
  { destruct (convert_openapi_dict d out Hout)
      as [(_ & ->) | (props & converted & _ & _ & ->)];
      eexists; (split; [reflexivity|]); intros k Hk;
      apply keys_copy_key_incl in Hk as [Hk | ->]; [| simpl; tauto | | simpl; tauto].
    - unfold schema_head in Hk.
      apply keys_copy_key_incl in Hk as [Hk | ->]; [| simpl; tauto].
      apply keys_copy_key_incl in Hk as [Hk | ->]; [| simpl; tauto].
      simpl in Hk. simpl. tauto.
    - rewrite keys_dict_set in Hk.
      assert (Hin : In k (keys (schema_head d)) \/ k = "properties").
      { destruct (dict_mem "properties" (schema_head d)); [tauto|].
        apply in_app_iff in Hk. simpl in Hk. intuition. }
      destruct Hin as [Hin | ->]; [| simpl; tauto].
      unfold schema_head in Hin.
      apply keys_copy_key_incl in Hin as [Hin | ->]; [| simpl; tauto].
      apply keys_copy_key_incl in Hin as [Hin | ->]; [| simpl; tauto].
      simpl in Hin. simpl. tauto. }
  destruct Hkeys as (o & -> & Hsub). exists o. split; [reflexivity|].
  split; [exact Hsub|].
  intros k Hk. destruct (dict_mem k o) eqn:E; [|reflexivity].
  apply dict_mem_In, Hsub in E. exfalso.
  simpl in Hk, E.
  repeat (destruct Hk as [<-|Hk]; [intuition discriminate|]). exact Hk.
Qed.

(** *** The extraction run *)

Variable unicode_isupper : string -> bool.
Variable unicode_lower : string -> string.
Variable path : Type.
Variable path_div : path -> string -> path.
Variable path_str : path -> string.

Local Abbreviation extract_loop :=
  (extract_loop py_repr unicode_isupper unicode_lower path path_div path_str).
Local Abbreviation run_main :=
  (main py_repr unicode_isupper unicode_lower path path_div path_str).

Lemma same_outputs_refl (w : world path) : same_outputs w w.
Proof. repeat split. Qed.

(** Leaving the absent names out of the request changes nothing but the
    error stream. *)
Lemma extract_loop_skip_missing (d : dict value) (output_dir : path)
    (names : list string) :
  forall (extracted : nat) (w1 w2 : world path),
    same_outputs w1 w2 ->
    same_outputs
      (fst (extract_loop (VDict d) output_dir names extracted w1))
      (fst (extract_loop (VDict d) output_dir
              (List.filter (fun n => dict_mem n d) names) extracted w2)) /\
    snd (extract_loop (VDict d) output_dir names extracted w1) =
    snd (extract_loop (VDict d) output_dir
           (List.filter (fun n => dict_mem n d) names) extracted w2).
Proof.
  induction names as [|name rest IH]; intros extracted w1 w2 Hw; simpl.
  - auto.
  - rewrite dict_mem_get.
    destruct (dict_get d name) as [schema_def|] eqn:E; simpl.
    + rewrite E.
      destruct (convert_openapi_to_jsonschema schema_def) as [js|e]; simpl.
      * destruct Hw as (H1 & H2 & H3). unfold write_json.
        destruct (json_serialisable js); simpl.
        -- apply IH. repeat split; simpl; congruence.
        -- split; [repeat split; simpl; congruence | reflexivity].
      * auto.
    + apply IH. destruct Hw as (H1 & H2 & H3). repeat split; simpl; assumption.
Qed.

(** The error stream only grows, and a loop that runs to its end has
    warned about every absent name. *)
Lemma extract_loop_warns (d : dict value) (output_dir : path)
    (names : list string) :
  forall (extracted n : nat) (w w' : world path),
    extract_loop (VDict d) output_dir names extracted w = (w', Ok n) ->
    (forall line, In line (stderr w) -> In line (stderr w')) /\
    (forall name, In name names -> dict_mem name d = false ->
                  In (not_found_line name) (stderr w')).
Proof.
  induction names as [|name rest IH]; intros extracted n w w'; simpl.
  - intros [= <- _]. split; [auto | contradiction].
  - destruct (dict_get d name) as [schema_def|] eqn:E.
    + destruct (convert_openapi_to_jsonschema schema_def) as [js|e];
        [|discriminate].
      unfold write_json. destruct (json_serialisable js); [|discriminate].
      intros Hrun. destruct (IH _ _ _ _ Hrun) as [Hgrow Hwarn].
      split; [exact Hgrow|].
      intros name' [<-|Hin] Hm; [|exact (Hwarn name' Hin Hm)].
      rewrite dict_mem_get, E in Hm. discriminate.
    + intros Hrun. destruct (IH _ _ _ _ Hrun) as [Hgrow Hwarn]. split.
      * intros line Hl. apply Hgrow. simpl. apply in_app_iff. auto.
      * intros name' [<-|Hin] Hm; [|exact (Hwarn name' Hin Hm)].
        apply Hgrow. simpl. apply in_app_iff. simpl. auto.
Qed.

(** C7: a requested name that the Definitions Table does not have only
    adds a warning naming it to the error stream: no file is written for it,
    the count is not increased, the loop goes on with the remaining names.
    The run ends as the run without the absent names does, with the same
    files and the same standard output, hence the same exit status; a run
    that ends with status 0 has warned about every absent name; and when all
    requested names are absent the run writes no file and ends with
    status 0. *)
Theorem extract_missing_schema (d : dict value) (output_dir : path) :
  (forall name rest extracted w,
     dict_mem name d = false ->
     extract_loop (VDict d) output_dir (name :: rest) extracted w =
     extract_loop (VDict d) output_dir rest extracted
       (print_err ("✗ Schema '" ++ name ++ "' not found in swagger.yaml") w)) /\
  (forall top swagger_path schemas,
     definitions_table top = VDict d ->
     let full := run_main swagger_path (Some (VDict top)) output_dir schemas in
     let present :=
       run_main swagger_path (Some (VDict top)) output_dir
         (Some (List.filter (fun n => dict_mem n d) (requested schemas))) in
     snd full = snd present /\
     exit_status (snd full) = exit_status (snd present) /\
     written (fst full) = written (fst present) /\
     stdout (fst full) = stdout (fst present) /\
     (snd full = Exit 0 ->
      forall name, In name (requested schemas) -> dict_mem name d = false ->
        In ("✗ Schema '" ++ name ++ "' not found in swagger.yaml")%string
           (stderr (fst full))) /\
     ((forall name, In name (requested schemas) -> dict_mem name d = false) ->
      snd full = Exit 0 /\ written (fst full) = [])).
Proof.
  split.
  - intros name rest extracted w Hm. simpl.
    rewrite (dict_mem_false_get _ _ Hm). reflexivity.
  - intros top swagger_path schemas Hd. simpl.
    unfold main, extract_schemas. rewrite Hd. cbn [requested].
    pose proof (extract_loop_skip_missing d output_dir (requested schemas) 0
                  (mkdir path output_dir (empty_world path))
                  (mkdir path output_dir (empty_world path))
                  (same_outputs_refl _)) as [Hw Hr].
    pose proof (extract_loop_warns d output_dir (requested schemas) 0) as Hwarn.
    assert (Hnone : (forall name, In name (requested schemas) ->
                                  dict_mem name d = false) ->
                    List.filter (fun n => dict_mem n d) (requested schemas) = []).
    { generalize (requested schemas) as names.
      induction names as [|x tl IH]; intros Hall; simpl; [reflexivity|].
      rewrite (Hall x (or_introl eq_refl)). apply IH.
      intros y Hy. apply Hall. right. exact Hy. }
    destruct (extract_loop (VDict d) output_dir (requested schemas) 0 _)
      as [w1 r1] eqn:E1.
    destruct (extract_loop (VDict d) output_dir (List.filter _ _) 0 _)
      as [w2 r2] eqn:E2.
    simpl in Hw, Hr. subst r2. destruct Hw as (H1 & H2 & H3).
    assert (Hall : (forall name, In name (requested schemas) ->
                                 dict_mem name d = false) ->
                   r1 = Ok 0 /\ written w1 = []).
    { intros Hmiss. rewrite (Hnone Hmiss) in E2. simpl in E2.
      injection E2 as <- <-. rewrite H2. auto. }
    destruct r1 as [n|e]; simpl; rewrite ?H2, ?H3;
      (split; [reflexivity|]); (split; [reflexivity|]);
      (split; [reflexivity|]); (split; [reflexivity|]); split.
    + intros _ name Hin Hm.
      exact (proj2 (Hwarn n _ _ E1) name Hin Hm).
    + intros Hmiss. destruct (Hall Hmiss) as [_ Hw1]. rewrite <- H2. auto.
    + discriminate.
    + intros Hmiss. destruct (Hall Hmiss) as [Hr1 _]. discriminate.
Qed.

End TreeFacts.

(** ** Output file names *)

Lemma append_empty (s : string) : (s ++ "")%string = s.
Proof.
  induction s as [|c tl IH]; simpl; [reflexivity | rewrite IH; reflexivity].
Qed.

Lemma concat_cons (x : string) (l : list string) :
  String.concat "" (x :: l) = (x ++ String.concat "" l)%string.
Proof. destruct l; simpl; [rewrite append_empty|]; reflexivity. Qed.

(** The characters of a string, put together, are the string. *)
Lemma chars_from_whole (s : string) : fst (chars_from 0 s) = "".
Proof.
  destruct s as [|b tl]; [reflexivity|]. simpl.
  destruct (chars_from _ tl). reflexivity.
Qed.

Lemma chars_from_concat (s : string) :
  forall missing,
    (fst (chars_from missing s) ++
     String.concat "" (snd (chars_from missing s)))%string = s.
Proof.
  induction s as [|b tl IH]; intros missing; [reflexivity|].
  cbn [chars_from]. destruct missing as [|m].
  - specialize (IH (utf8_width b - 1)).
    destruct (chars_from _ tl) as [cur rest]. cbn [fst snd] in *.
    rewrite concat_cons. simpl. rewrite IH. reflexivity.
  - specialize (IH m). destruct (chars_from m tl) as [cur rest].
    cbn [fst snd] in *. simpl. rewrite IH. reflexivity.
Qed.

Lemma concat_chars (s : string) : String.concat "" (chars s) = s.
Proof.
  pose proof (chars_from_concat s 0) as H. rewrite chars_from_whole in H.
  exact H.
Qed.

(** A character of one byte is a character on its own, whatever follows. *)
Lemma chars_single (b : ascii) (tl : string) :
  utf8_width b = 1 -> chars (String b tl) = String b "" :: chars tl.
Proof.
  intros Hw. unfold chars. cbn [chars_from]. rewrite Hw. simpl (1 - 1).
  pose proof (chars_from_whole tl) as H.
  destruct (chars_from 0 tl) as [cur rest]. simpl in H. subst cur. reflexivity.
Qed.

(** The first character of a string begins with its first byte. *)
Lemma chars_first (b : ascii) (tl : string) :
  exists cur rest, chars (String b tl) = String b cur :: rest.
Proof.
  unfold chars. cbn [chars_from].
  destruct (chars_from _ tl) as [cur rest]. eauto.
Qed.

Lemma ascii_width (b : ascii) : nat_of_ascii b < 128 -> utf8_width b = 1.
Proof.
  intros H. unfold utf8_width.
  destruct (Nat.ltb_spec (nat_of_ascii b) 192); [reflexivity | lia].
Qed.

Lemma underscore_ascii : nat_of_ascii "_" < 128.
Proof. apply Nat.ltb_lt. reflexivity. Qed.

Lemma lstrip_nothing (s : string) :
  starts_with_underscore s = false -> lstrip_underscore s = s.
Proof.
  destruct s as [|c tl]; [reflexivity|]. simpl. intros ->. reflexivity.
Qed.

Lemma lstrip_no_underscore (s : string) :
  starts_with_underscore (lstrip_underscore s) = false.
Proof.
  induction s as [|c tl IH]; [reflexivity|].
  cbn [lstrip_underscore]. destruct (Ascii.eqb c "_") eqn:E; [exact IH|].
  exact E.
Qed.

(** The case of the ASCII letters. *)
Lemma ascii_isupper_range (b : ascii) :
  ascii_isupper b = true -> nat_of_ascii b < 128.
Proof.
  unfold ascii_isupper. intros H. apply andb_true_iff in H as [_ H].
  apply Nat.leb_le in H. lia.
Qed.

Lemma ascii_lower_range (b : ascii) :
  nat_of_ascii b < 128 -> nat_of_ascii (ascii_lower b) < 128.
Proof.
  unfold ascii_lower, ascii_isupper. intros H.
  destruct (Nat.leb_spec 65 (nat_of_ascii b)); simpl; [|exact H].
  destruct (Nat.leb_spec (nat_of_ascii b) 90); simpl; [|exact H].
  rewrite nat_ascii_embedding; lia.
Qed.

Lemma ascii_isupper_lower (b : ascii) :
  ascii_isupper b = true -> ascii_isupper (ascii_lower b) = false.
Proof.
  destruct b as [[] [] [] [] [] [] [] []]; try discriminate; reflexivity.
Qed.

Lemma ascii_lower_changes (b : ascii) : ascii_isupper b = true -> ascii_lower b <> b.
Proof.
  destruct b as [[] [] [] [] [] [] [] []]; try discriminate;
    intros _; discriminate.
Qed.

Section Names.

Variable unicode_isupper : string -> bool.
Variable unicode_lower : string -> string.

Local Abbreviation isupper := (isupper unicode_isupper).
Local Abbreviation lower := (lower unicode_lower).
Local Abbreviation snake_pieces := (snake_pieces unicode_isupper unicode_lower).
Local Abbreviation output_name := (output_name unicode_isupper unicode_lower).
Local Abbreviation spec_replace_chars :=
  (spec_replace_chars unicode_isupper unicode_lower).
Local Abbreviation spec_replace_upper :=
  (spec_replace_upper unicode_isupper unicode_lower).
Local Abbreviation spec_output_name :=
  (spec_output_name unicode_isupper unicode_lower).
Local Abbreviation has_upper := (has_upper unicode_isupper).
Local Abbreviation first_lower_is_letter :=
  (first_lower_is_letter unicode_isupper unicode_lower).

Lemma isupper_ascii (b : ascii) :
  nat_of_ascii b < 128 -> isupper (String b "") = ascii_isupper b.
Proof.
  intros H. unfold isupper.
  destruct (Nat.ltb_spec (nat_of_ascii b) 128); [reflexivity | lia].
Qed.

Lemma lower_ascii (b : ascii) :
  nat_of_ascii b < 128 -> lower (String b "") = String (ascii_lower b) "".
Proof.
  intros H. unfold lower.
  destruct (Nat.ltb_spec (nat_of_ascii b) 128); [reflexivity | lia].
Qed.

Lemma concat_pieces (cs : list string) :
  String.concat ""
    (map (fun c => if isupper c then String "_" (lower c) else c) cs) =
  spec_replace_chars cs.
Proof.
  induction cs as [|c tl IH]; [reflexivity|].
  cbn [map]. rewrite concat_cons, IH. cbn [spec_replace_chars].
  destruct (isupper c); reflexivity.
Qed.

Lemma concat_snake_pieces (name : string) :
  String.concat "" (snake_pieces name) = spec_replace_upper name.
Proof. apply concat_pieces. Qed.

Lemma output_name_replace (name : string) :
  output_name name = lstrip_underscore (spec_replace_upper name).
Proof. unfold output_name. rewrite concat_snake_pieces. reflexivity. Qed.

Lemma spec_replace_chars_no_upper (cs : list string) :
  existsb isupper cs = false -> spec_replace_chars cs = String.concat "" cs.
Proof.
  induction cs as [|c tl IH]; [reflexivity|].
  cbn [existsb spec_replace_chars]. intros H.
  apply orb_false_iff in H as [Hc Htl]. rewrite Hc, concat_cons, (IH Htl).
  reflexivity.
Qed.

(** A name without upper-case letter that does not begin with an
    underscore is its own output name. *)
Lemma output_name_unchanged (name : string) :
  starts_with_underscore name = false -> has_upper name = false ->
  output_name name = name.
Proof.
  intros Hs Hu. rewrite output_name_replace. unfold spec_replace_upper.
  rewrite (spec_replace_chars_no_upper _ Hu), concat_chars.
  apply lstrip_nothing, Hs.
Qed.

(** C6, as amended: the transform replaces every upper-case letter by an
    underscore and its lower-case form and then removes all leading
    underscores, those of the name itself included.  On a name that does not
    begin with an underscore this is the transform of the specification
    (the lower-case form of a letter beginning, as it does, with something
    else than an underscore); such a name without upper-case letters is
    unchanged.  Upper case and lower-case forms are those of [str.isupper]
    and [str.lower], for every character. *)
Theorem output_name_snake_case (name : string) :
  output_name name = lstrip_underscore (spec_replace_upper name) /\
  (starts_with_underscore name = false ->
   first_lower_is_letter name = true ->
   output_name name = spec_output_name name) /\
  (starts_with_underscore name = false -> has_upper name = false ->
   output_name name = name) /\
  output_name "accountRelationship" = "account_relationship" /\
  output_name "filterV2" = "filter_v2".
Proof.
  split; [apply output_name_replace|].
  split; [|split; [apply output_name_unchanged | split; reflexivity]].
  intros Hs Hl. rewrite output_name_replace.
  unfold spec_replace_upper, spec_output_name,
    first_lower_is_letter in *.
  destruct name as [|b tl]; [reflexivity|].
  destruct (chars_first b tl) as (cur & rest & E). rewrite E in *.
  cbn [spec_replace_chars]. simpl in Hs.
  destruct (isupper (String b cur)) eqn:Eu.
  - cbn [lstrip_underscore]. simpl (Ascii.eqb "_" "_"). cbn iota.
    apply lstrip_nothing.
    destruct (lower (String b cur)) as [|l0 ltl]; [discriminate|].
    simpl in *. destruct (Ascii.eqb l0 "_"); [discriminate | reflexivity].
  - unfold spec_replace_upper. rewrite E. cbn [spec_replace_chars].
    rewrite Eu. apply lstrip_nothing. simpl. exact Hs.
Qed.

End Names.

(** ** The conversions on the store *)

Lemma unchanged_refl (h : heap) : unchanged h h.
Proof. intros i o H. exact H. Qed.

Lemma unchanged_trans (h1 h2 h3 : heap) :
  unchanged h1 h2 -> unchanged h2 h3 -> unchanged h1 h3.
Proof. intros H12 H23 i o H. apply H23, H12, H. Qed.

Lemma unchanged_alloc (h : heap) (o : obj) : unchanged h (h ++ [o]).
Proof. intros i o' H. apply lookup_app_l_Some, H. Qed.

Lemma unchanged_length (h h' : heap) : unchanged h h' -> length h <= length h'.
Proof.
  intros H. destruct (le_lt_dec (length h) (length h')) as [|Hlt]; [assumption|].
  destruct (lookup_lt_is_Some_2 h (length h')) as [o Ho]; [lia|].
  apply H, lookup_lt_Some in Ho. lia.
Qed.

Lemma unchanged_insert (h0 h : heap) (a : nat) (o : obj) :
  unchanged h0 h -> h0 !! a = None -> unchanged h0 (<[a := o]> h).
Proof.
  intros H Ha i o' Hi. rewrite list_lookup_insert_ne; [apply H, Hi|].
  intros ->. congruence.
Qed.

Lemma triple_bind {A B : Type} (P : heap -> Prop) (m : M A) (k : A -> M B)
    (Q : A -> heap -> Prop) (R : B -> heap -> Prop) (E : heap -> Prop) :
  triple P m Q E -> (forall a, triple (Q a) (k a) R E) ->
  triple P (mbind m k) R E.
Proof.
  intros Hm Hk h h' r HP. unfold mbind.
  destruct (m h) as [h1 [a|e]] eqn:Em; intros Hrun.
  - exact (Hk a h1 h' r (Hm h h1 (Ok a) HP Em) Hrun).
  - injection Hrun as <- <-. exact (Hm h h1 (Raise e) HP Em).
Qed.

Lemma triple_pure {A : Type} (P E : heap -> Prop) (m : M A) :
  pure m -> (forall h, P h -> E h) -> triple P m (fun _ => P) E.
Proof.
  intros Hm HE h h' r HP Hrun. rewrite (Hm h h' r Hrun).
  destruct r; auto.
Qed.

Lemma triple_ret {A : Type} (P E : heap -> Prop) (Q : A -> heap -> Prop) (a : A) :
  (forall h, P h -> Q a h) -> triple P (ret a) Q E.
Proof. intros H h h' r HP [= <- <-]. auto. Qed.

Lemma triple_weaken {A : Type} (P P' E : heap -> Prop) (m : M A)
    (Q Q' : A -> heap -> Prop) :
  triple P m Q E -> (forall h, P' h -> P h) -> (forall a h, Q a h -> Q' a h) ->
  triple P' m Q' E.
Proof.
  intros Hm HP HQ h h' r HP' Hrun. specialize (Hm h h' r (HP h HP') Hrun).
  destruct r; auto.
Qed.

Lemma pure_ret {A : Type} (a : A) : pure (ret a).
Proof. intros h h' r [= <- _]. reflexivity. Qed.

Lemma pure_contains (k : string) (x : pyref) : pure (contains k x).
Proof.
  intros h h' r. unfold contains.
  destruct x as [| | | | |a| |]; try (intros [= <- _]; reflexivity).
  destruct (h !! a) as [[l|d|l|l]|]; intros [= <- _]; reflexivity.
Qed.

Lemma pure_getitem (x : pyref) (k : string) : pure (getitem x k).
Proof.
  intros h h' r. unfold getitem.
  destruct x as [| | | | |a| |]; try (intros [= <- _]; reflexivity).
  destruct (h !! a) as [[l|d|l|l]|]; try (intros [= <- _]; reflexivity).
  destruct (dict_get d k); intros [= <- _]; reflexivity.
Qed.

Lemma pure_get_method (x : pyref) (k : string) (default : pyref) :
  pure (get_method x k default).
Proof.
  intros h h' r. unfold get_method.
  destruct x as [| | | | |a| |]; try (intros [= <- _]; reflexivity).
  destruct (h !! a) as [[l|d|l|l]|]; try (intros [= <- _]; reflexivity).
  destruct (dict_get d k); intros [= <- _]; reflexivity.
Qed.

Lemma pure_items_method (x : pyref) : pure (items_method x).
Proof.
  intros h h' r. unfold items_method.
  destruct x as [| | | | |a| |]; try (intros [= <- _]; reflexivity).
  destruct (h !! a) as [[l|d|l|l]|]; intros [= <- _]; reflexivity.
Qed.

Lemma building_unchanged (h0 : heap) (a : nat) (h : heap) :
  building h0 a h -> unchanged h0 h.
Proof. intros [H _]. exact H. Qed.

Lemma filling_unchanged (h0 : heap) (a b : nat) (h : heap) :
  filling h0 a b h -> unchanged h0 h.
Proof. intros [H _]. exact H. Qed.

Lemma filling_building (h0 : heap) (a b : nat) (h : heap) :
  filling h0 a b h -> building h0 a h.
Proof.
  intros (H & Ha & _ & _ & (d & Hd & _) & _). repeat split; eauto.
Qed.

(** Writing into the result under construction. *)
Lemma setitem_building (h0 : heap) (a : nat) (k : string) (v : pyref) :
  triple (building h0 a) (setitem (RObj a) k v)
    (fun _ => building h0 a) (unchanged h0).
Proof.
  intros h h' r (Hu & Ha & d & Hd). unfold setitem. rewrite Hd.
  intros [= <- <-]. split; [|split].
  - apply unchanged_insert; assumption.
  - exact Ha.
  - eexists. apply list_lookup_insert_eq. eapply lookup_lt_Some, Hd.
Qed.

Lemma copy_key_building (h0 : heap) (a : nat) (k : string) (prop : pyref) :
  triple (building h0 a) (copy_key_h k prop (RObj a))
    (fun _ => building h0 a) (unchanged h0).
Proof.
  unfold copy_key_h.
  eapply triple_bind;
    [apply triple_pure; [apply pure_contains | apply building_unchanged]|].
  intros [|].
  - eapply triple_bind;
      [apply triple_pure; [apply pure_getitem | apply building_unchanged]|].
    intros v. apply setitem_building.
  - apply triple_ret. auto.
Qed.

Lemma triple_exists {A B : Type} (P : B -> heap -> Prop) (m : M A)
    (Q : A -> heap -> Prop) (E : heap -> Prop) :
  (forall b, triple (P b) m Q E) -> triple (fun h => exists b, P b h) m Q E.
Proof. intros H h h' r [b HP]. exact (H b h h' r HP). Qed.

Lemma triple_assume {A : Type} (F : Prop) (P : heap -> Prop) (m : M A)
    (Q : A -> heap -> Prop) (E : heap -> Prop) :
  (F -> triple P m Q E) -> triple (fun h => F /\ P h) m Q E.
Proof. intros H h h' r [HF HP]. exact (H HF h h' r HP). Qed.

Lemma building_later (h0 : heap) (a : nat) (h h' : heap) :
  building h0 a h -> unchanged h h' -> building h0 a h'.
Proof.
  intros (Hu & Ha & d & Hd) Hh. split; [|split].
  - exact (unchanged_trans _ _ _ Hu Hh).
  - exact Ha.
  - exists d. apply Hh, Hd.
Qed.

Lemma filling_later (h0 : heap) (a b : nat) (h h' : heap) :
  filling h0 a b h -> unchanged h h' -> filling h0 a b h'.
Proof.
  intros (Hu & Ha & Hb & Hab & (d & Hd & Hp) & (d' & Hd')) Hh.
  repeat split; eauto using unchanged_trans.
Qed.

(** A new dictionary does not disturb the one under construction. *)
Lemma new_dict_building (h0 : heap) (a : nat) (d : dict pyref) :
  triple (building h0 a) (new_dict d)
    (fun x h => building h0 a h /\ unchanged h0 h /\ fresh_dict h0 h x /\
                x <> RObj a)
    (unchanged h0).
Proof.
  intros h h' r HB [= <- <-].
  pose proof (building_later _ _ _ _ HB (unchanged_alloc h (ODict d))) as HB'.
  split; [exact HB'|]. split; [apply HB'|]. split.
  - exists (length h), d. split; [reflexivity|]. split.
    + apply lookup_ge_None_2, unchanged_length, HB.
    + apply list_lookup_middle. reflexivity.
  - destruct HB as (_ & _ & d' & Hd'). apply lookup_lt_Some in Hd'.
    intros [= E]. lia.
Qed.

Section StoreFacts.

Variable heap_repr : heap -> pyref -> string.

Lemma pure_format (x : pyref) : pure (format heap_repr x).
Proof.
  intros h h' r. unfold format.
  destruct x; intros [= <- _]; reflexivity.
Qed.

Ltac step_pure lem :=
  eapply triple_bind;
  [apply triple_pure; [apply lem | first [apply building_unchanged
                                         | apply filling_unchanged]]
  | intros ?].

(** [convert_property] leaves every object of the store as it is, and what
    it returns is a dictionary that the store did not have. *)
Lemma convert_property_frame (depth : nat) :
  forall (prop : pyref) (h0 : heap),
    triple (eq h0) (convert_property_h heap_repr depth prop)
      (fun x h' => unchanged h0 h' /\ fresh_dict h0 h' x)
      (unchanged h0).
Proof.
  induction depth as [|depth IH]; intros prop h0.
  - intros h h' r <- [= <- <-]. apply unchanged_refl.
  - cbn [convert_property_h].
    eapply triple_bind with
      (Q := fun result h => exists a, result = RObj a /\ building h0 a h).
    { intros h h' r <- [= <- <-]. exists (length h0). split; [reflexivity|].
      split; [apply unchanged_alloc|]. split.
      - apply lookup_ge_None_2. lia.
      - eexists. apply list_lookup_middle. reflexivity. }
    intros result. apply triple_exists. intros a. apply triple_assume.
    intros ->. step_pure pure_contains. destruct a0.
    + step_pure pure_getitem. step_pure pure_format.
      eapply triple_weaken; [apply (new_dict_building h0 a) | auto | ].
      intros x h (_ & Hu & Hf & _). auto.
    + eapply triple_bind; [apply copy_key_building|]. intros [].
      eapply triple_bind; [apply copy_key_building|]. intros [].
      eapply triple_bind; [apply copy_key_building|]. intros [].
      step_pure pure_get_method.
      eapply triple_bind with (Q := fun _ => building h0 a).
      { apply triple_pure; [|apply building_unchanged].
        destruct (ref_is_str "array" a0); [apply pure_contains | apply pure_ret]. }
      intros has_items.
      eapply triple_bind with (Q := fun _ => building h0 a).
      { destruct has_items; [|apply triple_ret; auto].
        step_pure pure_getitem.
        eapply triple_bind with (Q := fun _ => building h0 a).
        - intros h h' r HB Hrun.
          pose proof (IH a1 h h h' r eq_refl Hrun) as Hc.
          destruct r as [c|e].
          + exact (building_later _ _ _ _ HB (proj1 Hc)).
          + exact (unchanged_trans _ _ _ (building_unchanged _ _ _ HB) Hc).
        - intros c. apply setitem_building. }
      intros [].
      eapply triple_bind; [apply copy_key_building|]. intros [].
      eapply triple_bind; [apply copy_key_building|]. intros [].
      apply triple_ret. intros h (Hu & Ha & d & Hd).
      split; [exact Hu|]. exists a, d. auto.
Qed.

(** A call of [convert_property] while a result is under construction. *)
Lemma convert_property_building (depth : nat) (prop : pyref) (h0 : heap) (a : nat) :
  triple (building h0 a) (convert_property_h heap_repr depth prop)
    (fun _ => building h0 a) (unchanged h0).
Proof.
  intros h h' r HB Hrun.
  pose proof (convert_property_frame depth prop h h h' r eq_refl Hrun) as Hc.
  destruct r as [c|e].
  - exact (building_later _ _ _ _ HB (proj1 Hc)).
  - exact (unchanged_trans _ _ _ (building_unchanged _ _ _ HB) Hc).
Qed.

Lemma convert_property_filling (depth : nat) (prop : pyref) (h0 : heap) (a b : nat) :
  triple (filling h0 a b) (convert_property_h heap_repr depth prop)
    (fun _ => filling h0 a b) (unchanged h0).
Proof.
  intros h h' r HB Hrun.
  pose proof (convert_property_frame depth prop h h h' r eq_refl Hrun) as Hc.
  destruct r as [c|e].
  - exact (filling_later _ _ _ _ _ HB (proj1 Hc)).
  - exact (unchanged_trans _ _ _ (filling_unchanged _ _ _ _ HB) Hc).
Qed.

(** The target of the loop's assignment is the new [properties]
    dictionary. *)
Lemma getitem_properties_filling (h0 : heap) (a b : nat) :
  triple (filling h0 a b) (getitem (RObj a) "properties")
    (fun target h => target = RObj b /\ filling h0 a b h) (unchanged h0).
Proof.
  intros h h' r HF. pose proof HF as (_ & _ & _ & _ & (d & Hd & Hp) & _).
  unfold getitem. rewrite Hd, Hp. intros [= <- <-]. auto.
Qed.

Lemma setitem_filling (h0 : heap) (a b : nat) (k : string) (v : pyref) :
  triple (filling h0 a b) (setitem (RObj b) k v)
    (fun _ => filling h0 a b) (unchanged h0).
Proof.
  intros h h' r (Hu & Ha & Hb & Hab & (d & Hd & Hp) & (d' & Hd')).
  unfold setitem. rewrite Hd'. intros [= <- <-].
  split; [apply unchanged_insert; assumption|].
  repeat split; try assumption.
  - exists d. rewrite list_lookup_insert_ne; auto.
  - eexists. apply list_lookup_insert_eq. eapply lookup_lt_Some, Hd'.
Qed.

Lemma convert_properties_filling (depth : nat) (props : list (string * pyref))
    (h0 : heap) (a b : nat) :
  triple (filling h0 a b) (convert_properties_h heap_repr depth props (RObj a))
    (fun _ => filling h0 a b) (unchanged h0).
Proof.
  induction props as [|[prop_name prop_def] tl IH]; cbn [convert_properties_h].
  - apply triple_ret. auto.
  - eapply triple_bind; [apply convert_property_filling|]. intros c.
    eapply triple_bind; [apply getitem_properties_filling|]. intros target.
    apply triple_assume. intros ->.
    eapply triple_bind; [apply setitem_filling|]. intros []. exact IH.
Qed.

(** [json_schema["properties"] = {}] *)
Lemma setitem_properties_filling (h0 : heap) (a b : nat) :
  triple (fun h => building h0 a h /\ unchanged h0 h /\
                   fresh_dict h0 h (RObj b) /\ RObj b <> RObj a)
    (setitem (RObj a) "properties" (RObj b))
    (fun _ => filling h0 a b) (unchanged h0).
Proof.
  intros h h' r ((Hu & Ha & d & Hd) & _ & (b' & d' & [= <-] & Hb & Hd') & Hne).
  assert (Hab : a <> b) by congruence.
  unfold setitem. rewrite Hd. intros [= <- <-].
  split; [apply unchanged_insert; assumption|].
  repeat split; try assumption.
  - eexists. split.
    + apply list_lookup_insert_eq. eapply lookup_lt_Some, Hd.
    + rewrite dict_get_set. reflexivity.
  - exists d'. rewrite list_lookup_insert_ne; auto.
Qed.

(** [convert_openapi_to_jsonschema] leaves every object of the store as it
    is, and what it returns is a dictionary that the store did not have. *)
Lemma convert_openapi_frame (depth : nat) (openapi_schema : pyref) (h0 : heap) :
  triple (eq h0) (convert_openapi_to_jsonschema_h heap_repr depth openapi_schema)
    (fun x h' => unchanged h0 h' /\ fresh_dict h0 h' x)
    (unchanged h0).
Proof.
  unfold convert_openapi_to_jsonschema_h.
  eapply triple_bind;
    [apply triple_pure; [apply pure_get_method | intros h <-; apply unchanged_refl]|].
  intros t.
  eapply triple_bind with
    (Q := fun json_schema h => exists a, json_schema = RObj a /\ building h0 a h).
  { intros h h' r <- [= <- <-]. exists (length h0). split; [reflexivity|].
    split; [apply unchanged_alloc|]. split.
    - apply lookup_ge_None_2. lia.
    - eexists. apply list_lookup_middle. reflexivity. }
  intros json_schema. apply triple_exists. intros a. apply triple_assume.
  intros ->.
  eapply triple_bind; [apply copy_key_building|]. intros [].
  eapply triple_bind; [apply copy_key_building|]. intros [].
  step_pure pure_contains.
  eapply triple_bind with (Q := fun _ => building h0 a).
  { destruct a0; [|apply triple_ret; auto].
    eapply triple_bind; [apply (new_dict_building h0 a)|]. intros fresh.
    eapply triple_weaken with
      (P := fun h => exists b, fresh = RObj b /\
                building h0 a h /\ unchanged h0 h /\
                fresh_dict h0 h (RObj b) /\ RObj b <> RObj a)
      (Q := fun _ => building h0 a).
    - apply triple_exists. intros b. apply triple_assume. intros ->.
      eapply triple_bind; [apply setitem_properties_filling|]. intros [].
      step_pure pure_getitem. step_pure pure_items_method.
      eapply triple_weaken;
        [apply (convert_properties_filling depth _ h0 a b) | auto |].
      intros ? h. apply filling_building.
    - intros h (HB & Hu & Hf & Hne). pose proof Hf as (b & d & -> & _).
      exists b. auto.
    - auto. }
  intros [].
  eapply triple_bind; [apply copy_key_building|]. intros [].
  apply triple_ret. intros h (Hu & Ha & d & Hd).
  split; [exact Hu|]. exists a, d. auto.
Qed.

End StoreFacts.

(** ** The store embedding simulates the tree embedding *)

Lemma read_all_Forall2 {A B : Type} (f : A -> option B) (l : list A) (l' : list B) :
  read_all f l = Some l' <-> Forall2 (fun x y => f x = Some y) l l'.
Proof.
  revert l'. induction l as [|x tl IH]; intros l'; simpl.
  - split; [intros [= <-]; constructor | intros H; inversion H; reflexivity].
  - split.
    + destruct (f x) as [y|] eqn:Ex; [|discriminate].
      destruct (read_all f tl) as [ys|]; [|discriminate].
      intros [= <-]. constructor; [exact Ex | apply IH; reflexivity].
    + intros H. inversion H as [|x' y tl1 ys Hx Htl]; subst.
      rewrite Hx. apply IH in Htl. rewrite Htl. reflexivity.
Qed.

Lemma read_entries_dict_reads (f : pyref -> option value) (d : dict pyref)
    (dv : dict value) :
  read_all (read_entry f) d = Some dv <->
  dict_reads (fun r v => f r = Some v) d dv.
Proof.
  rewrite read_all_Forall2. unfold dict_reads, read_entry.
  split; intros H; induction H as [|[k r] [k' v] tl tl' Hx _ IH];
    constructor; try exact IH; simpl in *.
  - destruct (f r); [|discriminate]. injection Hx as <- <-. auto.
  - destruct Hx as [<- ->]. reflexivity.
Qed.

(** A value read in one store is read in a store that has the objects
    read, with at least that much nesting allowed. *)
Lemma read_back_moves (D D' : nat -> bool) (h h' : heap) (n : nat) :
  (forall i o, D i = true -> h !! i = Some o ->
               D' i = true /\ h' !! i = Some o) ->
  forall m r v, n <= m ->
    read_back D n h r = Some v -> read_back D' m h' r = Some v.
Proof.
  intros HD. induction n as [|n IH]; intros m r v Hm;
    destruct r as [| | | | |a| |]; simpl; try discriminate;
    try (destruct m; simpl; intros H; exact H).
  destruct m as [|m]; [lia|]. simpl.
  destruct (D a) eqn:Ea; [|discriminate].
  destruct (h !! a) as [o|] eqn:Eo; [|discriminate].
  destruct (HD a o Ea Eo) as [-> ->].
  destruct o as [l|d|l|l];
    try (destruct (read_all (read_back D n h) l) as [lv|] eqn:El;
           [|discriminate];
         intros [= <-]; apply read_all_Forall2 in El;
         assert (E' : read_all (read_back D' m h') l = Some lv)
           by (apply read_all_Forall2; eapply Forall2_impl; [exact El|];
               intros x y Hx; apply IH; [lia | exact Hx]);
         rewrite E'; reflexivity).
  destruct (read_all (read_entry (read_back D n h)) d) as [dv|] eqn:El;
    [|discriminate].
  intros [= <-]. apply read_entries_dict_reads in El.
  assert (E' : read_all (read_entry (read_back D' m h')) d = Some dv).
  { apply read_entries_dict_reads. eapply Forall2_impl; [exact El|].
    intros x y [Hk Hx]. split; [exact Hk|]. apply IH; [lia | exact Hx]. }
  rewrite E'. reflexivity.
Qed.

Lemma read_back_transfer (D D' : nat -> bool) (h h' : heap) (n : nat) :
  (forall i, D i = true -> D' i = true /\ h' !! i = h !! i) ->
  forall m r v, n <= m ->
    read_back D n h r = Some v -> read_back D' m h' r = Some v.
Proof.
  intros HD. apply read_back_moves. intros i o Hi Ho.
  destruct (HD i Hi) as [H1 H2]. rewrite H2. auto.
Qed.

(** *** The conversions do not touch their input *)

Section StoreFrame.

Variable heap_repr : heap -> pyref -> string.

(** C8: neither conversion changes its input: whatever the call does
    (return or raise), every object the store had before the call, the
    input and all that is nested in it included, is the same after it, so
    the input reads as the same tree before and after; and the value
    returned is a dictionary built by the call, at an address the store did
    not have. *)
Theorem conversions_leave_input (depth : nat) (x : pyref) (h h' : heap)
    (r : res pyref) :
  convert_property_h heap_repr depth x h = (h', r) \/
  convert_openapi_to_jsonschema_h heap_repr depth x h = (h', r) ->
  unchanged h h' /\
  (forall i, i < length h -> h' !! i = h !! i) /\
  (forall n v, read_back anywhere n h x = Some v ->
               read_back anywhere n h' x = Some v) /\
  (forall y, r = Ok y ->
     fresh_dict h h' y /\ forall a o, h !! a = Some o -> y <> RObj a).
Proof.
  intros Hrun.
  assert (H : match r with
              | Ok y => unchanged h h' /\ fresh_dict h h' y
              | Raise _ => unchanged h h'
              end).
  { destruct Hrun as [Hrun | Hrun].
    - exact (convert_property_frame heap_repr depth x h h h' r eq_refl Hrun).
    - exact (convert_openapi_frame heap_repr depth x h h h' r eq_refl Hrun). }
  assert (Hu : unchanged h h') by (destruct r; tauto).
  split; [exact Hu|]. split; [|split].
  - intros i Hi. destruct (lookup_lt_is_Some_2 h i Hi) as [o Ho].
    rewrite Ho. apply Hu, Ho.
  - intros n v. apply (read_back_moves anywhere anywhere h h' n); [|lia].
    intros i o _ Ho. split; [reflexivity | apply Hu, Ho].
  - intros y ->. destruct H as [_ Hf]. split; [exact Hf|].
    destruct Hf as (a & d & -> & Ha & Ha'). intros a' o Ho [= ->]. congruence.
Qed.

End StoreFrame.

Lemma read_back_is_str (D : nat -> bool) (n : nat) (h : heap) (r : pyref)
    (v : value) (s : string) :
  read_back D n h r = Some v -> ref_is_str s r = is_str s v.
Proof.
  destruct n as [|n']; destruct r as [| | | | |a| |]; simpl;
    try (intros [= <-]; reflexivity); try discriminate.
  destruct (D a); [|discriminate].
  destruct (h !! a) as [[l|d|l|l]|]; [| | | |discriminate];
    (destruct (read_all _ _); [|discriminate]); intros [= <-]; reflexivity.
Qed.

(** What a tree tells about the stored value it was read from. *)
Lemma read_back_dict (D : nat -> bool) (n : nat) (h : heap) (x : pyref)
    (dv : dict value) :
  read_back D n h x = Some (VDict dv) ->
  exists n' p d, n = S n' /\ x = RObj p /\ D p = true /\
    h !! p = Some (ODict d) /\
    dict_reads (fun r v => read_back D n' h r = Some v) d dv.
Proof.
  destruct n as [|n']; destruct x as [| | | | |p| |]; simpl; try discriminate.
  destruct (D p) eqn:Ep; [|discriminate].
  destruct (h !! p) as [[l|d|l|l]|] eqn:Eh; [| | | |discriminate];
    try (destruct (read_all _ l); discriminate).
  destruct (read_all _ d) as [dv'|] eqn:Ed; [|discriminate].
  intros [= <-]. apply read_entries_dict_reads in Ed.
  exists n', p, d. auto.
Qed.

Lemma read_back_list (D : nat -> bool) (n : nat) (h : heap) (x : pyref)
    (lv : list value) :
  read_back D n h x = Some (VList lv) ->
  exists n' p l, n = S n' /\ x = RObj p /\ D p = true /\
    h !! p = Some (OList l) /\
    Forall2 (fun r v => read_back D n' h r = Some v) l lv.
Proof.
  destruct n as [|n']; destruct x as [| | | | |p| |]; simpl; try discriminate.
  destruct (D p) eqn:Ep; [|discriminate].
  destruct (h !! p) as [[l|d|l|l]|] eqn:Eh; [| | | |discriminate];
    try (destruct (read_all _ _); discriminate).
  destruct (read_all _ l) as [lv'|] eqn:El; [|discriminate].
  intros [= <-]. apply read_all_Forall2 in El.
  exists n', p, l. auto.
Qed.

Lemma read_back_tuple (D : nat -> bool) (n : nat) (h : heap) (x : pyref)
    (lv : list value) :
  read_back D n h x = Some (VTuple lv) ->
  exists n' p l, n = S n' /\ x = RObj p /\ D p = true /\
    h !! p = Some (OTuple l) /\
    Forall2 (fun r v => read_back D n' h r = Some v) l lv.
Proof.
  destruct n as [|n']; destruct x as [| | | | |p| |]; simpl; try discriminate.
  destruct (D p) eqn:Ep; [|discriminate].
  destruct (h !! p) as [[l|d|l|l]|] eqn:Eh; [| | | |discriminate];
    try (destruct (read_all _ _); discriminate).
  destruct (read_all _ l) as [lv'|] eqn:El; [|discriminate].
  intros [= <-]. apply read_all_Forall2 in El.
  exists n', p, l. auto.
Qed.

Lemma read_back_set (D : nat -> bool) (n : nat) (h : heap) (x : pyref)
    (lv : list value) :
  read_back D n h x = Some (VSet lv) ->
  exists n' p l, n = S n' /\ x = RObj p /\ D p = true /\
    h !! p = Some (OSet l) /\
    Forall2 (fun r v => read_back D n' h r = Some v) l lv.
Proof.
  destruct n as [|n']; destruct x as [| | | | |p| |]; simpl; try discriminate.
  destruct (D p) eqn:Ep; [|discriminate].
  destruct (h !! p) as [[l|d|l|l]|] eqn:Eh; [| | | |discriminate];
    try (destruct (read_all _ _); discriminate).
  destruct (read_all _ l) as [lv'|] eqn:El; [|discriminate].
  intros [= <-]. apply read_all_Forall2 in El.
  exists n', p, l. auto.
Qed.

Lemma read_back_scalar (D : nat -> bool) (n : nat) (h : heap) (x : pyref)
    (v : value) :
  read_back D n h x = Some v ->
  match v with
  | VNone => x = RNone
  | VBool b => x = RBool b
  | VInt z => x = RInt z
  | VFloat bits => x = RFloat bits
  | VStr s => x = RStr s
  | VBytes b => x = RBytes b
  | VDate iso => x = RDate iso
  | VList _ | VDict _ | VTuple _ | VSet _ => True
  end.
Proof.
  destruct n as [|n']; destruct x as [| | | | |p| |]; simpl;
    try (intros [= <-]; reflexivity); try discriminate.
  destruct (D p); [|discriminate].
  destruct (h !! p) as [[l|d|l|l]|]; [| | | |discriminate];
    (destruct (read_all _ _); [|discriminate]); intros [= <-]; exact I.
Qed.

(** Dictionary operations on related dictionaries. *)
Section DictReads.

Variable R : pyref -> value -> Prop.

Lemma dict_reads_get (d : dict pyref) (dv : dict value) (k : string) :
  dict_reads R d dv ->
  match dict_get d k, dict_get dv k with
  | Some r, Some v => R r v
  | None, None => True
  | _, _ => False
  end.
Proof.
  induction 1 as [|[k1 r] [k2 v] tl tl' [Hk Hr] _ IH]; simpl in *; [exact I|].
  subst k2. destruct (String.eqb k1 k); [exact Hr | exact IH].
Qed.

Lemma dict_reads_mem (d : dict pyref) (dv : dict value) (k : string) :
  dict_reads R d dv -> dict_mem k d = dict_mem k dv.
Proof.
  intros H. rewrite !dict_mem_get. pose proof (dict_reads_get d dv k H) as Hg.
  destruct (dict_get d k), (dict_get dv k); tauto.
Qed.

Lemma dict_reads_set (d : dict pyref) (dv : dict value) (k : string)
    (r : pyref) (v : value) :
  dict_reads R d dv -> R r v -> dict_reads R (dict_set d k r) (dict_set dv k v).
Proof.
  intros H Hr. induction H as [|[k1 r1] [k2 v1] tl tl' [Hk Hr1] Htl IH];
    simpl in *.
  - constructor; [split; [reflexivity | exact Hr] | constructor].
  - subst k2. destruct (String.eqb k1 k).
    + constructor; [split; [reflexivity | exact Hr] | exact Htl].
    + constructor; [split; [reflexivity | exact Hr1] | exact IH].
Qed.

Lemma dict_reads_copy_key (d res : dict pyref) (dv resv : dict value) (k : string) :
  dict_reads R d dv -> dict_reads R res resv ->
  dict_reads R (copy_key k d res) (copy_key k dv resv).
Proof.
  intros Hd Hres. unfold copy_key. pose proof (dict_reads_get d dv k Hd) as Hg.
  destruct (dict_get d k), (dict_get dv k); try contradiction.
  - apply dict_reads_set; assumption.
  - exact Hres.
Qed.

Lemma dict_reads_first_copies (d : dict pyref) (dv : dict value) :
  dict_reads R d dv -> dict_reads R (first_copies d) (first_copies dv).
Proof.
  intros H. unfold first_copies.
  repeat apply dict_reads_copy_key; try exact H. constructor.
Qed.

Lemma dict_reads_finished (d res : dict pyref) (dv resv : dict value) :
  dict_reads R d dv -> dict_reads R res resv ->
  dict_reads R (finished d res) (finished dv resv).
Proof.
  intros H Hres. unfold finished.
  repeat apply dict_reads_copy_key; assumption.
Qed.

End DictReads.

Lemma dict_reads_impl (R R' : pyref -> value -> Prop) (d : dict pyref)
    (dv : dict value) :
  (forall r v, R r v -> R' r v) -> dict_reads R d dv -> dict_reads R' d dv.
Proof.
  intros HR H. eapply Forall2_impl; [exact H|].
  intros x y [Hk Hx]. split; [exact Hk | apply HR, Hx].
Qed.

Lemma existsb_is_str (D : nat -> bool) (n : nat) (h : heap) (l : list pyref)
    (lv : list value) (k : string) :
  Forall2 (fun r v => read_back D n h r = Some v) l lv ->
  existsb (ref_is_str k) l = existsb (is_str k) lv.
Proof.
  induction 1 as [|r v tl tl' Hr _ IH]; simpl; [reflexivity|].
  rewrite (read_back_is_str _ _ _ _ _ k Hr), IH. reflexivity.
Qed.

(** *** Running the primitives *)

Lemma mbind_ok {A B : Type} (m : M A) (k : A -> M B) (h h' : heap) (a : A) :
  m h = (h', Ok a) -> mbind m k h = k a h'.
Proof. intros E. unfold mbind. rewrite E. reflexivity. Qed.

Lemma mbind_raise {A B : Type} (m : M A) (k : A -> M B) (h h' : heap) (e : exn) :
  m h = (h', Raise e) -> mbind m k h = (h', Raise e).
Proof. intros E. unfold mbind. rewrite E. reflexivity. Qed.

Lemma run_contains (h : heap) (p : nat) (d : dict pyref) (k : string) :
  h !! p = Some (ODict d) -> contains k (RObj p) h = (h, Ok (dict_mem k d)).
Proof. intros E. unfold contains. rewrite E. reflexivity. Qed.

Lemma run_getitem (h : heap) (p : nat) (d : dict pyref) (k : string) (r : pyref) :
  h !! p = Some (ODict d) -> dict_get d k = Some r ->
  getitem (RObj p) k h = (h, Ok r).
Proof. intros E Ek. unfold getitem. rewrite E, Ek. reflexivity. Qed.

Lemma run_get_method (h : heap) (p : nat) (d : dict pyref) (k : string)
    (default : pyref) :
  h !! p = Some (ODict d) ->
  get_method (RObj p) k default h =
  (h, Ok (match dict_get d k with Some v => v | None => default end)).
Proof.
  intros E. unfold get_method. rewrite E. destruct (dict_get d k); reflexivity.
Qed.

Lemma result_at_start (h : heap) (res : dict pyref) :
  result_at (h ++ [ODict res]) (length h) res (h ++ [ODict res]).
Proof.
  split; [reflexivity|]. split; [|reflexivity].
  apply list_lookup_middle. reflexivity.
Qed.

Lemma result_at_base (Hb : heap) (a : nat) (res : dict pyref) :
  Hb !! a = Some (ODict res) -> result_at Hb a res Hb.
Proof. intros E. split; [reflexivity|]. split; [exact E | reflexivity]. Qed.

Lemma run_setitem (Hb H : heap) (a : nat) (res : dict pyref) (k : string)
    (v : pyref) :
  result_at Hb a res H ->
  exists H', setitem (RObj a) k v H = (H', Ok tt) /\
             result_at Hb a (dict_set res k v) H'.
Proof.
  intros (Hl & Ha & Ho). unfold setitem. rewrite Ha.
  eexists. split; [reflexivity|]. split; [|split].
  - rewrite length_insert. exact Hl.
  - apply list_lookup_insert_eq. eapply lookup_lt_Some, Ha.
  - intros i Hi. rewrite list_lookup_insert_ne; auto.
Qed.

Lemma run_copy_key (Hb H : heap) (a p : nat) (d res : dict pyref) (k : string) :
  result_at Hb a res H -> p <> a -> Hb !! p = Some (ODict d) ->
  exists H', copy_key_h k (RObj p) (RObj a) H = (H', Ok tt) /\
             result_at Hb a (copy_key k d res) H'.
Proof.
  intros HR Hpa Hp. pose proof HR as (Hl & Ha & Ho).
  assert (Hp' : H !! p = Some (ODict d)) by (rewrite Ho; auto).
  unfold copy_key_h, copy_key.
  rewrite (mbind_ok _ _ _ _ _ (run_contains H p d k Hp')), dict_mem_get.
  destruct (dict_get d k) as [v|] eqn:Ek.
  - rewrite (mbind_ok _ _ _ _ _ (run_getitem H p d k v Hp' Ek)).
    apply run_setitem, HR.
  - exists H. split; [reflexivity | exact HR].
Qed.

Arguments str_contains : simpl never.

Section Simulation.

Variable py_repr : value -> string.
Variable heap_repr : heap -> pyref -> string.

(** [str()] of a stored object is [str()] of the tree it reads as. *)
Hypothesis repr_agrees :
  forall D n h r v, read_back D n h r = Some v -> heap_repr h r = py_repr v.

Lemma run_format (D : nat -> bool) (n : nat) (h : heap) (r : pyref) (v : value) :
  read_back D n h r = Some v ->
  format heap_repr r h = (h, Ok (py_str py_repr v)).
Proof.
  intros Hr. pose proof (repr_agrees _ _ _ _ _ Hr) as Ha.
  pose proof (read_back_scalar _ _ _ _ _ Hr) as Hs.
  unfold format, py_str.
  destruct v;
    try (rewrite Hs; rewrite Hs in Ha; rewrite Ha; reflexivity).
  - rewrite Hs. reflexivity.
  - destruct (read_back_list _ _ _ _ _ Hr) as (n' & p & l & _ & -> & _).
    rewrite Ha. reflexivity.
  - destruct (read_back_dict _ _ _ _ _ Hr) as (n' & p & d & _ & -> & _).
    rewrite Ha. reflexivity.
  - destruct (read_back_tuple _ _ _ _ _ Hr) as (n' & p & l & _ & -> & _).
    rewrite Ha. reflexivity.
  - destruct (read_back_set _ _ _ _ _ Hr) as (n' & p & l & _ & -> & _).
    rewrite Ha. reflexivity.
Qed.

(** The end of [convert_property]: [format], [enum], and the result. *)
Lemma run_finish (Hb H : heap) (a p : nat) (d res : dict pyref) :
  result_at Hb a res H -> p <> a -> Hb !! p = Some (ODict d) ->
  exists H',
    (copy_key_h "format" (RObj p) (RObj a) ;;;
     copy_key_h "enum" (RObj p) (RObj a) ;;;
     ret (RObj a)) H = (H', Ok (RObj a)) /\
    result_at Hb a (finished d res) H'.
Proof.
  intros HR Hpa Hp.
  destruct (run_copy_key Hb H a p d res "format" HR Hpa Hp) as (H1 & E1 & R1).
  destruct (run_copy_key Hb H1 a p d _ "enum" R1 Hpa Hp) as (H2 & E2 & R2).
  exists H2. split; [|exact R2].
  rewrite (mbind_ok _ _ _ _ _ E1), (mbind_ok _ _ _ _ _ E2). reflexivity.
Qed.

(** The beginning: the three fields copied before [items]. *)
Lemma run_first_copies (Hb H : heap) (a p : nat) (d : dict pyref) {A : Type}
    (k : M A) :
  result_at Hb a [] H -> p <> a -> Hb !! p = Some (ODict d) ->
  exists H',
    (copy_key_h "type" (RObj p) (RObj a) ;;;
     copy_key_h "description" (RObj p) (RObj a) ;;;
     copy_key_h "example" (RObj p) (RObj a) ;;; k) H = k H' /\
    result_at Hb a (first_copies d) H'.
Proof.
  intros HR Hpa Hp.
  destruct (run_copy_key Hb H a p d _ "type" HR Hpa Hp) as (H1 & E1 & R1).
  destruct (run_copy_key Hb H1 a p d _ "description" R1 Hpa Hp) as (H2 & E2 & R2).
  destruct (run_copy_key Hb H2 a p d _ "example" R2 Hpa Hp) as (H3 & E3 & R3).
  exists H3. split; [|exact R3].
  rewrite (mbind_ok _ _ _ _ _ E1), (mbind_ok _ _ _ _ _ E2),
    (mbind_ok _ _ _ _ _ E3). reflexivity.
Qed.

(** A dictionary under construction reads as the tree under
    construction. *)
Lemma read_result (D' : nat -> bool) (m : nat) (Hb H : heap) (a : nat)
    (res : dict pyref) (resv : dict value) :
  result_at Hb a res H -> D' a = true ->
  dict_reads (fun r v => read_back D' m H r = Some v) res resv ->
  read_back D' (S m) H (RObj a) = Some (VDict resv).
Proof.
  intros (_ & Ha & _) HD Hres. simpl. rewrite HD, Ha.
  apply read_entries_dict_reads in Hres. rewrite Hres. reflexivity.
Qed.

Lemma grown_old (D : nat -> bool) (n i : nat) : D i = true -> grown D n i = true.
Proof. intros H. unfold grown. rewrite H. reflexivity. Qed.

Lemma grown_new (D : nat -> bool) (n i : nat) : n <= i -> grown D n i = true.
Proof.
  intros H. unfold grown. apply orb_true_iff. right. apply Nat.leb_le, H.
Qed.

Lemma grown_inv (D : nat -> bool) (n i : nat) :
  grown D n i = true -> D i = true \/ n <= i.
Proof.
  unfold grown. intros H. apply orb_true_iff in H as [H|H]; [auto|].
  right. apply Nat.leb_le, H.
Qed.

(** A string, a list, a tuple or a set answers [k in x], cannot be indexed
    by a string and has no [get]: the run ends as [probe_non_dict] says. *)
Lemma run_non_dict (found : string -> bool) (depth : nat) (x : pyref) (h : heap) :
  (forall k, contains k x (h ++ [ODict []]) = (h ++ [ODict []], Ok (found k))) ->
  (forall k, getitem x k (h ++ [ODict []]) = (h ++ [ODict []], Raise TypeError)) ->
  (forall k d, get_method x k d (h ++ [ODict []]) =
               (h ++ [ODict []], Raise AttributeError)) ->
  convert_property_h heap_repr (S depth) x h =
  (h ++ [ODict []],
   Raise (probe_non_dict found ["$ref"; "type"; "description"; "example"])).
Proof.
  intros Hc Hg Hm.
  assert (Hcopy : forall k r,
             copy_key_h k x r (h ++ [ODict []]) =
             (h ++ [ODict []], if found k then Raise TypeError else Ok tt)).
  { intros k r. unfold copy_key_h. rewrite (mbind_ok _ _ _ _ _ (Hc k)).
    destruct (found k); [|reflexivity].
    rewrite (mbind_raise _ _ _ _ _ (Hg k)). reflexivity. }
  cbn [convert_property_h]. unfold probe_non_dict. cbn [existsb].
  rewrite (mbind_ok _ _ h (h ++ [ODict []]) (RObj (length h)) eq_refl).
  rewrite (mbind_ok _ _ _ _ _ (Hc "$ref")).
  destruct (found "$ref"); cbn [orb].
  { rewrite (mbind_raise _ _ _ _ _ (Hg "$ref")). reflexivity. }
  pose proof (Hcopy "type" (RObj (length h))) as E1.
  destruct (found "type"); cbn [orb].
  { rewrite (mbind_raise _ _ _ _ _ E1). reflexivity. }
  rewrite (mbind_ok _ _ _ _ _ E1).
  pose proof (Hcopy "description" (RObj (length h))) as E2.
  destruct (found "description"); cbn [orb].
  { rewrite (mbind_raise _ _ _ _ _ E2). reflexivity. }
  rewrite (mbind_ok _ _ _ _ _ E2).
  pose proof (Hcopy "example" (RObj (length h))) as E3.
  destruct (found "example"); cbn [orb].
  { rewrite (mbind_raise _ _ _ _ _ E3). reflexivity. }
  rewrite (mbind_ok _ _ _ _ _ E3).
  rewrite (mbind_raise _ _ _ _ _ (Hm "type" RNone)). reflexivity.
Qed.

(** On a value that is not a dictionary both embeddings raise the same
    exception. *)
Lemma convert_property_simulated_other (depth : nat) (D : nat -> bool) (n : nat)
    (h : heap) (x : pyref) (v : value) :
  read_back D n h x = Some v ->
  match v with VDict _ => False | _ => True end ->
  exists e h',
    convert_property py_repr v = Raise e /\
    convert_property_h heap_repr (S depth) x h = (h', Raise e).
Proof.
  intros Hr Hv. pose proof (read_back_scalar _ _ _ _ _ Hr) as Hs.
  destruct v as [| | | | s | lv | dv | | | |]; try contradiction; try subst x;
    try (eexists _, _; split; reflexivity).
  - eexists _, _. split; [reflexivity|].
    apply (run_non_dict (fun k => str_contains k s)); reflexivity.
  - destruct (read_back_list _ _ _ _ _ Hr) as (n' & p & l & _ & -> & _ & Hp & Hl).
    assert (Hp' : (h ++ [ODict []]) !! p = Some (OList l))
      by (apply lookup_app_l_Some, Hp).
    eexists _, _. split.
    + cbn [convert_property]. unfold probe_non_dict. cbn [existsb].
      rewrite <- !(existsb_is_str _ _ _ _ _ _ Hl). reflexivity.
    + apply (run_non_dict (fun k => existsb (ref_is_str k) l)).
      * intros k. unfold contains. rewrite Hp'. reflexivity.
      * intros k. unfold getitem. rewrite Hp'. reflexivity.
      * intros k d. unfold get_method. rewrite Hp'. reflexivity.
  - destruct (read_back_tuple _ _ _ _ _ Hr) as (n' & p & l & _ & -> & _ & Hp & Hl).
    assert (Hp' : (h ++ [ODict []]) !! p = Some (OTuple l))
      by (apply lookup_app_l_Some, Hp).
    eexists _, _. split.
    + cbn [convert_property]. unfold probe_non_dict. cbn [existsb].
      rewrite <- !(existsb_is_str _ _ _ _ _ _ Hl). reflexivity.
    + apply (run_non_dict (fun k => existsb (ref_is_str k) l)).
      * intros k. unfold contains. rewrite Hp'. reflexivity.
      * intros k. unfold getitem. rewrite Hp'. reflexivity.
      * intros k d. unfold get_method. rewrite Hp'. reflexivity.
  - destruct (read_back_set _ _ _ _ _ Hr) as (n' & p & l & _ & -> & _ & Hp & Hl).
    assert (Hp' : (h ++ [ODict []]) !! p = Some (OSet l))
      by (apply lookup_app_l_Some, Hp).
    eexists _, _. split.
    + cbn [convert_property]. unfold probe_non_dict. cbn [existsb].
      rewrite <- !(existsb_is_str _ _ _ _ _ _ Hl). reflexivity.
    + apply (run_non_dict (fun k => existsb (ref_is_str k) l)).
      * intros k. unfold contains. rewrite Hp'. reflexivity.
      * intros k. unfold getitem. rewrite Hp'. reflexivity.
      * intros k d. unfold get_method. rewrite Hp'. reflexivity.
Qed.

Lemma get_is_reads (D : nat -> bool) (n : nat) (h : heap) (d : dict pyref)
    (dv : dict value) (k s : string) :
  dict_reads (fun r v => read_back D n h r = Some v) d dv ->
  ref_is_str s (match dict_get d k with Some r => r | None => RNone end) =
  get_is dv k s.
Proof.
  intros Hd. pose proof (dict_reads_get _ d dv k Hd) as Hg. unfold get_is.
  destruct (dict_get d k) as [r|], (dict_get dv k) as [v|]; try contradiction.
  - exact (read_back_is_str _ _ _ _ _ s Hg).
  - reflexivity.
Qed.

(** The store run of [convert_property] follows the tree conversion: from
    a stored value that reads as the tree [v], with more calls allowed than
    [v] is deep, it returns a value that reads as the conversion of [v], or
    raises the same exception. *)
Lemma convert_property_simulated (depth : nat) :
  forall (n : nat) (D : nat -> bool) (h : heap) (x : pyref) (v : value),
    n < depth ->
    (forall i, D i = true -> i < length h) ->
    read_back D n h x = Some v ->
    match convert_property py_repr v with
    | Ok v' =>
        exists h' y m,
          convert_property_h heap_repr depth x h = (h', Ok y) /\
          read_back (grown D (length h)) m h' y = Some v'
    | Raise e =>
        exists h', convert_property_h heap_repr depth x h = (h', Raise e)
    end.
Proof.
  induction depth as [|depth IH]; intros n D h x v Hn HD Hr; [lia|].
  destruct v as [| | | | s | lv | dv | | | |];
    try (destruct (convert_property_simulated_other depth D n h x _ Hr I)
           as (e & h' & -> & E); exists h'; exact E).
  destruct (read_back_dict _ _ _ _ _ Hr) as (n' & p & d & -> & -> & Dp & Hp & Hd).
  set (a := length h). set (H1 := h ++ [ODict []]).
  assert (Hpa : p <> a) by (apply lookup_lt_Some in Hp; unfold a; lia).
  assert (Hp1 : H1 !! p = Some (ODict d)) by (apply lookup_app_l_Some, Hp).
  assert (Hold : forall i, D i = true -> H1 !! i = h !! i).
  { intros i Hi. apply lookup_app_l, HD, Hi. }
  rewrite convert_property_dict. cbn [convert_property_h].
  rewrite (mbind_ok (new_dict []) _ h H1 (RObj a) eq_refl).
  rewrite (mbind_ok _ _ _ _ _ (run_contains H1 p d "$ref" Hp1)), dict_mem_get.
  pose proof (dict_reads_get _ d dv "$ref" Hd) as Href.
  destruct (dict_get d "$ref") as [r|] eqn:Er, (dict_get dv "$ref") as [vr|];
    try contradiction.
  - (* a reference *)
    assert (Hr1 : read_back D n' H1 r = Some vr).
    { apply (read_back_transfer D D h H1 n'); auto. }
    rewrite (mbind_ok _ _ _ _ _ (run_getitem H1 p d "$ref" r Hp1 Er)).
    rewrite (mbind_ok _ _ _ _ _ (run_format D n' H1 r vr Hr1)).
    eexists _, _, 1. split; [reflexivity|].
    cbn [read_back]. rewrite grown_new by (unfold H1; rewrite length_app; lia).
    rewrite list_lookup_middle by reflexivity. reflexivity.
  - (* no reference *)
    clear Href.
    match goal with
    | |- context [ (copy_key_h "type" _ _ ;;; copy_key_h "description" _ _ ;;;
                    copy_key_h "example" _ _ ;;; ?k) H1 ] =>
        destruct (run_first_copies H1 H1 a p d k
                    (result_at_start h []) Hpa Hp1) as (H3 & E3 & R3);
        rewrite E3; clear E3
    end.
    pose proof R3 as (Hl3 & Ha3 & Ho3).
    assert (Hp3 : H3 !! p = Some (ODict d)) by (rewrite Ho3; auto).
    assert (Hold3 : forall i, D i = true -> D i = true /\ H3 !! i = h !! i).
    { intros i Hi. split; [exact Hi|]. rewrite Ho3, Hold; auto.
      apply HD in Hi. unfold a. lia. }
    assert (HD3 : forall i, D i = true -> i < length H3).
    { intros i Hi. apply HD in Hi. rewrite Hl3. unfold H1.
      rewrite length_app. lia. }
    rewrite (mbind_ok _ _ _ _ _ (run_get_method H3 p d "type" RNone Hp3)).
    rewrite (get_is_reads _ _ _ _ _ "type" "array" Hd).
    assert (Ehas : (if get_is dv "type" "array"
                    then contains "items" (RObj p) else ret false) H3 =
                   (H3, Ok (get_is dv "type" "array" && dict_mem "items" d))).
    { destruct (get_is dv "type" "array"); [apply run_contains, Hp3 | reflexivity]. }
    rewrite (mbind_ok _ _ _ _ _ Ehas). clear Ehas.
    (* how the fields of the input read in a later store *)
    assert (Hlater : forall Hf M,
               (forall i, D i = true -> Hf !! i = h !! i) -> n' <= M ->
               dict_reads (fun r v => read_back (grown D a) M Hf r = Some v) d dv).
    { intros Hf M Hagree HM. eapply dict_reads_impl; [|exact Hd].
      intros r v Hrv. apply (read_back_transfer D (grown D a) h Hf n'); auto.
      intros i Hi. split; [apply grown_old, Hi | apply Hagree, Hi]. }
    pose proof (dict_reads_get _ d dv "items" Hd) as Hitems.
    rewrite dict_mem_get.
    destruct (get_is dv "type" "array");
      [destruct (dict_get d "items") as [it|] eqn:Eit,
                (dict_get dv "items") as [vit|]; try contradiction|];
      cbn [andb].
    + (* an array with items: the recursive call *)
      assert (Hit3 : read_back D n' H3 it = Some vit).
      { apply (read_back_transfer D D h H3 n'); auto. }
      pose proof (IH n' D H3 it vit ltac:(lia) HD3 Hit3) as Hrec.
      destruct (convert_property py_repr vit) as [vc|e]; cbn [bind].
      * destruct Hrec as (H4 & c & m & E4 & Hc).
        pose proof (convert_property_frame heap_repr depth it H3 H3 H4 (Ok c)
                      eq_refl E4) as [Hu _].
        assert (Hp4 : H4 !! p = Some (ODict d)) by (apply Hu, Hp3).
        pose proof (result_at_base H4 a _ (Hu _ _ Ha3)) as R4.
        destruct (run_setitem H4 H4 a _ "items" c R4) as (H5 & E5 & R5).
        destruct (run_finish H4 H5 a p d _ R5 Hpa Hp4) as (H7 & E7 & R7).
        assert (Eblock :
                 (let* it := getitem (RObj p) "items" in
                  let* c := convert_property_h heap_repr depth it in
                  setitem (RObj a) "items" c) H3 = (H5, Ok tt)).
        { rewrite (mbind_ok _ _ _ _ _ (run_getitem H3 p d "items" it Hp3 Eit)).
          rewrite (mbind_ok _ _ _ _ _ E4). exact E5. }
        rewrite (mbind_ok _ _ _ _ _ Eblock), E7.
        exists H7, (RObj a), (S (Nat.max m n')). split; [reflexivity|].
        pose proof R7 as (Hl7 & Ha7 & Ho7).
        assert (Hlen3 : length H3 = S a).
        { rewrite Hl3. unfold H1. rewrite length_app. simpl. unfold a. lia. }
        apply (read_result _ _ H4 H7 a _ _ R7);
          [apply grown_new; lia|].
        apply dict_reads_finished.
        -- apply Hlater; [|lia]. intros i Hi.
           destruct (Hold3 i Hi) as [_ <-].
           assert (Hia : i <> a) by (apply HD in Hi; unfold a; lia).
           rewrite (Ho7 i Hia).
           destruct (lookup_lt_is_Some_2 H3 i (HD3 i Hi)) as [o Ho].
           rewrite Ho. apply Hu, Ho.
        -- apply dict_reads_set.
           ++ apply dict_reads_first_copies, Hlater; [|lia]. intros i Hi.
              destruct (Hold3 i Hi) as [_ <-].
              assert (Hia : i <> a) by (apply HD in Hi; unfold a; lia).
              rewrite (Ho7 i Hia).
              destruct (lookup_lt_is_Some_2 H3 i (HD3 i Hi)) as [o Ho].
              rewrite Ho. apply Hu, Ho.
           ++ apply (read_back_transfer (grown D (length H3)) (grown D a) H4 H7 m);
                [|lia|exact Hc].
              intros i Hi. apply grown_inv in Hi.
              assert (Hia : i <> a).
              { destruct Hi as [Hi|Hi]; [apply HD in Hi; unfold a|]; lia. }
              split; [|apply Ho7, Hia].
              destruct Hi as [Hi|Hi]; [apply grown_old, Hi | apply grown_new; lia].
      * destruct Hrec as (H4 & E4).
        assert (Eblock :
                 (let* it := getitem (RObj p) "items" in
                  let* c := convert_property_h heap_repr depth it in
                  setitem (RObj a) "items" c) H3 = (H4, Raise e)).
        { rewrite (mbind_ok _ _ _ _ _ (run_getitem H3 p d "items" it Hp3 Eit)).
          apply mbind_raise, E4. }
        exists H4. apply mbind_raise, Eblock.
    + (* an array without items *)
      cbn [bind]. destruct (run_finish H1 H3 a p d _ R3 Hpa Hp1) as (H7 & E7 & R7).
      rewrite (mbind_ok (ret tt) _ H3 H3 tt eq_refl), E7.
      exists H7, (RObj a), (S n'). split; [reflexivity|].
      pose proof R7 as (Hl7 & Ha7 & Ho7).
      assert (Hagree : forall i, D i = true -> H7 !! i = h !! i).
      { intros i Hi. rewrite <- (Hold i Hi). apply Ho7.
        apply HD in Hi. unfold a. lia. }
      apply (read_result _ _ H1 H7 a _ _ R7); [apply grown_new; lia|].
      apply dict_reads_finished; [|apply dict_reads_first_copies];
        apply Hlater; auto.
    + (* not an array *)
      cbn [bind]. destruct (run_finish H1 H3 a p d _ R3 Hpa Hp1) as (H7 & E7 & R7).
      rewrite (mbind_ok (ret tt) _ H3 H3 tt eq_refl), E7.
      exists H7, (RObj a), (S n'). split; [reflexivity|].
      pose proof R7 as (Hl7 & Ha7 & Ho7).
      assert (Hagree : forall i, D i = true -> H7 !! i = h !! i).
      { intros i Hi. rewrite <- (Hold i Hi). apply Ho7.
        apply HD in Hi. unfold a. lia. }
      apply (read_result _ _ H1 H7 a _ _ R7); [apply grown_new; lia|].
      apply dict_reads_finished; [|apply dict_reads_first_copies];
        apply Hlater; auto.
Qed.

Lemma grown_false (D : nat -> bool) (lo i : nat) :
  D i = false -> i < lo -> grown D lo i = false.
Proof.
  intros HD Hlo. unfold grown. rewrite HD. simpl. apply Nat.leb_gt, Hlo.
Qed.

(** The loop over the properties, from a store [H] in which the converted
    schema is at [a] and its new [properties] dictionary, holding [acc], at
    [b]. *)
Lemma convert_properties_simulated (depth n : nat) (D : nat -> bool) (h : heap)
    (a b lo : nat) (resA : dict pyref) :
  n < depth ->
  (forall i, D i = true -> i < length h) ->
  D a = false -> D b = false -> a < lo -> b < lo -> a <> b ->
  dict_get resA "properties" = Some (RObj b) ->
  forall (dp : dict pyref) (dpv : dict value),
    dict_reads (fun r v => read_back D n h r = Some v) dp dpv ->
    forall (H : heap) (acc : dict pyref) (accv : dict value) (M0 : nat),
      lo <= length H -> length h <= length H ->
      H !! a = Some (ODict resA) ->
      H !! b = Some (ODict acc) ->
      (forall i o, D i = true -> h !! i = Some o -> H !! i = Some o) ->
      dict_reads (fun r v => read_back (grown D lo) M0 H r = Some v) acc accv ->
      match convert_properties py_repr dpv accv with
      | Ok outv =>
          exists H' out M,
            convert_properties_h heap_repr depth dp (RObj a) H = (H', Ok tt) /\
            lo <= length H' /\
            H' !! a = Some (ODict resA) /\
            H' !! b = Some (ODict out) /\
            (forall i o, D i = true -> h !! i = Some o -> H' !! i = Some o) /\
            dict_reads (fun r v => read_back (grown D lo) M H' r = Some v) out outv
      | Raise e =>
          exists H',
            convert_properties_h heap_repr depth dp (RObj a) H = (H', Raise e)
      end.
Proof.
  intros Hn HD Da Db Halo Hblo Hab Hprops dp dpv Hdp.
  induction Hdp as [|[k r] [k' v] tl tlv [Hk Hrv] _ IH];
    intros H acc accv M0 Hlo Hlen Ha Hb Hold Hacc.
  - cbn [convert_properties convert_properties_h].
    exists H, acc, M0. repeat split; auto.
  - simpl in Hk, Hrv. subst k'.
    cbn [convert_properties convert_properties_h].
    assert (HrH : read_back D n H r = Some v).
    { apply (read_back_moves D D h H n); auto. }
    assert (HDH : forall i, D i = true -> i < length H).
    { intros i Hi. apply HD in Hi. lia. }
    pose proof (convert_property_simulated depth n D H r v Hn HDH HrH) as Hsim.
    destruct (convert_property py_repr v) as [vc|e]; cbn [bind].
    + destruct Hsim as (H1 & c & m & E1 & Hc).
      pose proof (convert_property_frame heap_repr depth r H H H1 (Ok c)
                    eq_refl E1) as [Hu _].
      pose proof (Hu _ _ Ha) as Ha1. pose proof (Hu _ _ Hb) as Hb1.
      pose proof (unchanged_length _ _ Hu) as Hlen1.
      set (H2 := <[b := ODict (dict_set acc k c)]> H1).
      assert (E2 : setitem (RObj b) k c H1 = (H2, Ok tt)).
      { unfold setitem. rewrite Hb1. reflexivity. }
      assert (Hne : forall i, i <> b -> H2 !! i = H1 !! i).
      { intros i Hi. unfold H2. apply list_lookup_insert_ne. auto. }
      specialize (IH H2 (dict_set acc k c) (dict_set accv k vc) (Nat.max M0 m)).
      assert (Hrun :
               convert_properties_h heap_repr depth ((k, r) :: tl) (RObj a) H =
               convert_properties_h heap_repr depth tl (RObj a) H2).
      { cbn [convert_properties_h]. rewrite (mbind_ok _ _ _ _ _ E1).
        rewrite (mbind_ok _ _ _ _ _ (run_getitem H1 a resA "properties" (RObj b)
                                       Ha1 Hprops)).
        rewrite (mbind_ok _ _ _ _ _ E2). reflexivity. }
      cbn [convert_properties_h] in Hrun. rewrite Hrun. apply IH.
      * unfold H2. rewrite length_insert. lia.
      * unfold H2. rewrite length_insert. lia.
      * rewrite Hne; auto.
      * unfold H2. apply list_lookup_insert_eq. eapply lookup_lt_Some, Hb1.
      * intros i o Hi Ho. rewrite Hne; [apply Hu, Hold; assumption|].
        intros ->. congruence.
      * apply dict_reads_set.
        -- eapply dict_reads_impl; [|exact Hacc]. intros r' v' Hr'.
           apply (read_back_moves (grown D lo) (grown D lo) H H2 M0);
             [|lia|exact Hr'].
           intros i o Hi Ho. split; [exact Hi|].
           rewrite Hne; [apply Hu, Ho|].
           intros ->. rewrite (grown_false D lo b Db Hblo) in Hi. discriminate.
        -- apply (read_back_moves (grown D (length H)) (grown D lo) H1 H2 m);
             [|lia|exact Hc].
           intros i o Hi Ho. apply grown_inv in Hi. split.
           ++ destruct Hi as [Hi|Hi]; [apply grown_old, Hi | apply grown_new; lia].
           ++ rewrite Hne; [exact Ho|].
              intros ->. destruct Hi as [Hi|Hi]; [congruence | lia].
    + destruct Hsim as (H1 & E1). exists H1. apply mbind_raise, E1.
Qed.

(** The store run of [convert_openapi_to_jsonschema] follows the tree
    conversion in the same way. *)
Lemma convert_openapi_simulated (depth n : nat) (D : nat -> bool) (h : heap)
    (x : pyref) (v : value) :
  n < depth ->
  (forall i, D i = true -> i < length h) ->
  read_back D n h x = Some v ->
  match convert_openapi_to_jsonschema py_repr v with
  | Ok v' =>
      exists h' y m,
        convert_openapi_to_jsonschema_h heap_repr depth x h = (h', Ok y) /\
        read_back (grown D (length h)) m h' y = Some v'
  | Raise e =>
      exists h',
        convert_openapi_to_jsonschema_h heap_repr depth x h = (h', Raise e)
  end.
Proof.
  intros Hn HD Hr. pose proof (read_back_scalar _ _ _ _ _ Hr) as Hs.
  unfold convert_openapi_to_jsonschema_h.
  destruct v as [| | | | s | lv | dv | | | |]; try subst x;
    try (exists h; reflexivity).
  - destruct (read_back_list _ _ _ _ _ Hr) as (n' & p & l & _ & -> & _ & Hp & _).
    exists h. apply mbind_raise. unfold get_method. rewrite Hp. reflexivity.
  - destruct (read_back_dict _ _ _ _ _ Hr) as (n1 & p & d & -> & -> & Dp & Hp & Hd).
    set (a := length h).
    set (t := match dict_get d "type" with Some r => r | None => RStr "object" end).
    set (H1 := h ++ [ODict [("$schema", RStr draft07); ("type", t)]]).
    assert (Hpa : p <> a) by (apply lookup_lt_Some in Hp; unfold a; lia).
    assert (Da : D a = false).
    { destruct (D a) eqn:E; [|reflexivity]. apply HD in E. unfold a in E. lia. }
    assert (Hp1 : H1 !! p = Some (ODict d)) by (apply lookup_app_l_Some, Hp).
    rewrite (mbind_ok _ _ _ _ _ (run_get_method h p d "type" (RStr "object") Hp)).
    fold t.
    rewrite (mbind_ok (new_dict [("$schema", RStr draft07); ("type", t)]) _
               h H1 (RObj a) eq_refl).
    destruct (run_copy_key H1 H1 a p d _ "title" (result_at_start h _) Hpa Hp1)
      as (H2' & E2' & R2').
    destruct (run_copy_key H1 H2' a p d _ "description" R2' Hpa Hp1)
      as (H2 & E2 & R2).
    rewrite (mbind_ok _ _ _ _ _ E2'), (mbind_ok _ _ _ _ _ E2).
    clear E2' E2 R2' H2'.
    set (res2 := copy_key "description" d
                   (copy_key "title" d [("$schema", RStr draft07); ("type", t)]))
      in *.
    pose proof R2 as (Hl2 & Ha2 & Ho2).
    assert (Hlen1 : length H1 = S a).
    { unfold H1. rewrite length_app. simpl. unfold a. lia. }
    assert (Hp2 : H2 !! p = Some (ODict d)) by (rewrite Ho2; auto).
    rewrite (mbind_ok _ _ _ _ _ (run_contains H2 p d "properties" Hp2)).
    (* the head of the converted schema reads as [schema_head] *)
    assert (Hhead : forall Hf M,
               (forall i o, D i = true -> h !! i = Some o -> Hf !! i = Some o) ->
               n1 <= M ->
               dict_reads (fun r v => read_back (grown D a) M Hf r = Some v) d dv /\
               dict_reads (fun r v => read_back (grown D a) M Hf r = Some v)
                 res2 (schema_head dv)).
    { intros Hf M Hagree HM.
      assert (Hd' : dict_reads
                      (fun r v => read_back (grown D a) M Hf r = Some v) d dv).
      { eapply dict_reads_impl; [|exact Hd]. intros r v Hrv.
        apply (read_back_moves D (grown D a) h Hf n1); auto.
        intros i o Hi Ho. split; [apply grown_old, Hi | apply Hagree; assumption]. }
      split; [exact Hd'|].
      unfold res2, schema_head. repeat apply dict_reads_copy_key; try exact Hd'.
      constructor; [split; [reflexivity | destruct M; reflexivity]|].
      constructor; [|constructor]. split; [reflexivity|]. simpl.
      pose proof (dict_reads_get _ d dv "type" Hd') as Ht. unfold t.
      destruct (dict_get d "type"), (dict_get dv "type"); try contradiction;
        [exact Ht | destruct M; reflexivity]. }
    unfold convert_openapi_to_jsonschema. fold (schema_head dv).
    pose proof (dict_reads_get _ d dv "properties" Hd) as Hprops.
    rewrite dict_mem_get.
    destruct (dict_get d "properties") as [rp|] eqn:Erp,
             (dict_get dv "properties") as [vp|]; try contradiction.
    + (* with properties *)
      set (b := length H2).
      set (H3 := H2 ++ [ODict []]).
      set (resA := dict_set res2 "properties" (RObj b)).
      set (H4 := <[a := ODict resA]> H3).
      assert (Hb : b = S a) by (unfold b; lia).
      assert (Db : D b = false).
      { destruct (D b) eqn:E; [|reflexivity]. apply HD in E. unfold a in *. lia. }
      assert (Ha3 : H3 !! a = Some (ODict res2)) by (apply lookup_app_l_Some, Ha2).
      assert (Eset : setitem (RObj a) "properties" (RObj b) H3 = (H4, Ok tt)).
      { unfold setitem. rewrite Ha3. reflexivity. }
      assert (Hlen4 : length H4 = S (S a)).
      { unfold H4, H3. rewrite length_insert, length_app. simpl. lia. }
      assert (Ha4 : H4 !! a = Some (ODict resA)).
      { unfold H4. apply list_lookup_insert_eq. eapply lookup_lt_Some, Ha3. }
      assert (Hb4 : H4 !! b = Some (ODict [])).
      { unfold H4. rewrite list_lookup_insert_ne by lia.
        apply list_lookup_middle. reflexivity. }
      assert (Hold4 : forall i o, D i = true -> h !! i = Some o -> H4 !! i = Some o).
      { intros i o Hi Ho. assert (Hia : i <> a) by (apply HD in Hi; unfold a; lia).
        unfold H4. rewrite list_lookup_insert_ne by auto.
        apply lookup_app_l_Some. rewrite Ho2 by exact Hia.
        apply lookup_app_l_Some, Ho. }
      assert (Hp4 : H4 !! p = Some (ODict d)) by (apply Hold4; assumption).
      assert (Epre : forall k : list (string * pyref) -> M unit,
                 (let* fresh := new_dict [] in
                  setitem (RObj a) "properties" fresh ;;;
                  let* props := getitem (RObj p) "properties" in
                  let* its := items_method props in k its) H2 =
                 (let* its := items_method rp in k its) H4).
      { intros k. rewrite (mbind_ok (new_dict []) _ H2 H3 (RObj b) eq_refl).
        rewrite (mbind_ok _ _ _ _ _ Eset).
        rewrite (mbind_ok _ _ _ _ _ (run_getitem H4 p d "properties" rp Hp4 Erp)).
        reflexivity. }
      assert (Hother : match vp with VDict _ => True | _ =>
                         items_method rp H4 = (H4, Raise AttributeError) end).
      { pose proof (read_back_scalar _ _ _ _ _ Hprops) as Hsp.
        destruct vp; try exact I; try (subst rp; reflexivity);
          first [ destruct (read_back_list _ _ _ _ _ Hprops)
                    as (n2 & q & l & _ & -> & Dq & Hq & _)
                | destruct (read_back_tuple _ _ _ _ _ Hprops)
                    as (n2 & q & l & _ & -> & Dq & Hq & _)
                | destruct (read_back_set _ _ _ _ _ Hprops)
                    as (n2 & q & l & _ & -> & Dq & Hq & _) ];
          unfold items_method; rewrite (Hold4 q _ Dq Hq); reflexivity. }
      destruct vp as [| | | | | |props| | | |];
        try (exists H4; apply mbind_raise; rewrite Epre;
             apply mbind_raise, Hother).
      clear Hother.
      destruct (read_back_dict _ _ _ _ _ Hprops)
        as (n2 & q & dp & -> & -> & Dq & Hq & Hdp).
      assert (Eits : items_method (RObj q) H4 = (H4, Ok dp)).
      { unfold items_method. rewrite (Hold4 q _ Dq Hq). reflexivity. }
      pose proof (convert_properties_simulated depth n2 D h a b (length H4) resA
                    ltac:(lia) HD Da Db ltac:(lia) ltac:(lia) ltac:(lia)
                    ltac:(unfold resA; rewrite dict_get_set; reflexivity)
                    dp props Hdp H4 [] [] 0 ltac:(lia) ltac:(unfold a in *; lia)
                    Ha4 Hb4 Hold4 ltac:(constructor)) as Hloop.
      destruct (convert_properties py_repr props []) as [converted|e]; cbn [bind].
      * destruct Hloop as (H5 & out & M & E5 & Hlo5 & Ha5 & Hb5 & Hold5 & Hout).
        assert (Hp5 : H5 !! p = Some (ODict d)) by (apply Hold5; assumption).
        destruct (run_copy_key H5 H5 a p d _ "required"
                    (result_at_base H5 a resA Ha5) Hpa Hp5) as (H6 & E6 & R6).
        assert (Eblock :
                 (let* fresh := new_dict [] in
                  setitem (RObj a) "properties" fresh ;;;
                  let* props := getitem (RObj p) "properties" in
                  let* its := items_method props in
                  convert_properties_h heap_repr depth its (RObj a)) H2 =
                 (H5, Ok tt)).
        { rewrite Epre, (mbind_ok _ _ _ _ _ Eits). exact E5. }
        rewrite (mbind_ok _ _ _ _ _ Eblock), (mbind_ok _ _ _ _ _ E6).
        exists H6, (RObj a), (S (S (Nat.max M (S n2)))). split; [reflexivity|].
        pose proof R6 as (Hl6 & Ha6 & Ho6).
        destruct (Hhead H6 (S (Nat.max M (S n2)))) as [Hd6 Hres6]; [|lia|].
        { intros i o Hi Ho. rewrite Ho6; [apply Hold5; assumption|].
          apply HD in Hi. unfold a. lia. }
        apply (read_result _ _ H5 H6 a _ _ R6); [apply grown_new; lia|].
        apply dict_reads_copy_key; [exact Hd6|].
        apply dict_reads_set; [exact Hres6|].
        cbn [read_back]. rewrite grown_new by lia.
        rewrite Ho6 by lia. rewrite Hb5.
        assert (Hout6 : dict_reads
                          (fun r v => read_back (grown D a) (Nat.max M (S n2)) H6 r
                                      = Some v) out converted).
        { eapply dict_reads_impl; [|exact Hout]. intros r v Hrv.
          apply (read_back_moves (grown D (length H4)) (grown D a) H5 H6 M);
            [|lia|exact Hrv].
          intros i o Hi Ho. apply grown_inv in Hi. split.
          - destruct Hi as [Hi|Hi]; [apply grown_old, Hi | apply grown_new; lia].
          - rewrite Ho6; [exact Ho|].
            destruct Hi as [Hi|Hi]; [apply HD in Hi; unfold a|]; lia. }
        apply read_entries_dict_reads in Hout6. rewrite Hout6. reflexivity.
      * destruct Hloop as (H5 & E5). exists H5. apply mbind_raise.
        rewrite Epre, (mbind_ok _ _ _ _ _ Eits). exact E5.
    + (* without properties *)
      cbn [bind].
      destruct (run_copy_key H1 H2 a p d _ "required" R2 Hpa Hp1)
        as (H3 & E3 & R3).
      rewrite (mbind_ok (ret tt) _ H2 H2 tt eq_refl), (mbind_ok _ _ _ _ _ E3).
      exists H3, (RObj a), (S n1). split; [reflexivity|].
      pose proof R3 as (Hl3 & Ha3 & Ho3).
      destruct (Hhead H3 n1) as [Hd3 Hres3]; [|lia|].
      { intros i o Hi Ho. rewrite Ho3; [apply lookup_app_l_Some, Ho|].
        apply HD in Hi. unfold a. lia. }
      apply (read_result _ _ H1 H3 a _ _ R3); [apply grown_new; lia|].
      apply dict_reads_copy_key; assumption.
  - destruct (read_back_tuple _ _ _ _ _ Hr) as (n' & p & l & _ & -> & _ & Hp & _).
    exists h. apply mbind_raise. unfold get_method. rewrite Hp. reflexivity.
  - destruct (read_back_set _ _ _ _ _ Hr) as (n' & p & l & _ & -> & _ & Hp & _).
    exists h. apply mbind_raise. unfold get_method. rewrite Hp. reflexivity.
Qed.

Lemma read_back_anywhere (D : nat -> bool) (n : nat) (h : heap) (x : pyref)
    (v : value) :
  read_back D n h x = Some v -> read_back anywhere n h x = Some v.
Proof.
  apply (read_back_moves D anywhere h h n); [|lia]. intros i o _ Ho. auto.
Qed.

Lemma read_back_allocated (n : nat) (h : heap) (x : pyref) (v : value) :
  read_back anywhere n h x = Some v ->
  read_back (fun i => Nat.ltb i (length h)) n h x = Some v.
Proof.
  apply (read_back_moves anywhere _ h h n); [|lia]. intros i o _ Ho.
  split; [|exact Ho]. apply Nat.ltb_lt. eapply lookup_lt_Some, Ho.
Qed.

(** X19: both conversions on the store agree with the conversions on trees:
    when the input reads as the tree [v] and the interpreter allows more
    calls than [v] is deep, the store run returns a value that reads as the
    result of the tree conversion, or raises the exception the tree
    conversion raises. *)
Theorem store_conversions_follow_trees (depth n : nat) (h : heap) (x : pyref)
    (v : value) :
  n < depth ->
  read_back anywhere n h x = Some v ->
  match convert_property py_repr v with
  | Ok v' =>
      exists h' y m,
        convert_property_h heap_repr depth x h = (h', Ok y) /\
        read_back anywhere m h' y = Some v'
  | Raise e => exists h', convert_property_h heap_repr depth x h = (h', Raise e)
  end /\
  match convert_openapi_to_jsonschema py_repr v with
  | Ok v' =>
      exists h' y m,
        convert_openapi_to_jsonschema_h heap_repr depth x h = (h', Ok y) /\
        read_back anywhere m h' y = Some v'
  | Raise e =>
      exists h', convert_openapi_to_jsonschema_h heap_repr depth x h = (h', Raise e)
  end.
Proof.
  intros Hn Hr. apply read_back_allocated in Hr.
  assert (HD : forall i, Nat.ltb i (length h) = true -> i < length h).
  { intros i. apply Nat.ltb_lt. }
  pose proof (convert_property_simulated depth n _ h x v Hn HD Hr) as H1.
  pose proof (convert_openapi_simulated depth n _ h x v Hn HD Hr) as H2.
  split.
  - destruct (convert_property py_repr v); [|exact H1].
    destruct H1 as (h' & y & m & E & Hy). exists h', y, m.
    split; [exact E | exact (read_back_anywhere _ _ _ _ _ Hy)].
  - destruct (convert_openapi_to_jsonschema py_repr v); [|exact H2].
    destruct H2 as (h' & y & m & E & Hy). exists h', y, m.
    split; [exact E | exact (read_back_anywhere _ _ _ _ _ Hy)].
Qed.

End Simulation.

(** * Further properties *)

(** ** [convert_property] *)

Section PropertyFacts.

Variable py_repr : value -> string.

(** The exceptions of [convert_property] are those of testing, indexing or
    calling [get] on something that is not a dictionary. *)
Lemma convert_property_exceptions (v : value) (e : exn) :
  convert_property py_repr v = Raise e -> e = TypeError \/ e = AttributeError.
Proof.
  induction v as [| | | | s | l _ | d IH | | | l _ | l _] using value_ind;
    try solve [intros [= <-]; auto];
    try solve [cbn [convert_property]; unfold probe_non_dict;
               destruct (existsb _ _); intros [= <-]; auto].
  rewrite convert_property_dict.
  destruct (dict_get d "$ref"); [discriminate|].
  destruct (get_is d "type" "array"); [|discriminate].
  destruct (dict_get d "items") as [it|] eqn:Eit; [|discriminate].
  rewrite List.Forall_forall in IH.
  pose proof (IH _ (dict_get_In _ _ _ Eit)) as IHit. simpl in IHit.
  destruct (convert_property py_repr it) as [c|e']; simpl; [discriminate|].
  intros [= <-]. apply IHit. reflexivity.
Qed.

(** X1: [convert_property] returns, and returns a dictionary, exactly on
    Property Objects; on anything else it raises [TypeError] or
    [AttributeError] and nothing else: [TypeError] on [None], a boolean, a
    number, bytes or a date, and [AttributeError] on a string, a list, a
    tuple or a set in which none of [$ref], [type], [description], [example]
    is found. *)
Theorem convert_property_outcome (v : value) :
  (if property_object v
   then exists o, convert_property py_repr v = Ok (VDict o)
   else exists e, convert_property py_repr v = Raise e /\
                  (e = TypeError \/ e = AttributeError)) /\
  (match v with
   | VNone | VBool _ | VInt _ | VFloat _ | VBytes _ | VDate _ =>
       convert_property py_repr v = Raise TypeError
   | VStr s =>
       existsb (fun k => str_contains k s)
         ["$ref"; "type"; "description"; "example"] = false ->
       convert_property py_repr v = Raise AttributeError
   | VList l | VTuple l | VSet l =>
       existsb (fun k => existsb (is_str k) l)
         ["$ref"; "type"; "description"; "example"] = false ->
       convert_property py_repr v = Raise AttributeError
   | VDict _ => True
   end).
Proof.
  split.
  - destruct (property_object v) eqn:E.
    + exact (convert_property_returns py_repr v E).
    + destruct (convert_property_raises py_repr v E) as [e He].
      exists e. split; [exact He | exact (convert_property_exceptions v e He)].
  - destruct v; try reflexivity; try exact I;
      intros H; cbn [convert_property]; unfold probe_non_dict;
      rewrite H; reflexivity.
Qed.

Ltac lookups d :=
  destruct (dict_get d "type"), (dict_get d "description"),
    (dict_get d "example"), (dict_get d "format"), (dict_get d "enum").

(** X2: the keys of the output of [convert_property] are [type] and
    [description] when the input has [$ref]; otherwise they are the keys of
    the order type, description, example, items, format, enum that the input
    has ([items] only with [type] equal to ["array"]), in that order and
    each once: any other key of the input is dropped. *)
Theorem convert_property_keys (d o : dict value) :
  convert_property py_repr (VDict d) = Ok (VDict o) ->
  keys o =
  if dict_mem "$ref" d then ["type"; "description"]
  else List.filter (on_output d) property_key_order.
Proof.
  intros Hout. destruct (dict_mem "$ref" d) eqn:Href.
  - destruct (dict_mem_true_get _ _ Href) as [r Hr].
    rewrite (convert_property_with_ref py_repr d r Hr) in Hout.
    injection Hout as <-. reflexivity.
  - unfold property_key_order, on_output. cbn [List.filter String.eqb Ascii.eqb
      Bool.eqb].
    destruct (convert_property_no_ref py_repr d _ Href Hout)
      as [(Harr & it & c & Hit & _ & Ho) | ([Hno | Hno] & Ho)];
      injection Ho as ->;
      rewrite ?Harr, ?Hno, !dict_mem_get, ?Hit, ?Hno, ?andb_false_r;
      unfold finished, first_copies, copy_key;
      lookups d; reflexivity.
Qed.

Lemma get_is_array (d : dict value) :
  get_is d "type" "array" = true -> dict_get d "type" = Some (VStr "array").
Proof.
  unfold get_is. destruct (dict_get d "type") as [[| | | | s | | | | | |]|];
    simpl; try discriminate.
  intros H. apply String.eqb_eq in H. congruence.
Qed.

(** Converting the output of a conversion gives it back. *)
Lemma convert_property_again (v out : value) :
  convert_property py_repr v = Ok out -> convert_property py_repr out = Ok out.
Proof.
  revert out. induction v as [| | | | s | l _ | d IH | | | l _ | l _] using value_ind;
    intros out; try discriminate.
  destruct (dict_mem "$ref" d) eqn:Href.
  - destruct (dict_mem_true_get _ _ Href) as [r Hr].
    rewrite (convert_property_with_ref py_repr d r Hr).
    intros [= <-]. reflexivity.
  - intros Hout.
    destruct (convert_property_no_ref py_repr d _ Href Hout)
      as [(Harr & it & c & Hit & Hc & ->) | (Hno & ->)].
    + rewrite List.Forall_forall in IH.
      pose proof (IH _ (dict_get_In _ _ _ Hit) c Hc) as Hcc. simpl in Hcc.
      apply get_is_array in Harr.
      rewrite convert_property_dict.
      unfold finished, first_copies, copy_key. rewrite Harr.
      destruct (dict_get d "description"), (dict_get d "example"),
        (dict_get d "format"), (dict_get d "enum");
        cbn; rewrite Hcc; reflexivity.
    + rewrite convert_property_dict.
      unfold finished, first_copies, copy_key, get_is.
      destruct (dict_get d "type") as [vt|], (dict_get d "description"),
        (dict_get d "example"), (dict_get d "format"), (dict_get d "enum");
        cbn; try destruct (is_str "array" vt); reflexivity.
Qed.

(** X3: [convert_property] is idempotent: converting an output again
    returns the same dictionary; in particular an output is a Property
    Object and has no [$ref] key. *)
Theorem convert_property_idempotent (v out : value) :
  convert_property py_repr v = Ok out ->
  convert_property py_repr out = Ok out /\
  property_object out = true /\
  (forall o, out = VDict o -> dict_mem "$ref" o = false).
Proof.
  intros Hout. pose proof (convert_property_again v out Hout) as Hagain.
  split; [exact Hagain|]. split.
  - apply convert_property_ok_iff with (py_repr := py_repr). eauto.
  - intros o ->. destruct (dict_mem "$ref" o) eqn:Href; [|reflexivity].
    destruct (dict_mem_true_get _ _ Href) as [r Hr].
    rewrite (convert_property_with_ref py_repr o r Hr) in Hagain.
    injection Hagain as <-. discriminate.
Qed.

End PropertyFacts.

(** ** [convert_openapi_to_jsonschema] *)

Section SchemaFacts.

Variable py_repr : value -> string.

(** X4: [convert_openapi_to_jsonschema] copies [title], [description] and
    [required] as they are: each has on the output the value it has on the
    input and is absent when the input has none ([required] is not checked
    against the properties); and the output has [properties] exactly when
    the input has. *)
Theorem convert_openapi_copies (d o : dict value) :
  convert_openapi_to_jsonschema py_repr (VDict d) = Ok (VDict o) ->
  (forall k, In k ["title"; "description"; "required"] ->
             dict_get o k = dict_get d k) /\
  dict_mem "properties" o = dict_mem "properties" d.
Proof.
  intros Hout.
  destruct (convert_openapi_dict py_repr d _ Hout)
    as [(Hno & Ho) | (props & converted & Hp & _ & Ho)];
    injection Ho as ->; (split; [intros k Hk|]).
  - unfold schema_head. simpl in Hk.
    repeat (destruct Hk as [<-|Hk]; [|]); try contradiction;
      rewrite !dict_get_copy_key; simpl;
      repeat match goal with
             | |- context [match dict_get d ?k with _ => _ end] =>
                 destruct (dict_get d k)
             end; reflexivity.
  - rewrite !dict_mem_get, Hno. unfold schema_head.
    rewrite !dict_get_copy_key. reflexivity.
  - unfold schema_head. simpl in Hk.
    repeat (destruct Hk as [<-|Hk]; [|]); try contradiction;
      rewrite !dict_get_copy_key, ?dict_get_set; simpl;
      rewrite ?dict_get_copy_key; simpl;
      repeat match goal with
             | |- context [match dict_get d ?k with _ => _ end] =>
                 destruct (dict_get d k)
             end; reflexivity.
  - rewrite !dict_mem_get, Hp, dict_get_copy_key, dict_get_set. reflexivity.
Qed.

(** X5: the keys of a converted schema are [$schema], [type] and then
    those of [title], [description], [properties], [required] that the input
    has, in that order and each once. *)
Theorem convert_openapi_key_order (d o : dict value) :
  convert_openapi_to_jsonschema py_repr (VDict d) = Ok (VDict o) ->
  keys o =
  ["$schema"; "type"] ++
  List.filter (fun k => dict_mem k d)
    ["title"; "description"; "properties"; "required"].
Proof.
  intros Hout.
  destruct (convert_openapi_dict py_repr d _ Hout)
    as [(Hno & Ho) | (props & converted & Hp & _ & Ho)];
    injection Ho as ->; cbn [List.filter]; rewrite !dict_mem_get, ?Hno, ?Hp;
    unfold schema_head, copy_key;
    destruct (dict_get d "title"), (dict_get d "description"),
      (dict_get d "required"); reflexivity.
Qed.

(** The loop stops at the first property whose conversion raises. *)
Lemma convert_properties_first_failure (before after acc : dict value)
    (k : string) (pv : value) (e : exn) :
  forallb (fun kv => property_object (snd kv)) before = true ->
  convert_property py_repr pv = Raise e ->
  convert_properties py_repr (before ++ (k, pv) :: after) acc = Raise e.
Proof.
  revert acc. induction before as [|[k0 v0] tl IH]; simpl; intros acc Hb He.
  - rewrite He. reflexivity.
  - apply andb_true_iff in Hb as [Hv Htl].
    destruct (convert_property_returns py_repr v0 Hv) as [o ->]. simpl.
    apply IH; assumption.
Qed.

Lemma convert_properties_exceptions (props acc : dict value) (e : exn) :
  convert_properties py_repr props acc = Raise e ->
  e = TypeError \/ e = AttributeError.
Proof.
  revert acc. induction props as [|[k v] tl IH]; simpl; intros acc;
    [discriminate|].
  destruct (convert_property py_repr v) as [c|e'] eqn:Ev; simpl.
  - apply IH.
  - intros [= <-]. exact (convert_property_exceptions py_repr v e' Ev).
Qed.

(** X6: [convert_openapi_to_jsonschema] returns, and returns a dictionary,
    exactly on Schema Objects, and otherwise raises [TypeError] or
    [AttributeError]: [AttributeError] when the input is not a dictionary or
    its [properties] is not one, and the exception of the first property, in
    the order of the input, whose conversion raises. *)
Theorem convert_openapi_outcome (v : value) :
  (if schema_object v
   then exists o, convert_openapi_to_jsonschema py_repr v = Ok (VDict o)
   else exists e, convert_openapi_to_jsonschema py_repr v = Raise e /\
                  (e = TypeError \/ e = AttributeError)) /\
  (match v with
   | VDict d =>
       match dict_get d "properties" with
       | Some (VDict props) =>
           forall before k pv after e,
             props = before ++ (k, pv) :: after ->
             forallb (fun kv => property_object (snd kv)) before = true ->
             convert_property py_repr pv = Raise e ->
             convert_openapi_to_jsonschema py_repr v = Raise e
       | Some _ => convert_openapi_to_jsonschema py_repr v = Raise AttributeError
       | None => True
       end
   | _ => convert_openapi_to_jsonschema py_repr v = Raise AttributeError
   end).
Proof.
  split.
  - destruct (schema_object v) eqn:E.
    + destruct (convert_openapi_returns py_repr v E) as [out Hout].
      destruct v as [| | | | | |d| | | |]; try discriminate.
      destruct (convert_openapi_dict py_repr d out Hout)
        as [(_ & ->) | (props & converted & _ & _ & ->)]; eauto.
    + destruct (convert_openapi_raises py_repr v E) as [e He].
      exists e. split; [exact He|].
      destruct v as [| | | | | |d| | | |]; try (injection He as <-; auto).
      unfold convert_openapi_to_jsonschema in He.
      destruct (dict_get d "properties") as [[| | | | | |props| | | |]|];
        simpl in He; try (injection He as <-; auto); try discriminate.
      destruct (convert_properties py_repr props []) as [c|e'] eqn:Ep;
        simpl in He; [discriminate|].
      injection He as <-. exact (convert_properties_exceptions props [] e' Ep).
  - destruct v as [| | | | | |d| | | |]; try reflexivity.
    unfold convert_openapi_to_jsonschema.
    destruct (dict_get d "properties") as [[| | | | | |props| | | |]|];
      try reflexivity; try exact I.
    intros before k pv after e -> Hb He.
    rewrite (convert_properties_first_failure before after [] k pv e Hb He).
    reflexivity.
Qed.

(** Converted properties convert to themselves. *)
Lemma convert_properties_again (cs acc : dict value) :
  List.NoDup (keys acc ++ keys cs) ->
  Forall (fun kc => convert_property py_repr (snd kc) = Ok (snd kc)) cs ->
  convert_properties py_repr cs acc = Ok (acc ++ cs).
Proof.
  revert acc. induction cs as [|[k c] tl IH]; simpl; intros acc Hnd Hall.
  - rewrite app_nil_r. reflexivity.
  - inversion Hall as [|x l Hc Htl]; subst. simpl in Hc. rewrite Hc. simpl.
    assert (Hk : ~ In k (keys acc)).
    { apply List.NoDup_remove_2 in Hnd. rewrite in_app_iff in Hnd. tauto. }
    rewrite (dict_set_fresh _ _ _ Hk), IH.
    + rewrite <- app_assoc. reflexivity.
    + unfold keys in *. rewrite map_app, <- app_assoc. exact Hnd.
    + exact Htl.
Qed.

(** X7: [convert_openapi_to_jsonschema] is idempotent on schemas whose
    [properties] has distinct keys, as every dictionary has: converting a
    converted schema returns it unchanged. *)
Theorem convert_openapi_idempotent (d : dict value) (out : value) :
  (forall props, dict_get d "properties" = Some (VDict props) ->
                 List.NoDup (keys props)) ->
  convert_openapi_to_jsonschema py_repr (VDict d) = Ok out ->
  convert_openapi_to_jsonschema py_repr out = Ok out.
Proof.
  intros Hnd Hout.
  destruct (convert_openapi_dict py_repr d out Hout)
    as [(Hno & ->) | (props & converted & Hp & Hc & ->)].
  - unfold convert_openapi_to_jsonschema, schema_head, copy_key.
    destruct (dict_get d "title"), (dict_get d "description"),
      (dict_get d "required"), (dict_get d "type"); reflexivity.
  - destruct (convert_properties_ok py_repr props [] converted (Hnd _ Hp) Hc)
      as (cs & -> & Hcs).
    assert (Hkeys : keys cs = keys props).
    { apply (Forall2_same_keys _ _ _ (fun kv kc H => proj1 H) Hcs). }
    assert (Hagain : convert_properties py_repr cs [] = Ok cs).
    { apply (convert_properties_again cs []).
      - simpl. rewrite Hkeys. exact (Hnd _ Hp).
      - clear -Hcs. induction Hcs as [|kv kc l1 l2 [_ Hc] _ IH]; constructor;
          [|exact IH].
        exact (convert_property_again py_repr _ _ Hc). }
    simpl ([] ++ cs).
    unfold convert_openapi_to_jsonschema, schema_head, copy_key.
    destruct (dict_get d "title"), (dict_get d "description"),
      (dict_get d "required"), (dict_get d "type");
      cbn; rewrite Hagain; reflexivity.
Qed.

End SchemaFacts.

(** ** What [json.dump] can write *)

Lemma json_serialisable_dict (d : dict value) :
  json_serialisable (VDict d) = forallb (fun kv => json_serialisable (snd kv)) d.
Proof.
  cbn [json_serialisable].
  induction d as [|[k v] tl IH]; simpl; [reflexivity|]. rewrite IH. reflexivity.
Qed.

Lemma serialisable_get (d : dict value) (k : string) (v : value) :
  forallb (fun kv => json_serialisable (snd kv)) d = true ->
  dict_get d k = Some v -> json_serialisable v = true.
Proof.
  intros Hd Hk. apply dict_get_In in Hk.
  rewrite forallb_forall in Hd. exact (Hd _ Hk).
Qed.

Lemma serialisable_set (d : dict value) (k : string) (v : value) :
  forallb (fun kv => json_serialisable (snd kv)) d = true ->
  json_serialisable v = true ->
  forallb (fun kv => json_serialisable (snd kv)) (dict_set d k v) = true.
Proof.
  intros Hd Hv. induction d as [|[k0 v0] tl IH]; simpl in *.
  - rewrite Hv. reflexivity.
  - apply andb_true_iff in Hd as [H0 Htl].
    destruct (String.eqb k0 k); simpl; [rewrite Hv | rewrite H0, (IH Htl)];
      auto.
Qed.

Lemma serialisable_copy_key (k : string) (d res : dict value) :
  forallb (fun kv => json_serialisable (snd kv)) d = true ->
  forallb (fun kv => json_serialisable (snd kv)) res = true ->
  forallb (fun kv => json_serialisable (snd kv)) (copy_key k d res) = true.
Proof.
  intros Hd Hres. unfold copy_key. destruct (dict_get d k) as [v|] eqn:E;
    [|exact Hres].
  apply serialisable_set; [exact Hres | exact (serialisable_get d k v Hd E)].
Qed.

Section Serialisable.

Variable py_repr : value -> string.

Lemma convert_property_serialisable (v : value) :
  json_serialisable v = true ->
  forall out, convert_property py_repr v = Ok out -> json_serialisable out = true.
Proof.
  induction v as [| | | | s | l _ | d IH | | | l _ | l _] using value_ind;
    intros Hs out; try discriminate.
  rewrite json_serialisable_dict in Hs.
  destruct (dict_mem "$ref" d) eqn:Href.
  - destruct (dict_mem_true_get _ _ Href) as [r Hr].
    rewrite (convert_property_with_ref py_repr d r Hr).
    intros [= <-]. reflexivity.
  - intros Hout.
    assert (Hfirst : forallb (fun kv => json_serialisable (snd kv))
                       (first_copies d) = true).
    { unfold first_copies. repeat apply serialisable_copy_key; auto. }
    destruct (convert_property_no_ref py_repr d _ Href Hout)
      as [(_ & it & c & Hit & Hc & ->) | (_ & ->)];
      rewrite json_serialisable_dict; unfold finished;
      repeat apply serialisable_copy_key; auto.
    apply serialisable_set; [exact Hfirst|].
    rewrite List.Forall_forall in IH.
    exact (IH _ (dict_get_In _ _ _ Hit) (serialisable_get d "items" it Hs Hit)
             c Hc).
Qed.

Lemma convert_properties_serialisable (props : dict value) :
  forallb (fun kv => json_serialisable (snd kv)) props = true ->
  forall acc out,
    forallb (fun kv => json_serialisable (snd kv)) acc = true ->
    convert_properties py_repr props acc = Ok out ->
    forallb (fun kv => json_serialisable (snd kv)) out = true.
Proof.
  induction props as [|[k v] tl IH]; simpl; intros Hp acc out Hacc.
  - intros [= <-]. exact Hacc.
  - apply andb_true_iff in Hp as [Hv Htl].
    destruct (convert_property py_repr v) as [c|e] eqn:Ec; simpl;
      [|discriminate].
    apply (IH Htl). apply serialisable_set; [exact Hacc|].
    exact (convert_property_serialisable v Hv c Ec).
Qed.

Lemma convert_openapi_serialisable (v : value) :
  json_serialisable v = true ->
  forall out, convert_openapi_to_jsonschema py_repr v = Ok out ->
              json_serialisable out = true.
Proof.
  intros Hs out Hout.
  destruct v as [| | | | | |d| | | |]; try discriminate.
  rewrite json_serialisable_dict in Hs.
  assert (Hhead : forallb (fun kv => json_serialisable (snd kv))
                    (schema_head d) = true).
  { unfold schema_head. repeat apply serialisable_copy_key; auto.
    simpl. destruct (dict_get d "type") as [t|] eqn:Et; [|reflexivity].
    rewrite (serialisable_get d "type" t Hs Et). reflexivity. }
  destruct (convert_openapi_dict py_repr d out Hout)
    as [(_ & ->) | (props & converted & Hp & Hc & ->)];
    rewrite json_serialisable_dict; apply serialisable_copy_key; auto.
  apply serialisable_set; [exact Hhead|].
  rewrite json_serialisable_dict.
  apply (convert_properties_serialisable props) with (acc := []);
    [|reflexivity | exact Hc].
  rewrite <- json_serialisable_dict.
  exact (serialisable_get d "properties" _ Hs Hp).
Qed.

(** X21: the conversions keep a document within what [json.dump] can
    write: on an input without bytes, date or set, the output of
    [convert_property] and that of [convert_openapi_to_jsonschema] have
    none; so a Schema Object made of such values can always be extracted. *)
Theorem conversions_keep_serialisable (v : value) :
  json_serialisable v = true ->
  (forall out, convert_property py_repr v = Ok out ->
               json_serialisable out = true) /\
  (forall out, convert_openapi_to_jsonschema py_repr v = Ok out ->
               json_serialisable out = true) /\
  (schema_object v = true -> extractable py_repr v = true).
Proof.
  intros Hs. split; [exact (convert_property_serialisable v Hs)|].
  split; [exact (convert_openapi_serialisable v Hs)|].
  intros Hv. unfold extractable.
  destruct (convert_openapi_returns py_repr v Hv) as [out Hout].
  rewrite Hout. exact (convert_openapi_serialisable v Hs out Hout).
Qed.

End Serialisable.

(** ** Output file names *)

Section NameFacts.

Variable unicode_isupper : string -> bool.
Variable unicode_lower : string -> string.

Local Abbreviation isupper := (isupper unicode_isupper).
Local Abbreviation lower := (lower unicode_lower).
Local Abbreviation output_name := (output_name unicode_isupper unicode_lower).
Local Abbreviation spec_replace_upper :=
  (spec_replace_upper unicode_isupper unicode_lower).
Local Abbreviation has_upper := (has_upper unicode_isupper).

(** How the replacement and the search for an upper-case letter go through
    a character of one byte. *)
Lemma spec_replace_upper_single (b : ascii) (tl : string) :
  utf8_width b = 1 ->
  spec_replace_upper (String b tl) =
  if isupper (String b "")
  then String "_" (lower (String b "") ++ spec_replace_upper tl)
  else String b (spec_replace_upper tl).
Proof.
  intros Hw. unfold spec_replace_upper. rewrite (chars_single b tl Hw).
  cbn [spec_replace_chars]. destruct (isupper (String b "")); reflexivity.
Qed.

Lemma has_upper_single (b : ascii) (tl : string) :
  utf8_width b = 1 ->
  has_upper (String b tl) = isupper (String b "") || has_upper tl.
Proof.
  intros Hw. unfold has_upper. rewrite (chars_single b tl Hw). reflexivity.
Qed.

(** On a character of the ASCII range the replacement is that of the
    letters A to Z. *)
Lemma spec_replace_upper_ascii (b : ascii) (tl : string) :
  nat_of_ascii b < 128 ->
  spec_replace_upper (String b tl) =
  if ascii_isupper b
  then String "_" (String (ascii_lower b) (spec_replace_upper tl))
  else String b (spec_replace_upper tl).
Proof.
  intros Hb. rewrite (spec_replace_upper_single b tl (ascii_width b Hb)).
  rewrite (isupper_ascii unicode_isupper b Hb), (lower_ascii unicode_lower b Hb).
  reflexivity.
Qed.

Lemma has_upper_ascii (b : ascii) (tl : string) :
  nat_of_ascii b < 128 ->
  has_upper (String b tl) = ascii_isupper b || has_upper tl.
Proof.
  intros Hb. rewrite (has_upper_single b tl (ascii_width b Hb)).
  rewrite (isupper_ascii unicode_isupper b Hb). reflexivity.
Qed.

Lemma has_upper_replaced (name : string) :
  isascii name = true -> has_upper (spec_replace_upper name) = false.
Proof.
  induction name as [|b tl IH]; [reflexivity|].
  cbn [isascii]. intros H. apply andb_true_iff in H as [Hb Htl].
  apply Nat.ltb_lt in Hb. rewrite (spec_replace_upper_ascii b tl Hb).
  destruct (ascii_isupper b) eqn:E.
  - rewrite (has_upper_ascii "_") by exact underscore_ascii.
    rewrite (has_upper_ascii (ascii_lower b)) by (apply ascii_lower_range, Hb).
    rewrite (ascii_isupper_lower b E), (IH Htl). reflexivity.
  - rewrite (has_upper_ascii b _ Hb), E, (IH Htl). reflexivity.
Qed.

Lemma has_upper_lstrip (s : string) :
  has_upper s = false -> has_upper (lstrip_underscore s) = false.
Proof.
  induction s as [|c tl IH]; [reflexivity|].
  cbn [lstrip_underscore]. destruct (Ascii.eqb c "_") eqn:E; [|auto].
  apply Ascii.eqb_eq in E. subst c.
  rewrite (has_upper_ascii "_") by exact underscore_ascii. exact IH.
Qed.

(** X8: on a name of ASCII characters, the output name has no upper-case
    letter and does not begin with an underscore, and the transform is
    idempotent: the output name is mapped to itself.  (Beyond ASCII this
    fails: an upper-case letter that is its own lower-case form stays in
    the output name and gets one more underscore each time.) *)
Theorem output_name_normal (name : string) :
  isascii name = true ->
  has_upper (output_name name) = false /\
  starts_with_underscore (output_name name) = false /\
  output_name (output_name name) = output_name name.
Proof.
  intros Ha.
  assert (Hu : has_upper (output_name name) = false).
  { rewrite output_name_replace. apply has_upper_lstrip, has_upper_replaced, Ha. }
  assert (Hs : starts_with_underscore (output_name name) = false).
  { rewrite output_name_replace. apply lstrip_no_underscore. }
  split; [exact Hu|]. split; [exact Hs|].
  apply output_name_unchanged; assumption.
Qed.

(** X9: the transform is not injective, so two schemas can be written to
    the same file: a name and the name with an underscore put before it have
    the same output name, and so have a name that begins with one of the
    upper-case letters A to Z and the name with that letter in lower
    case. *)
Theorem output_name_collisions (c : ascii) (name : string) :
  output_name (String "_" name) = output_name name /\
  (ascii_isupper c = true ->
   String c name <> String (ascii_lower c) name /\
   output_name (String c name) = output_name (String (ascii_lower c) name)).
Proof.
  split.
  - rewrite !output_name_replace.
    rewrite (spec_replace_upper_ascii "_") by exact underscore_ascii. reflexivity.
  - intros Hc. split.
    + intros [= H]. exact (ascii_lower_changes c Hc (eq_sym H)).
    + pose proof (ascii_isupper_range c Hc) as Hr.
      rewrite !output_name_replace.
      rewrite (spec_replace_upper_ascii c name Hr), Hc.
      rewrite (spec_replace_upper_ascii (ascii_lower c) name
                 (ascii_lower_range c Hr)).
      rewrite (ascii_isupper_lower c Hc). cbn [lstrip_underscore].
      simpl (Ascii.eqb "_" "_"). cbn iota. reflexivity.
Qed.

End NameFacts.

(** ** What the conversions look at *)

Section Recognised.

Variable py_repr : value -> string.

(** X16: the output of [convert_property] depends only on what the input
    has under [$ref], [type], [description], [example], [items], [format]
    and [enum]: two dictionaries that agree on these seven keys are
    converted alike (same result or same exception), whatever their other
    keys and whatever the order of their keys. *)
Theorem convert_property_recognised (d1 d2 : dict value) :
  (forall k, In k recognised_keys -> dict_get d1 k = dict_get d2 k) ->
  convert_property py_repr (VDict d1) = convert_property py_repr (VDict d2).
Proof.
  intros H. rewrite !convert_property_dict.
  unfold finished, first_copies, copy_key, get_is.
  rewrite (H "$ref"), (H "type"), (H "description"), (H "example"),
    (H "items"), (H "format"), (H "enum") by (simpl; tauto).
  reflexivity.
Qed.

(** X17: the output of [convert_openapi_to_jsonschema] depends only on
    what the input has under [type], [title], [description], [properties]
    and [required]. *)
Theorem convert_openapi_recognised (d1 d2 : dict value) :
  (forall k, In k recognised_schema_keys -> dict_get d1 k = dict_get d2 k) ->
  convert_openapi_to_jsonschema py_repr (VDict d1) =
  convert_openapi_to_jsonschema py_repr (VDict d2).
Proof.
  intros H. unfold convert_openapi_to_jsonschema, copy_key.
  rewrite (H "type"), (H "title"), (H "description"), (H "properties"),
    (H "required") by (simpl; tauto).
  reflexivity.
Qed.

End Recognised.

(** ** The extraction run *)

Section RunFacts.

Variable py_repr : value -> string.
Variable unicode_isupper : string -> bool.
Variable unicode_lower : string -> string.
Variable path : Type.
Variable path_div : path -> string -> path.
Variable path_str : path -> string.

Local Abbreviation run_loop :=
  (extract_loop py_repr unicode_isupper unicode_lower path path_div path_str).
Local Abbreviation run_main :=
  (main py_repr unicode_isupper unicode_lower path path_div path_str).
Local Abbreviation convert := (convert_openapi_to_jsonschema py_repr).
Local Abbreviation output_name := (output_name unicode_isupper unicode_lower).

(** Going through [names1 ++ names2] is going through [names1] and then,
    from the count and the world reached, through [names2]; an exception in
    [names1] ends the whole loop. *)
Lemma extract_loop_app (definitions : value) (output_dir : path)
    (names1 names2 : list string) :
  forall (extracted : nat) (w : world path),
    run_loop definitions output_dir (names1 ++ names2) extracted w =
    match run_loop definitions output_dir names1 extracted w with
    | (w1, Ok n1) => run_loop definitions output_dir names2 n1 w1
    | (w1, Raise e) => (w1, Raise e)
    end.
Proof.
  induction names1 as [|name rest IH]; intros extracted w; simpl;
    [reflexivity|].
  destruct (lookup_definition definitions name) as [[schema_def|]|e];
    [|apply IH|reflexivity].
  destruct (convert schema_def) as [js|e]; [|reflexivity].
  unfold write_json. destruct (json_serialisable js); [apply IH | reflexivity].
Qed.

(** What a loop over names whose definitions can be extracted does. *)
Lemma extract_loop_complete (d : dict value) (output_dir : path)
    (names : list string) :
  (forall name schema_def, In name names -> dict_get d name = Some schema_def ->
                           extractable py_repr schema_def = true) ->
  forall (extracted : nat) (w : world path),
  exists files,
    run_loop (VDict d) output_dir names extracted w =
    (mkWorld path (made_dirs w) (written w ++ files)
       (stdout w ++
        map (fun n => extracted_line path path_str n
                        (path_div output_dir (output_name n ++ ".json")))
          (List.filter (fun n => dict_mem n d) names))
       (stderr w ++
        map not_found_line (List.filter (fun n => negb (dict_mem n d)) names)),
     Ok (extracted + length (List.filter (fun n => dict_mem n d) names))) /\
    Forall2 (fun n file =>
               fst file = path_div output_dir (output_name n ++ ".json") /\
               exists schema_def json_schema,
                 dict_get d n = Some schema_def /\
                 convert schema_def = Ok json_schema /\
                 snd file = Complete json_schema)
      (List.filter (fun n => dict_mem n d) names) files.
Proof.
  induction names as [|name rest IH]; intros Hall extracted w.
  - exists []. simpl. rewrite !app_nil_r, Nat.add_0_r.
    destruct w; split; [reflexivity | constructor].
  - assert (Hrest : forall n sd, In n rest -> dict_get d n = Some sd ->
                                 extractable py_repr sd = true).
    { intros n sd Hn. apply Hall. right. exact Hn. }
    cbn [extract_loop lookup_definition List.filter]. rewrite dict_mem_get.
    destruct (dict_get d name) as [schema_def|] eqn:E; cbn [negb].
    + pose proof (Hall name schema_def (or_introl eq_refl) E) as Hx.
      unfold extractable in Hx.
      destruct (convert schema_def) as [js|e] eqn:Hjs; [|discriminate].
      unfold write_json. rewrite Hx.
      match goal with
      | |- context [extract_loop _ _ _ _ _ _ _ _ _ _ ?w1] =>
          destruct (IH Hrest (S extracted) w1) as (files & Hrun & Hfiles)
      end.
      exists ((path_div output_dir (output_name name ++ ".json"), Complete js)
                :: files).
      split.
      * rewrite Hrun. simpl. rewrite <- !app_assoc. simpl.
        rewrite Nat.add_succ_r. reflexivity.
      * constructor; [|exact Hfiles]. split; [reflexivity|]. eauto.
    + destruct (IH Hrest extracted (print_err (not_found_line name) w))
        as (files & Hrun & Hfiles).
      exists files. split; [|exact Hfiles].
      rewrite Hrun. simpl. rewrite <- !app_assoc. reflexivity.
Qed.

(** X10: a run on a document each of whose requested definitions is
    converted to something [json.dump] can write ends with status 0, having
    made the output directory, written one file per requested name that the
    Definitions Table has, in the order of the request, at
    [<output_dir>/<output name>.json] and holding the whole text of the
    converted schema, printed one line per file and then the summary with
    their count, and warned once per absent name, in order. *)
Theorem extract_run_complete (d top : dict value) (swagger_path output_dir : path)
    (schemas : option (list string)) :
  definitions_table top = VDict d ->
  (forall name schema_def,
     In name (requested schemas) -> dict_get d name = Some schema_def ->
     extractable py_repr schema_def = true) ->
  exists files,
    run_main swagger_path (Some (VDict top)) output_dir schemas =
    (mkWorld path [output_dir] files
       (map (fun n => extracted_line path path_str n
                        (path_div output_dir (output_name n ++ ".json")))
          (List.filter (fun n => dict_mem n d) (requested schemas)) ++
        [summary_line path path_str
           (length (List.filter (fun n => dict_mem n d) (requested schemas)))
           output_dir])
       (map not_found_line
          (List.filter (fun n => negb (dict_mem n d)) (requested schemas))),
     Exit 0) /\
    Forall2 (fun n file =>
               fst file = path_div output_dir (output_name n ++ ".json") /\
               exists schema_def json_schema,
                 dict_get d n = Some schema_def /\
                 convert schema_def = Ok json_schema /\
                 snd file = Complete json_schema)
      (List.filter (fun n => dict_mem n d) (requested schemas)) files.
Proof.
  intros Hd Hall.
  destruct (extract_loop_complete d output_dir (requested schemas) Hall 0
              (mkdir path output_dir (empty_world path)))
    as (files & Hrun & Hfiles).
  exists files. split; [|exact Hfiles].
  unfold main, extract_schemas. rewrite Hd, Hrun. reflexivity.
Qed.

(** X11: a schema whose conversion raises aborts the run: the exception
    is not caught (exit status 1), the names before it, whose definitions
    could be extracted, have been treated as in a complete run (their files
    stay written, their lines printed), and nothing is done for that schema
    or for the names after it: no file, no line, no summary. *)
Theorem extract_run_aborts (d top : dict value) (swagger_path output_dir : path)
    (before after : list string) (name : string) (schema_def : value) (e : exn) :
  definitions_table top = VDict d ->
  (forall n sd, In n before -> dict_get d n = Some sd ->
                extractable py_repr sd = true) ->
  dict_get d name = Some schema_def ->
  convert schema_def = Raise e ->
  exists files,
    run_main swagger_path (Some (VDict top)) output_dir
      (Some (before ++ name :: after)) =
    (mkWorld path [output_dir] files
       (map (fun n => extracted_line path path_str n
                        (path_div output_dir (output_name n ++ ".json")))
          (List.filter (fun n => dict_mem n d) before))
       (map not_found_line
          (List.filter (fun n => negb (dict_mem n d)) before)),
     Uncaught e) /\
    exit_status (Uncaught e) = 1%Z /\
    Forall2 (fun n file =>
               fst file = path_div output_dir (output_name n ++ ".json") /\
               exists sd js, dict_get d n = Some sd /\ convert sd = Ok js /\
                             snd file = Complete js)
      (List.filter (fun n => dict_mem n d) before) files.
Proof.
  intros Hd Hall Hname He.
  destruct (extract_loop_complete d output_dir before Hall 0
              (mkdir path output_dir (empty_world path)))
    as (files & Hrun & Hfiles).
  exists files. split; [|split; [reflexivity | exact Hfiles]].
  unfold main, extract_schemas. rewrite Hd. cbn [requested].
  rewrite extract_loop_app, Hrun.
  cbn [extract_loop lookup_definition]. rewrite Hname, He. reflexivity.
Qed.

(** X20: a schema that is converted to something [json.dump] cannot write
    (a date given as an [example], say) aborts the run too: [json.dump]
    raises [TypeError], which is not caught (exit status 1); the file of
    that schema has been opened and is left with the beginning of the text;
    no line is printed for it, and nothing is done for the names after it.
    The names before it have been treated as in a complete run. *)
Theorem extract_run_dump_fails (d top : dict value)
    (swagger_path output_dir : path) (before after : list string)
    (name : string) (schema_def json_schema : value) :
  definitions_table top = VDict d ->
  (forall n sd, In n before -> dict_get d n = Some sd ->
                extractable py_repr sd = true) ->
  dict_get d name = Some schema_def ->
  convert schema_def = Ok json_schema ->
  json_serialisable json_schema = false ->
  exists files,
    run_main swagger_path (Some (VDict top)) output_dir
      (Some (before ++ name :: after)) =
    (mkWorld path [output_dir]
       (files ++ [(path_div output_dir (output_name name ++ ".json"),
                   Truncated json_schema)])
       (map (fun n => extracted_line path path_str n
                        (path_div output_dir (output_name n ++ ".json")))
          (List.filter (fun n => dict_mem n d) before))
       (map not_found_line
          (List.filter (fun n => negb (dict_mem n d)) before)),
     Uncaught TypeError) /\
    exit_status (Uncaught TypeError) = 1%Z /\
    Forall2 (fun n file =>
               fst file = path_div output_dir (output_name n ++ ".json") /\
               exists sd js, dict_get d n = Some sd /\ convert sd = Ok js /\
                             snd file = Complete js)
      (List.filter (fun n => dict_mem n d) before) files.
Proof.
  intros Hd Hall Hname Hjs Hser.
  destruct (extract_loop_complete d output_dir before Hall 0
              (mkdir path output_dir (empty_world path)))
    as (files & Hrun & Hfiles).
  exists files. split; [|split; [reflexivity | exact Hfiles]].
  unfold main, extract_schemas. rewrite Hd. cbn [requested].
  rewrite extract_loop_app, Hrun.
  cbn [extract_loop lookup_definition]. rewrite Hname, Hjs.
  unfold write_json. rewrite Hser. reflexivity.
Qed.

(** X12: malformed documents.  When the source document is not a
    dictionary (an empty file is [None]) the run raises [AttributeError]
    before doing anything; when its [definitions] is [None], a boolean, a
    number, bytes or a date (a [definitions:] entry left empty is [None], the
    default of [get] is not used) and at least one name is requested, the
    run raises [TypeError] at the first name, after the output directory is
    made and before anything is written or printed. *)
Theorem extract_run_malformed (swagger_path output_dir : path)
    (schemas : option (list string)) :
  (forall swagger,
     match swagger with VDict _ => False | _ => True end ->
     run_main swagger_path (Some swagger) output_dir schemas =
     (empty_world path, Uncaught AttributeError)) /\
  (forall top,
     match definitions_table top with
     | VNone | VBool _ | VInt _ | VFloat _ | VBytes _ | VDate _ => True
     | _ => False
     end ->
     requested schemas <> [] ->
     run_main swagger_path (Some (VDict top)) output_dir schemas =
     (mkWorld path [output_dir] [] [] [], Uncaught TypeError)).
Proof.
  split.
  - intros swagger Hs. destruct swagger; try contradiction; reflexivity.
  - intros top Hdef Hreq. unfold main, extract_schemas.
    destruct (requested schemas) as [|name rest]; [contradiction|].
    destruct (definitions_table top); try contradiction; reflexivity.
Qed.

End RunFacts.

(** ** The conversions on the store *)

Lemma dict_get_copy_key_any {A : Type} (k k' : string) (prop result : dict A) :
  dict_get (copy_key k prop result) k' =
  if String.eqb k k'
  then match dict_get prop k with
       | Some v => Some v
       | None => dict_get result k'
       end
  else dict_get result k'.
Proof.
  unfold copy_key. destruct (dict_get prop k) as [v|].
  - rewrite dict_get_set. reflexivity.
  - destruct (String.eqb k k'); reflexivity.
Qed.

Section StoreSharing.

Variable heap_repr : heap -> pyref -> string.

(** The result of a run of [convert_property] on a dictionary without
    [$ref]: the dictionary built at the first free address. *)
Lemma convert_property_h_result (depth : nat) (h h' : heap) (p : nat)
    (d : dict pyref) (y : pyref) :
  h !! p = Some (ODict d) ->
  dict_mem "$ref" d = false ->
  convert_property_h heap_repr depth (RObj p) h = (h', Ok y) ->
  y = RObj (length h) /\
  exists res, h' !! length h = Some (ODict (finished d res)) /\
    (res = first_copies d \/
     exists it c, ref_is_str "array"
                    (match dict_get d "type" with Some t => t | None => RNone end)
                  = true /\
       dict_get d "items" = Some it /\ res = dict_set (first_copies d) "items" c).
Proof.
  intros Hp Href. destruct depth as [|depth]; [discriminate|].
  set (a := length h). set (H1 := h ++ [ODict []]).
  assert (Hpa : p <> a) by (apply lookup_lt_Some in Hp; unfold a; lia).
  assert (Hp1 : H1 !! p = Some (ODict d)) by (apply lookup_app_l_Some, Hp).
  cbn [convert_property_h].
  rewrite (mbind_ok (new_dict []) _ h H1 (RObj a) eq_refl).
  rewrite (mbind_ok _ _ _ _ _ (run_contains H1 p d "$ref" Hp1)), Href.
  match goal with
  | |- context [ (copy_key_h "type" _ _ ;;; copy_key_h "description" _ _ ;;;
                  copy_key_h "example" _ _ ;;; ?k) H1 ] =>
      destruct (run_first_copies H1 H1 a p d k
                  (result_at_start h []) Hpa Hp1) as (H3 & E3 & R3);
      rewrite E3; clear E3
  end.
  pose proof R3 as (Hl3 & Ha3 & Ho3).
  assert (Hp3 : H3 !! p = Some (ODict d)) by (rewrite Ho3; auto).
  rewrite (mbind_ok _ _ _ _ _ (run_get_method H3 p d "type" RNone Hp3)).
  set (t := match dict_get d "type" with Some t => t | None => RNone end).
  assert (Ehas : (if ref_is_str "array" t
                  then contains "items" (RObj p) else ret false) H3 =
                 (H3, Ok (ref_is_str "array" t && dict_mem "items" d))).
  { destruct (ref_is_str "array" t); [apply run_contains, Hp3 | reflexivity]. }
  rewrite (mbind_ok _ _ _ _ _ Ehas). clear Ehas. rewrite dict_mem_get.
  destruct (ref_is_str "array" t) eqn:Et;
    [destruct (dict_get d "items") as [it|] eqn:Eit|]; cbn [andb].
  - (* the recursive call *)
    destruct (convert_property_h heap_repr depth it H3) as [H4 [c|e]] eqn:E4.
    + pose proof (convert_property_frame heap_repr depth it H3 H3 H4 (Ok c)
                    eq_refl E4) as [Hu _].
      assert (Hp4 : H4 !! p = Some (ODict d)) by (apply Hu, Hp3).
      pose proof (result_at_base H4 a _ (Hu _ _ Ha3)) as R4.
      destruct (run_setitem H4 H4 a _ "items" c R4) as (H5 & E5 & R5).
      destruct (run_finish H4 H5 a p d _ R5 Hpa Hp4) as (H7 & E7 & R7).
      assert (Eblock :
               (let* it := getitem (RObj p) "items" in
                let* c := convert_property_h heap_repr depth it in
                setitem (RObj a) "items" c) H3 = (H5, Ok tt)).
      { rewrite (mbind_ok _ _ _ _ _ (run_getitem H3 p d "items" it Hp3 Eit)).
        rewrite (mbind_ok _ _ _ _ _ E4). exact E5. }
      rewrite (mbind_ok _ _ _ _ _ Eblock), E7. intros [= <- <-].
      split; [reflexivity|]. eexists. split; [apply R7|].
      right. exists it, c. auto.
    + assert (Eblock :
               (let* it := getitem (RObj p) "items" in
                let* c := convert_property_h heap_repr depth it in
                setitem (RObj a) "items" c) H3 = (H4, Raise e)).
      { rewrite (mbind_ok _ _ _ _ _ (run_getitem H3 p d "items" it Hp3 Eit)).
        apply mbind_raise, E4. }
      rewrite (mbind_raise _ _ _ _ _ Eblock). discriminate.
  - destruct (run_finish H1 H3 a p d _ R3 Hpa Hp1) as (H7 & E7 & R7).
    rewrite (mbind_ok (ret tt) _ H3 H3 tt eq_refl), E7. intros [= <- <-].
    split; [reflexivity|]. eexists. split; [apply R7 | auto].
  - destruct (run_finish H1 H3 a p d _ R3 Hpa Hp1) as (H7 & E7 & R7).
    rewrite (mbind_ok (ret tt) _ H3 H3 tt eq_refl), E7. intros [= <- <-].
    split; [reflexivity|]. eexists. split; [apply R7 | auto].
Qed.

(** X13: [convert_property] copies by reference: on a dictionary without
    [$ref] the result is a new dictionary, at the first free address, in
    which [type], [description], [example], [format] and [enum] refer to the
    very objects the input refers to (a list under [enum] or [example] is
    shared between input and output, not duplicated), and those objects are
    unchanged. *)
Theorem convert_property_h_shares (depth : nat) (h h' : heap) (p : nat)
    (d : dict pyref) (y : pyref) :
  h !! p = Some (ODict d) ->
  dict_mem "$ref" d = false ->
  convert_property_h heap_repr depth (RObj p) h = (h', Ok y) ->
  exists out,
    y = RObj (length h) /\ h' !! length h = Some (ODict out) /\
    (forall k, In k copied_keys -> dict_get out k = dict_get d k) /\
    (forall k a o, In k copied_keys -> dict_get d k = Some (RObj a) ->
                   h !! a = Some o -> h' !! a = Some o).
Proof.
  intros Hp Href Hrun.
  destruct (convert_property_h_result depth h h' p d y Hp Href Hrun)
    as (-> & res & Hout & Hres).
  exists (finished d res). split; [reflexivity|]. split; [exact Hout|]. split.
  - intros k Hk. unfold finished.
    destruct Hres as [-> | (it & c & _ & _ & ->)];
      unfold copied_keys in Hk; simpl in Hk;
      repeat (destruct Hk as [<-|Hk]; [|]); try contradiction;
      unfold first_copies;
      rewrite ?dict_get_copy_key_any, ?dict_get_set; simpl;
      rewrite ?dict_get_copy_key_any, ?dict_get_set; simpl;
      repeat match goal with
             | |- context [match dict_get d ?k with _ => _ end] =>
                 destruct (dict_get d k)
             end; reflexivity.
  - intros k a o _ _ Ho.
    pose proof (convert_property_frame heap_repr depth (RObj p) h h h' _
                  eq_refl Hrun) as [Hu _].
    apply Hu, Ho.
Qed.

(** X14: a document that contains itself (YAML anchors allow
    [&a {type: array, items: *a}]) cannot be converted: on an array whose
    [items] is the array itself, [convert_property] calls itself until the
    interpreter refuses a further call, whatever the depth allowed; the run
    raises [RecursionError], having built one dictionary per call and
    leaving the document unchanged. *)
Theorem convert_property_h_cycle (depth : nat) (p : nat) (d : dict pyref) :
  dict_mem "$ref" d = false ->
  dict_get d "type" = Some (RStr "array") ->
  dict_get d "items" = Some (RObj p) ->
  forall h, h !! p = Some (ODict d) ->
    exists h',
      convert_property_h heap_repr depth (RObj p) h = (h', Raise RecursionError) /\
      length h' = length h + depth /\
      unchanged h h'.
Proof.
  intros Href Htype Hitems.
  induction depth as [|depth IH]; intros h Hp.
  - exists h. split; [reflexivity|]. split; [lia | apply unchanged_refl].
  - set (a := length h). set (H1 := h ++ [ODict []]).
    assert (Hpa : p <> a) by (apply lookup_lt_Some in Hp; unfold a; lia).
    assert (Hp1 : H1 !! p = Some (ODict d)) by (apply lookup_app_l_Some, Hp).
    cbn [convert_property_h].
    rewrite (mbind_ok (new_dict []) _ h H1 (RObj a) eq_refl).
    rewrite (mbind_ok _ _ _ _ _ (run_contains H1 p d "$ref" Hp1)), Href.
    match goal with
    | |- context [ (copy_key_h "type" _ _ ;;; copy_key_h "description" _ _ ;;;
                    copy_key_h "example" _ _ ;;; ?k) H1 ] =>
        destruct (run_first_copies H1 H1 a p d k
                    (result_at_start h []) Hpa Hp1) as (H3 & E3 & R3);
        rewrite E3; clear E3
    end.
    pose proof R3 as (Hl3 & Ha3 & Ho3).
    assert (Hp3 : H3 !! p = Some (ODict d)) by (rewrite Ho3; auto).
    rewrite (mbind_ok _ _ _ _ _ (run_get_method H3 p d "type" RNone Hp3)), Htype.
    cbn [ref_is_str String.eqb Ascii.eqb Bool.eqb].
    rewrite (mbind_ok _ _ _ _ _ (run_contains H3 p d "items" Hp3)).
    rewrite dict_mem_get, Hitems.
    destruct (IH H3 Hp3) as (h' & Erec & Hlen & Hu).
    assert (Eblock :
             (let* it := getitem (RObj p) "items" in
              let* c := convert_property_h heap_repr depth it in
              setitem (RObj a) "items" c) H3 = (h', Raise RecursionError)).
    { rewrite (mbind_ok _ _ _ _ _ (run_getitem H3 p d "items" _ Hp3 Hitems)).
      apply mbind_raise, Erec. }
    exists h'. split; [apply mbind_raise, Eblock|]. split.
    + rewrite Hlen, Hl3. unfold H1. rewrite length_app. simpl. lia.
    + intros i o Ho. apply Hu. rewrite Ho3.
      * apply lookup_app_l_Some, Ho.
      * apply lookup_lt_Some in Ho. unfold a. lia.
Qed.

(** The loop over the properties writes in the new [properties]
    dictionary only: the converted schema at [a] keeps its content. *)
Lemma convert_properties_h_keeps (depth : nat) (h0 : heap) (a b : nat)
    (resA : dict pyref) (props : list (string * pyref)) :
  a <> b -> h0 !! b = None ->
  dict_get resA "properties" = Some (RObj b) ->
  forall (H H' : heap) (r : res unit) (acc : dict pyref),
    convert_properties_h heap_repr depth props (RObj a) H = (H', r) ->
    unchanged h0 H ->
    H !! a = Some (ODict resA) ->
    H !! b = Some (ODict acc) ->
    unchanged h0 H' /\ H' !! a = Some (ODict resA) /\
    exists filled, H' !! b = Some (ODict filled).
Proof.
  intros Hab Hb0 Hprops.
  induction props as [|[k x] tl IH]; intros H H' r acc; cbn [convert_properties_h].
  - intros [= <- _]. eauto.
  - intros Hrun Hu Ha Hb.
    destruct (convert_property_h heap_repr depth x H) as [H1 [c|e]] eqn:E1.
    + pose proof (convert_property_frame heap_repr depth x H H H1 (Ok c)
                    eq_refl E1) as [Hu1 _].
      pose proof (Hu1 _ _ Ha) as Ha1. pose proof (Hu1 _ _ Hb) as Hb1.
      rewrite (mbind_ok _ _ _ _ _ E1) in Hrun.
      rewrite (mbind_ok _ _ _ _ _ (run_getitem H1 a resA "properties" (RObj b)
                                     Ha1 Hprops)) in Hrun.
      assert (E2 : setitem (RObj b) k c H1 =
                   (<[b := ODict (dict_set acc k c)]> H1, Ok tt)).
      { unfold setitem. rewrite Hb1. reflexivity. }
      rewrite (mbind_ok _ _ _ _ _ E2) in Hrun.
      apply (IH _ _ _ (dict_set acc k c) Hrun).
      * apply unchanged_insert; [exact (unchanged_trans _ _ _ Hu Hu1) | exact Hb0].
      * rewrite list_lookup_insert_ne by auto. exact Ha1.
      * apply list_lookup_insert_eq. eapply lookup_lt_Some, Hb1.
    + rewrite (mbind_raise _ _ _ _ _ E1) in Hrun. injection Hrun as <- <-.
      pose proof (convert_property_frame heap_repr depth x H H H1 (Raise e)
                    eq_refl E1) as Hu1.
      split; [exact (unchanged_trans _ _ _ Hu Hu1)|].
      split; [apply Hu1, Ha|]. exists acc. apply Hu1, Hb.
Qed.

(** X15: [convert_openapi_to_jsonschema] copies by reference too: the
    result is a new dictionary at the first free address in which [title],
    [description] and [required] refer to the very objects of the input (the
    [required] list is shared with the input, not duplicated) and [type] to
    the input's [type] or to ["object"], while [properties], when the input
    has it, is a dictionary built by the call, at the next address. *)
Theorem convert_openapi_h_shares (depth : nat) (h h' : heap) (p : nat)
    (d : dict pyref) (y : pyref) :
  h !! p = Some (ODict d) ->
  convert_openapi_to_jsonschema_h heap_repr depth (RObj p) h = (h', Ok y) ->
  exists out,
    y = RObj (length h) /\ h' !! length h = Some (ODict out) /\
    (forall k, In k ["title"; "description"; "required"] ->
               dict_get out k = dict_get d k) /\
    dict_get out "type" =
      Some (match dict_get d "type" with Some t => t | None => RStr "object" end) /\
    (dict_mem "properties" d = true ->
     dict_get out "properties" = Some (RObj (S (length h))) /\
     h !! S (length h) = None /\
     exists converted, h' !! S (length h) = Some (ODict converted)).
Proof.
  intros Hp. unfold convert_openapi_to_jsonschema_h.
  set (a := length h).
  set (t := match dict_get d "type" with Some r => r | None => RStr "object" end).
  set (H1 := h ++ [ODict [("$schema", RStr draft07); ("type", t)]]).
  assert (Hpa : p <> a) by (apply lookup_lt_Some in Hp; unfold a; lia).
  assert (Hp1 : H1 !! p = Some (ODict d)) by (apply lookup_app_l_Some, Hp).
  rewrite (mbind_ok _ _ _ _ _ (run_get_method h p d "type" (RStr "object") Hp)).
  fold t.
  rewrite (mbind_ok (new_dict [("$schema", RStr draft07); ("type", t)]) _
             h H1 (RObj a) eq_refl).
  destruct (run_copy_key H1 H1 a p d _ "title" (result_at_start h _) Hpa Hp1)
    as (H2' & E2' & R2').
  destruct (run_copy_key H1 H2' a p d _ "description" R2' Hpa Hp1)
    as (H2 & E2 & R2).
  rewrite (mbind_ok _ _ _ _ _ E2'), (mbind_ok _ _ _ _ _ E2).
  clear E2' E2 R2' H2'.
  set (res2 := copy_key "description" d
                 (copy_key "title" d [("$schema", RStr draft07); ("type", t)]))
    in *.
  pose proof R2 as (Hl2 & Ha2 & Ho2).
  assert (Hlen1 : length H1 = S a).
  { unfold H1. rewrite length_app. simpl. unfold a. lia. }
  assert (Hp2 : H2 !! p = Some (ODict d)) by (rewrite Ho2; auto).
  assert (Hu2 : unchanged h H2).
  { intros i o Ho. rewrite Ho2; [apply lookup_app_l_Some, Ho|].
    apply lookup_lt_Some in Ho. unfold a. lia. }
  rewrite (mbind_ok _ _ _ _ _ (run_contains H2 p d "properties" Hp2)).
  assert (Hres2 : forall k, In k ["title"; "description"; "required"; "type"] ->
                    dict_get (copy_key "required" d res2) k =
                    if String.eqb k "type" then Some t else dict_get d k).
  { intros k Hk. unfold res2. simpl in Hk.
    repeat (destruct Hk as [<-|Hk]; [|]); try contradiction;
      rewrite !dict_get_copy_key_any; simpl;
      repeat match goal with
             | |- context [match dict_get d ?k with _ => _ end] =>
                 destruct (dict_get d k)
             end; reflexivity. }
  destruct (dict_mem "properties" d) eqn:Hprops.
  - (* with properties *)
    set (b := length H2).
    set (H3 := H2 ++ [ODict []]).
    set (resA := dict_set res2 "properties" (RObj b)).
    set (H4 := <[a := ODict resA]> H3).
    assert (Hb : b = S a) by (unfold b; lia).
    assert (Ha3 : H3 !! a = Some (ODict res2)) by (apply lookup_app_l_Some, Ha2).
    assert (Eset : setitem (RObj a) "properties" (RObj b) H3 = (H4, Ok tt)).
    { unfold setitem. rewrite Ha3. reflexivity. }
    assert (Ha4 : H4 !! a = Some (ODict resA)).
    { unfold H4. apply list_lookup_insert_eq. eapply lookup_lt_Some, Ha3. }
    assert (Hb4 : H4 !! b = Some (ODict [])).
    { unfold H4. rewrite list_lookup_insert_ne by lia.
      apply list_lookup_middle. reflexivity. }
    assert (Ha0 : h !! a = None) by (apply lookup_ge_None_2; unfold a; lia).
    assert (Hb0 : h !! b = None) by (apply lookup_ge_None_2; unfold a in *; lia).
    assert (Hu4 : unchanged h H4).
    { apply unchanged_insert; [|exact Ha0].
      exact (unchanged_trans _ _ _ Hu2 (unchanged_alloc H2 _)). }
    assert (Hp4 : H4 !! p = Some (ODict d)) by (apply Hu4, Hp).
    destruct (dict_mem_true_get _ _ Hprops) as [rp Erp].
    assert (Epre : forall k : list (string * pyref) -> M unit,
               (let* fresh := new_dict [] in
                setitem (RObj a) "properties" fresh ;;;
                let* props := getitem (RObj p) "properties" in
                let* its := items_method props in k its) H2 =
               (let* its := items_method rp in k its) H4).
    { intros k. rewrite (mbind_ok (new_dict []) _ H2 H3 (RObj b) eq_refl).
      rewrite (mbind_ok _ _ _ _ _ Eset).
      rewrite (mbind_ok _ _ _ _ _ (run_getitem H4 p d "properties" rp Hp4 Erp)).
      reflexivity. }
    destruct ((let* its := items_method rp in
               convert_properties_h heap_repr depth its (RObj a)) H4)
      as [H5 [[]|e]] eqn:Eloop.
    + assert (Hkeep : unchanged h H5 /\ H5 !! a = Some (ODict resA) /\
                      exists filled, H5 !! b = Some (ODict filled)).
      { unfold mbind in Eloop.
        destruct (items_method rp H4) as [H4' [its|e]] eqn:Eits;
          [|discriminate].
        assert (H4' = H4) as -> by exact (pure_items_method rp _ _ _ Eits).
        apply (convert_properties_h_keeps depth h a b resA its
                 ltac:(lia) Hb0
                 ltac:(unfold resA; rewrite dict_get_set; reflexivity)
                 H4 H5 (Ok tt) [] Eloop Hu4 Ha4 Hb4). }
      destruct Hkeep as (Hu5 & Ha5 & filled & Hb5).
      assert (Hp5 : H5 !! p = Some (ODict d)) by (apply Hu5, Hp).
      destruct (run_copy_key H5 H5 a p d _ "required"
                  (result_at_base H5 a resA Ha5) Hpa Hp5) as (H6 & E6 & R6).
      rewrite (mbind_ok _ _ H2 H5 tt), (mbind_ok _ _ _ _ _ E6);
        [|rewrite Epre; exact Eloop].
      intros [= <- <-]. exists (copy_key "required" d resA).
      split; [reflexivity|]. split; [apply R6|].
      assert (Hget : forall k, k <> "properties" ->
                dict_get (copy_key "required" d resA) k =
                dict_get (copy_key "required" d res2) k).
      { intros k Hk. rewrite !dict_get_copy_key_any. unfold resA.
        rewrite dict_get_set.
        destruct (String.eqb "properties" k) eqn:E; [|reflexivity].
        apply String.eqb_eq in E. congruence. }
      split; [|split].
      * intros k Hk. rewrite Hget.
        -- rewrite Hres2 by (simpl in *; tauto).
           simpl in Hk. destruct Hk as [<-|[<-|[<-|[]]]]; reflexivity.
        -- simpl in Hk. intuition (subst; discriminate).
      * rewrite Hget by discriminate.
        rewrite Hres2 by (simpl; tauto). reflexivity.
      * intros _. split; [|split; [rewrite <- Hb; exact Hb0|]].
        -- rewrite dict_get_copy_key_any. unfold resA. rewrite dict_get_set.
           rewrite Hb. reflexivity.
        -- exists filled. rewrite <- Hb.
           destruct R6 as (_ & _ & Ho6). rewrite Ho6 by lia. exact Hb5.
    + rewrite (mbind_raise _ _ H2 H5 e); [discriminate|].
      rewrite Epre. exact Eloop.
  - (* without properties *)
    destruct (run_copy_key H1 H2 a p d _ "required" R2 Hpa Hp1)
      as (H3 & E3 & R3).
    rewrite (mbind_ok (ret tt) _ H2 H2 tt eq_refl), (mbind_ok _ _ _ _ _ E3).
    intros [= <- <-]. exists (copy_key "required" d res2).
    split; [reflexivity|]. split; [apply R3|]. split; [|split].
    + intros k Hk. rewrite Hres2 by (simpl in *; tauto).
      simpl in Hk. destruct Hk as [<-|[<-|[<-|[]]]]; reflexivity.
    + rewrite Hres2 by (simpl; tauto). reflexivity.
    + discriminate.
Qed.

(** *** The depth of calls *)

Lemma spared_refl {A : Type} (m : M A) : spared m m.
Proof. intros h h' r H _. exact H. Qed.

Lemma spared_bind {A B : Type} (m1 m2 : M A) (k1 k2 : A -> M B) :
  spared m1 m2 -> (forall a, spared (k1 a) (k2 a)) ->
  spared (mbind m1 k1) (mbind m2 k2).
Proof.
  intros Hm Hk h h' r. unfold mbind.
  destruct (m1 h) as [h1 [a|e]] eqn:E1; intros Hrun Hr.
  - rewrite (Hm h h1 (Ok a) E1 ltac:(discriminate)).
    exact (Hk a h1 h' r Hrun Hr).
  - injection Hrun as <- <-.
    assert (Hr' : @Raise A e <> Raise RecursionError).
    { intros [= ->]. apply Hr. reflexivity. }
    rewrite (Hm h h1 (Raise e) E1 Hr'). reflexivity.
Qed.

Lemma convert_property_h_deeper (depth : nat) :
  forall deeper x, depth <= deeper ->
    spared (convert_property_h heap_repr depth x)
           (convert_property_h heap_repr deeper x).
Proof.
  induction depth as [|depth IH]; intros deeper x Hle.
  - intros h h' r [= <- <-] Hr. congruence.
  - destruct deeper as [|deeper]; [lia|].
    cbn [convert_property_h].
    apply spared_bind; [apply spared_refl|]. intros result.
    apply spared_bind; [apply spared_refl|]. intros [|]; [apply spared_refl|].
    apply spared_bind; [apply spared_refl|]. intros [].
    apply spared_bind; [apply spared_refl|]. intros [].
    apply spared_bind; [apply spared_refl|]. intros [].
    apply spared_bind; [apply spared_refl|]. intros t.
    apply spared_bind; [apply spared_refl|]. intros has_items.
    apply spared_bind; [|intros ?; apply spared_refl].
    destruct has_items; [|apply spared_refl].
    apply spared_bind; [apply spared_refl|]. intros it.
    apply spared_bind; [apply IH; lia | intros c; apply spared_refl].
Qed.

Lemma convert_properties_h_deeper (depth deeper : nat)
    (props : list (string * pyref)) (json_schema : pyref) :
  depth <= deeper ->
  spared (convert_properties_h heap_repr depth props json_schema)
         (convert_properties_h heap_repr deeper props json_schema).
Proof.
  intros Hle. induction props as [|[k x] tl IH]; cbn [convert_properties_h];
    [apply spared_refl|].
  apply spared_bind; [apply convert_property_h_deeper, Hle|]. intros c.
  apply spared_bind; [apply spared_refl|]. intros target.
  apply spared_bind; [apply spared_refl|]. intros []. exact IH.
Qed.

Lemma convert_openapi_h_deeper (depth deeper : nat) (x : pyref) :
  depth <= deeper ->
  spared (convert_openapi_to_jsonschema_h heap_repr depth x)
         (convert_openapi_to_jsonschema_h heap_repr deeper x).
Proof.
  intros Hle. unfold convert_openapi_to_jsonschema_h.
  apply spared_bind; [apply spared_refl|]. intros t.
  apply spared_bind; [apply spared_refl|]. intros json_schema.
  apply spared_bind; [apply spared_refl|]. intros [].
  apply spared_bind; [apply spared_refl|]. intros [].
  apply spared_bind; [apply spared_refl|]. intros has.
  apply spared_bind; [|intros ?; apply spared_refl].
  destruct has; [|apply spared_refl].
  apply spared_bind; [apply spared_refl|]. intros fresh.
  apply spared_bind; [apply spared_refl|]. intros [].
  apply spared_bind; [apply spared_refl|]. intros props.
  apply spared_bind; [apply spared_refl|]. intros its.
  apply convert_properties_h_deeper, Hle.
Qed.

(** X18: the depth of calls that the interpreter allows only matters when
    it is exhausted: a run of either conversion that does not raise
    [RecursionError] is the same, result and store, under any larger
    allowance. *)
Theorem conversions_with_more_depth (depth deeper : nat) (x : pyref)
    (h h' : heap) (r : res pyref) :
  depth <= deeper ->
  r <> Raise RecursionError ->
  (convert_property_h heap_repr depth x h = (h', r) ->
   convert_property_h heap_repr deeper x h = (h', r)) /\
  (convert_openapi_to_jsonschema_h heap_repr depth x h = (h', r) ->
   convert_openapi_to_jsonschema_h heap_repr deeper x h = (h', r)).
Proof.
  intros Hle Hr. split; intros Hrun.
  - exact (convert_property_h_deeper depth deeper x Hle h h' r Hrun Hr).
  - exact (convert_openapi_h_deeper depth deeper x Hle h h' r Hrun Hr).
Qed.

End StoreSharing.

(** * The theorems on sample documents *)

Lemma convert_property_ref_sample :
  dict_mem "$ref" sample_ref = true /\
  exists r, dict_get sample_ref "$ref" = Some r /\
    convert_property sample_repr (VDict sample_ref) =
    Ok (VDict [("type", VStr "object");
               ("description", VStr ("Reference: " ++ py_str sample_repr r))]).
Proof.
  split; [reflexivity|].
  apply (convert_property_ref sample_repr sample_ref). reflexivity.
Defined.

Lemma convert_openapi_schema_and_type_sample :
  schema_object (VDict sample_schema) = true /\
  exists out, convert_openapi_to_jsonschema sample_repr (VDict sample_schema) = Ok out /\
    exists o, out = VDict o /\
      dict_get o "$schema" = Some (VStr "http://json-schema.org/draft-07/schema#") /\
      dict_get o "type" = Some (VStr "array").
Proof.
  split; [reflexivity|].
  destruct (convert_openapi_schema_and_type sample_repr sample_schema) as [H1 H2].
  destruct (H1 eq_refl) as [out Hout]. exists out. split; [exact Hout|].
  exact (H2 out Hout).
Defined.

Lemma convert_property_copies_sample :
  dict_mem "$ref" sample_array = false /\
  property_object (VDict sample_array) = true /\
  exists out, convert_property sample_repr (VDict sample_array) = Ok out /\
    exists o, out = VDict o /\
      forall k, In k copied_keys -> dict_get o k = dict_get sample_array k.
Proof.
  split; [reflexivity|]. split; [reflexivity|].
  destruct (convert_property_copies sample_repr sample_array eq_refl) as [H1 H2].
  destruct (H1 eq_refl) as [out Hout]. exists out. split; [exact Hout|].
  exact (H2 out Hout).
Defined.

Lemma convert_property_items_sample :
  dict_mem "$ref" sample_array = false /\
  get_is sample_array "type" "array" = true /\
  exists it c, dict_get sample_array "items" = Some it /\
    convert_property sample_repr it = Ok c /\
    exists o, convert_property sample_repr (VDict sample_array) = Ok (VDict o) /\
      dict_get o "items" = Some c /\
      dict_mem "items" o = true /\ dict_mem "items" sample_array = true.
Proof.
  split; [reflexivity|]. split; [reflexivity|].
  destruct (convert_property_items sample_repr sample_array) as (H1 & H2 & _).
  eexists _, _. split; [reflexivity|]. split; [reflexivity|].
  pose proof (H1 _ eq_refl eq_refl eq_refl) as (o & Ho & Hitems).
  exists o. split; [exact Ho|]. split; [exact Hitems|].
  assert (Hm : dict_mem "items" o = true).
  { rewrite dict_mem_get. simpl in Hitems. rewrite Hitems. reflexivity. }
  split; [exact Hm|]. exact (proj2 (proj2 (H2 o Ho Hm))).
Defined.

Lemma convert_openapi_properties_sample :
  exists props, dict_get sample_schema "properties" = Some (VDict props) /\
    List.NoDup (keys props) /\
    forallb (fun kv => property_object (snd kv)) props = true /\
    exists out o cs,
      convert_openapi_to_jsonschema sample_repr (VDict sample_schema) = Ok out /\
      out = VDict o /\
      dict_get o "properties" = Some (VDict cs) /\
      keys cs = ["id"; "tags"; "owner"].
Proof.
  eexists. split; [reflexivity|].
  assert (Hnd : List.NoDup ["id"; "tags"; "owner"]).
  { repeat constructor; simpl; intuition discriminate. }
  split; [exact Hnd|]. split; [reflexivity|].
  destruct (convert_openapi_properties sample_repr sample_schema _ eq_refl Hnd)
    as [H1 H2].
  destruct (H1 eq_refl) as [out Hout].
  destruct (H2 out Hout) as (o & cs & Ho & Hp & Hk & _).
  exists out, o, cs. auto.
Defined.

Lemma output_name_snake_case_sample :
  starts_with_underscore "mediaAttachment" = false /\
  first_lower_is_letter sample_isupper sample_lower "mediaAttachment" = true /\
  output_name sample_isupper sample_lower "mediaAttachment" =
  spec_output_name sample_isupper sample_lower "mediaAttachment" /\
  starts_with_underscore "emoji" = false /\
  has_upper sample_isupper "emoji" = false /\
  output_name sample_isupper sample_lower "emoji" = "emoji" /\
  starts_with_underscore "État" = false /\
  first_lower_is_letter sample_isupper sample_lower "État" = true /\
  output_name sample_isupper sample_lower "État" =
  spec_output_name sample_isupper sample_lower "État" /\
  spec_output_name sample_isupper sample_lower "État" = "état".
Proof.
  split; [reflexivity|]. split; [reflexivity|].
  split; [exact (proj1 (proj2 (output_name_snake_case sample_isupper sample_lower
                                 "mediaAttachment")) eq_refl eq_refl)|].
  split; [reflexivity|]. split; [reflexivity|].
  split; [exact (proj1 (proj2 (proj2 (output_name_snake_case sample_isupper
                                        sample_lower "emoji")))
                   eq_refl eq_refl)|].
  split; [reflexivity|]. split; [reflexivity|].
  split; [exact (proj1 (proj2 (output_name_snake_case sample_isupper sample_lower
                                 "État")) eq_refl eq_refl)|].
  reflexivity.
Defined.

(** C6, as the specification states it, fails on a name that begins with
    an underscore: the name has no upper-case letter and is not mapped to
    itself, and the result is not the one of the specification's
    transform. *)
Lemma output_name_leading_underscore :
  has_upper sample_isupper "_meta" = false /\
  output_name sample_isupper sample_lower "_meta" = "meta" /\
  output_name sample_isupper sample_lower "_meta" <> "_meta" /\
  output_name sample_isupper sample_lower "_meta" <>
  spec_output_name sample_isupper sample_lower "_meta".
Proof. repeat split; discriminate. Qed.

Lemma extract_missing_schema_sample :
  dict_mem "poll" sample_definitions = false /\
  extract_loop sample_repr sample_isupper sample_lower string sample_path_div
    sample_path_str
    (VDict sample_definitions) "out" ["poll"; "status"] 0 (empty_world string) =
  extract_loop sample_repr sample_isupper sample_lower string sample_path_div
    sample_path_str
    (VDict sample_definitions) "out" ["status"] 0
    (print_err "✗ Schema 'poll' not found in swagger.yaml" (empty_world string)) /\
  definitions_table sample_swagger = VDict sample_definitions /\
  exit_status
    (snd (main sample_repr sample_isupper sample_lower string sample_path_div
    sample_path_str "swagger.yaml"
            (Some (VDict sample_swagger)) "out"
            (Some ["poll"; "account"; "card"; "status"]))) =
  exit_status
    (snd (main sample_repr sample_isupper sample_lower string sample_path_div
    sample_path_str "swagger.yaml"
            (Some (VDict sample_swagger)) "out" (Some ["account"; "status"]))) /\
  snd (main sample_repr sample_isupper sample_lower string sample_path_div
    sample_path_str "swagger.yaml"
         (Some (VDict sample_swagger)) "out" (Some ["poll"; "card"])) = Exit 0.
Proof.
  destruct (extract_missing_schema sample_repr sample_isupper sample_lower string
              sample_path_div sample_path_str sample_definitions "out") as [H1 H2].
  split; [reflexivity|].
  split; [exact (H1 "poll" ["status"] 0 (empty_world string) eq_refl)|].
  split; [reflexivity|].
  split.
  - exact (proj1 (proj2 (H2 sample_swagger "swagger.yaml"
                           (Some ["poll"; "account"; "card"; "status"]) eq_refl))).
  - apply (H2 sample_swagger "swagger.yaml" (Some ["poll"; "card"]) eq_refl).
    intros name [<-|[<-|[]]]; reflexivity.
Defined.

Lemma conversions_leave_input_sample :
  exists h' r,
    convert_openapi_to_jsonschema_h sample_heap_repr 4 (RObj 0) sample_heap = (h', r) /\
    unchanged sample_heap h' /\
    (forall i, i < length sample_heap -> h' !! i = sample_heap !! i) /\
    (forall n v, read_back anywhere n sample_heap (RObj 0) = Some v ->
                 read_back anywhere n h' (RObj 0) = Some v) /\
    (forall y, r = Ok y ->
       fresh_dict sample_heap h' y /\
       forall a o, sample_heap !! a = Some o -> y <> RObj a).
Proof.
  eexists _, _. split; [reflexivity|].
  apply (conversions_leave_input sample_heap_repr 4 (RObj 0)).
  right. reflexivity.
Defined.

Lemma convert_openapi_keys_sample :
  schema_object (VDict sample_schema) = true /\
  dict_mem "items" sample_schema = true /\
  get_is sample_schema "type" "array" = true /\
  exists out, convert_openapi_to_jsonschema sample_repr (VDict sample_schema) = Ok out /\
    exists o, out = VDict o /\
      (forall k, In k (keys o) -> In k schema_keys) /\
      (forall k, In k ["example"; "format"; "enum"; "items"] -> dict_mem k o = false).
Proof.
  split; [reflexivity|]. split; [reflexivity|]. split; [reflexivity|].
  destruct (convert_openapi_keys sample_repr sample_schema) as [H1 H2].
  destruct (H1 eq_refl) as [out Hout]. exists out. split; [exact Hout|].
  exact (H2 out Hout).
Defined.

Lemma convert_property_key_order_sample :
  property_object (VDict sample_array) = true /\
  exists out, convert_property sample_repr (VDict sample_array) = Ok out /\
    exists o, out = VDict o /\
      keys o = ["type"; "description"; "example"; "items"; "format"; "enum"].
Proof.
  split; [reflexivity|].
  destruct (convert_property_key_order sample_repr sample_array
              eq_refl eq_refl eq_refl eq_refl eq_refl eq_refl eq_refl) as [H1 H2].
  destruct (H1 eq_refl) as [out Hout]. exists out. split; [exact Hout|].
  exact (H2 out Hout).
Defined.

Lemma sample_repr_agrees :
  forall D n h r v, read_back D n h r = Some v ->
                    sample_heap_repr h r = sample_repr v.
Proof. reflexivity. Qed.

Lemma store_conversions_follow_trees_sample :
  exists v, read_back anywhere 4 sample_heap (RObj 0) = Some v /\
    exists v', convert_openapi_to_jsonschema sample_repr v = Ok v' /\
      exists h' y m,
        convert_openapi_to_jsonschema_h sample_heap_repr 5 (RObj 0) sample_heap =
        (h', Ok y) /\
        read_back anywhere m h' y = Some v'.
Proof.
  eexists. split; [vm_compute; reflexivity|].
  pose proof (store_conversions_follow_trees sample_repr sample_heap_repr
                sample_repr_agrees 5 4 sample_heap (RObj 0) _
                ltac:(lia) eq_refl) as [_ H].
  eexists. split; [vm_compute; reflexivity|]. exact H.
Defined.

(** ** The further properties on sample documents *)

Lemma convert_property_outcome_sample :
  existsb (fun k => str_contains k "string")
    ["$ref"; "type"; "description"; "example"] = false /\
  convert_property sample_repr (VStr "string") = Raise AttributeError /\
  convert_property sample_repr (VDate "2020-01-02") = Raise TypeError /\
  property_object (VDict sample_array) = true /\
  exists o, convert_property sample_repr (VDict sample_array) = Ok (VDict o).
Proof.
  split; [reflexivity|].
  split; [exact (proj2 (convert_property_outcome sample_repr (VStr "string"))
                   eq_refl)|].
  split; [exact (proj2 (convert_property_outcome sample_repr
                          (VDate "2020-01-02")))|].
  split; [reflexivity|].
  exact (proj1 (convert_property_outcome sample_repr (VDict sample_array))).
Defined.

Lemma convert_property_keys_sample :
  exists o, convert_property sample_repr (VDict sample_array) = Ok (VDict o) /\
    keys o = ["type"; "description"; "example"; "items"; "format"; "enum"].
Proof.
  eexists. split; [vm_compute; reflexivity|].
  exact (convert_property_keys sample_repr sample_array _ eq_refl).
Defined.

Lemma convert_property_idempotent_sample :
  exists out, convert_property sample_repr (VDict sample_array) = Ok out /\
    convert_property sample_repr out = Ok out /\
    property_object out = true.
Proof.
  eexists. split; [vm_compute; reflexivity|].
  destruct (convert_property_idempotent sample_repr (VDict sample_array) _ eq_refl)
    as (H1 & H2 & _).
  split; [exact H1 | exact H2].
Defined.

Lemma convert_openapi_copies_sample :
  exists o, convert_openapi_to_jsonschema sample_repr (VDict sample_schema) =
            Ok (VDict o) /\
    dict_get o "required" = Some (VList [VStr "id"]) /\
    dict_get o "description" = None /\
    dict_mem "properties" o = true.
Proof.
  eexists. split; [vm_compute; reflexivity|].
  destruct (convert_openapi_copies sample_repr sample_schema _ eq_refl)
    as [H1 H2].
  split; [exact (H1 "required" ltac:(simpl; tauto))|].
  split; [exact (H1 "description" ltac:(simpl; tauto)) | exact H2].
Defined.

Lemma convert_openapi_key_order_sample :
  exists o, convert_openapi_to_jsonschema sample_repr (VDict sample_schema) =
            Ok (VDict o) /\
    keys o = ["$schema"; "type"; "title"; "properties"; "required"].
Proof.
  eexists. split; [vm_compute; reflexivity|].
  exact (convert_openapi_key_order sample_repr sample_schema _ eq_refl).
Defined.

Lemma convert_openapi_outcome_sample :
  schema_object (VDict sample_broken_schema) = false /\
  forallb (fun kv => property_object (snd kv))
    [("id", VDict [("type", VStr "string")])] = true /\
  convert_property sample_repr
    (VDict [("type", VStr "array"); ("items", VStr "string")]) =
  Raise AttributeError /\
  convert_openapi_to_jsonschema sample_repr (VDict sample_broken_schema) =
  Raise AttributeError.
Proof.
  split; [reflexivity|]. split; [reflexivity|]. split; [reflexivity|].
  exact (proj2 (convert_openapi_outcome sample_repr (VDict sample_broken_schema))
           [("id", VDict [("type", VStr "string")])] "tags"
           (VDict [("type", VStr "array"); ("items", VStr "string")])
           [("owner", VDict sample_ref)] AttributeError
           eq_refl eq_refl eq_refl).
Defined.

Lemma convert_openapi_idempotent_sample :
  exists out,
    convert_openapi_to_jsonschema sample_repr (VDict sample_schema) = Ok out /\
    convert_openapi_to_jsonschema sample_repr out = Ok out.
Proof.
  eexists. split; [vm_compute; reflexivity|].
  apply (convert_openapi_idempotent sample_repr sample_schema); [|reflexivity].
  intros props [= <-]. repeat constructor; simpl; intuition discriminate.
Defined.

Lemma output_name_normal_sample :
  isascii "FilterV2" = true /\
  output_name sample_isupper sample_lower "FilterV2" = "filter_v2" /\
  has_upper sample_isupper "filter_v2" = false /\
  output_name sample_isupper sample_lower "filter_v2" = "filter_v2" /\
  isascii "xℂ" = false /\
  output_name sample_isupper sample_lower "xℂ" = "x_ℂ" /\
  has_upper sample_isupper "x_ℂ" = true /\
  output_name sample_isupper sample_lower "x_ℂ" = "x__ℂ".
Proof.
  split; [reflexivity|]. split; [reflexivity|].
  destruct (output_name_normal sample_isupper sample_lower "FilterV2" eq_refl)
    as (H1 & _ & H3).
  split; [exact H1|]. split; [exact H3|].
  repeat split; reflexivity.
Defined.

Lemma output_name_collisions_sample :
  ascii_isupper "F" = true /\
  "FilterV2" <> "filterV2" /\
  output_name sample_isupper sample_lower "FilterV2" =
  output_name sample_isupper sample_lower "filterV2" /\
  output_name sample_isupper sample_lower "_filterV2" =
  output_name sample_isupper sample_lower "filterV2".
Proof.
  destruct (output_name_collisions sample_isupper sample_lower "F" "ilterV2")
    as [_ H].
  split; [reflexivity|].
  split; [exact (proj1 (H eq_refl))|].
  split; [exact (proj2 (H eq_refl))|].
  exact (proj1 (output_name_collisions sample_isupper sample_lower "F" "filterV2")).
Defined.

Lemma convert_property_recognised_sample :
  (forall k, In k recognised_keys ->
             dict_get sample_array k = dict_get sample_array_reordered k) /\
  convert_property sample_repr (VDict sample_array) =
  convert_property sample_repr (VDict sample_array_reordered).
Proof.
  assert (H : forall k, In k recognised_keys ->
                dict_get sample_array k = dict_get sample_array_reordered k).
  { intros k Hk. simpl in Hk.
    repeat (destruct Hk as [<-|Hk]; [reflexivity|]). contradiction. }
  split; [exact H|].
  exact (convert_property_recognised sample_repr _ _ H).
Defined.

Lemma convert_openapi_recognised_sample :
  (forall k, In k recognised_schema_keys ->
             dict_get sample_schema k = dict_get sample_schema_reordered k) /\
  convert_openapi_to_jsonschema sample_repr (VDict sample_schema) =
  convert_openapi_to_jsonschema sample_repr (VDict sample_schema_reordered).
Proof.
  assert (H : forall k, In k recognised_schema_keys ->
                dict_get sample_schema k = dict_get sample_schema_reordered k).
  { intros k Hk. simpl in Hk.
    repeat (destruct Hk as [<-|Hk]; [reflexivity|]). contradiction. }
  split; [exact H|].
  exact (convert_openapi_recognised sample_repr _ _ H).
Defined.

Lemma conversions_keep_serialisable_sample :
  json_serialisable (VDict sample_schema) = true /\
  schema_object (VDict sample_schema) = true /\
  extractable sample_repr (VDict sample_schema) = true /\
  json_serialisable (VDict sample_dated_schema) = false /\
  extractable sample_repr (VDict sample_dated_schema) = false.
Proof.
  split; [reflexivity|]. split; [reflexivity|].
  split; [|split; reflexivity].
  exact (proj2 (proj2 (conversions_keep_serialisable sample_repr
                         (VDict sample_schema) eq_refl)) eq_refl).
Defined.

Lemma sample_definitions_extractable (names : list string) :
  forall name schema_def,
    In name names -> dict_get sample_definitions name = Some schema_def ->
    extractable sample_repr schema_def = true.
Proof.
  intros name schema_def _. unfold sample_definitions. cbn [dict_get].
  destruct (String.eqb "account" name); [intros [= <-]; reflexivity|].
  destruct (String.eqb "status" name); [intros [= <-]; reflexivity|].
  discriminate.
Qed.

Lemma extract_run_complete_sample :
  definitions_table sample_swagger = VDict sample_definitions /\
  exists files,
    snd (main sample_repr sample_isupper sample_lower string sample_path_div
           sample_path_str "swagger.yaml"
           (Some (VDict sample_swagger)) "out"
           (Some ["poll"; "account"; "card"; "status"])) = Exit 0 /\
    written (fst (main sample_repr sample_isupper sample_lower string
                    sample_path_div sample_path_str
                    "swagger.yaml" (Some (VDict sample_swagger)) "out"
                    (Some ["poll"; "account"; "card"; "status"]))) = files /\
    map fst files = ["out/account.json"; "out/status.json"].
Proof.
  split; [reflexivity|].
  destruct (extract_run_complete sample_repr sample_isupper sample_lower string
              sample_path_div sample_path_str sample_definitions sample_swagger
              "swagger.yaml"
              "out" (Some ["poll"; "account"; "card"; "status"]) eq_refl
              (sample_definitions_extractable _)) as (files & Hrun & Hfiles).
  exists files. rewrite Hrun. split; [reflexivity|]. split; [reflexivity|].
  simpl in Hfiles.
  inversion Hfiles as [|n1 f1 l1 l1' [E1 _] Hrest]; subst.
  inversion Hrest as [|n2 f2 l2 l2' [E2 _] Hnil]; subst.
  inversion Hnil; subst. simpl. rewrite E1, E2. reflexivity.
Defined.

Lemma extract_run_aborts_sample :
  definitions_table sample_broken_swagger = VDict sample_broken_definitions /\
  dict_get sample_broken_definitions "card" = Some (VDict sample_broken_schema) /\
  convert_openapi_to_jsonschema sample_repr (VDict sample_broken_schema) =
  Raise AttributeError /\
  exists files,
    main sample_repr sample_isupper sample_lower string sample_path_div
      sample_path_str "swagger.yaml"
      (Some (VDict sample_broken_swagger)) "out"
      (Some (["poll"; "account"] ++ "card" :: ["status"])) =
    (mkWorld string ["out"] files
       ["✓ Extracted account -> out/account.json"]
       ["✗ Schema 'poll' not found in swagger.yaml"],
     Uncaught AttributeError).
Proof.
  split; [reflexivity|]. split; [reflexivity|]. split; [reflexivity|].
  destruct (extract_run_aborts sample_repr sample_isupper sample_lower string
              sample_path_div sample_path_str sample_broken_definitions
              sample_broken_swagger
              "swagger.yaml" "out" ["poll"; "account"] ["status"] "card"
              (VDict sample_broken_schema) AttributeError eq_refl)
    as (files & Hrun & _).
  - intros n sd [<-|[<-|[]]]; [discriminate|]. intros [= <-]. reflexivity.
  - reflexivity.
  - reflexivity.
  - exists files. exact Hrun.
Defined.

Lemma extract_run_dump_fails_sample :
  definitions_table sample_dated_swagger = VDict sample_dated_definitions /\
  dict_get sample_dated_definitions "event" = Some (VDict sample_dated_schema) /\
  convert_openapi_to_jsonschema sample_repr (VDict sample_dated_schema) =
  Ok sample_dated_converted /\
  json_serialisable sample_dated_converted = false /\
  exists files,
    main sample_repr sample_isupper sample_lower string sample_path_div
      sample_path_str "swagger.yaml"
      (Some (VDict sample_dated_swagger)) "out"
      (Some (["poll"; "account"] ++ "event" :: ["status"])) =
    (mkWorld string ["out"]
       (files ++ [("out/event.json", Truncated sample_dated_converted)])
       ["✓ Extracted account -> out/account.json"]
       ["✗ Schema 'poll' not found in swagger.yaml"],
     Uncaught TypeError).
Proof.
  split; [reflexivity|]. split; [reflexivity|].
  split; [reflexivity|]. split; [reflexivity|].
  destruct (extract_run_dump_fails sample_repr sample_isupper sample_lower string
              sample_path_div sample_path_str sample_dated_definitions
              sample_dated_swagger
              "swagger.yaml" "out" ["poll"; "account"] ["status"] "event"
              (VDict sample_dated_schema) sample_dated_converted eq_refl)
    as (files & Hrun & _).
  - intros n sd [<-|[<-|[]]]; [discriminate|]. intros [= <-]. reflexivity.
  - reflexivity.
  - reflexivity.
  - reflexivity.
  - exists files. exact Hrun.
Defined.

Lemma extract_run_malformed_sample :
  requested (Some ["account"]) <> [] /\
  main sample_repr sample_isupper sample_lower string sample_path_div
    sample_path_str "swagger.yaml"
    (Some (VDict [("definitions", VNone)])) "out" (Some ["account"]) =
  (mkWorld string ["out"] [] [] [], Uncaught TypeError) /\
  main sample_repr sample_isupper sample_lower string sample_path_div
    sample_path_str "swagger.yaml"
    (Some VNone) "out" (Some ["account"]) =
  (empty_world string, Uncaught AttributeError).
Proof.
  assert (H : requested (Some ["account"]) <> []) by discriminate.
  destruct (extract_run_malformed sample_repr sample_isupper sample_lower string
              sample_path_div sample_path_str "swagger.yaml" "out" (Some ["account"]))
    as [H1 H2].
  split; [exact H|].
  split; [exact (H2 [("definitions", VNone)] I H) | exact (H1 VNone I)].
Defined.

Lemma convert_property_h_shares_sample :
  exists h' y out,
    convert_property_h sample_heap_repr 3 (RObj 3) sample_heap = (h', Ok y) /\
    y = RObj 5 /\ h' !! 5 = Some (ODict out) /\
    dict_get out "enum" = Some (RObj 2) /\
    h' !! 2 = Some (OList [RStr "tags"]).
Proof.
  eexists _, _.
  edestruct (convert_property_h_shares sample_heap_repr 3 sample_heap _ 3
               [("type", RStr "array"); ("items", RObj 4); ("enum", RObj 2)] _
               eq_refl eq_refl eq_refl) as (out & Hy & Hout & Hget & Hsame).
  exists out. split; [reflexivity|]. split; [exact Hy|]. split; [exact Hout|].
  split.
  - exact (Hget "enum" ltac:(unfold copied_keys; simpl; tauto)).
  - exact (Hsame "enum" 2 _ ltac:(unfold copied_keys; simpl; tauto)
             eq_refl eq_refl).
Defined.

Lemma convert_property_h_cycle_sample :
  exists h',
    convert_property_h sample_heap_repr 50 (RObj 0) sample_cycle =
    (h', Raise RecursionError) /\
    length h' = 51 /\ unchanged sample_cycle h'.
Proof.
  exact (convert_property_h_cycle sample_heap_repr 50 0
           [("type", RStr "array"); ("items", RObj 0)]
           eq_refl eq_refl eq_refl sample_cycle eq_refl).
Defined.

Lemma convert_openapi_h_shares_sample :
  exists h' y out,
    convert_openapi_to_jsonschema_h sample_heap_repr 4 (RObj 0) sample_heap =
    (h', Ok y) /\
    y = RObj 5 /\ h' !! 5 = Some (ODict out) /\
    dict_get out "required" = Some (RObj 2) /\
    dict_get out "properties" = Some (RObj 6) /\
    exists converted, h' !! 6 = Some (ODict converted).
Proof.
  eexists _, _.
  edestruct (convert_openapi_h_shares sample_heap_repr 4 sample_heap _ 0
               [("type", RStr "object"); ("properties", RObj 1);
                ("required", RObj 2)] _
               eq_refl eq_refl) as (out & Hy & Hout & Hget & _ & Hprops).
  exists out. split; [reflexivity|]. split; [exact Hy|]. split; [exact Hout|].
  split.
  - exact (Hget "required" ltac:(simpl; tauto)).
  - split; [exact (proj1 (Hprops eq_refl))|].
    exact (proj2 (proj2 (Hprops eq_refl))).
Defined.

Lemma conversions_with_more_depth_sample :
  exists h' y,
    4 <= 1000 /\ Ok y <> Raise RecursionError /\
    convert_openapi_to_jsonschema_h sample_heap_repr 4 (RObj 0) sample_heap =
    (h', Ok y) /\
    convert_openapi_to_jsonschema_h sample_heap_repr 1000 (RObj 0) sample_heap =
    (h', Ok y).
Proof.
  eexists _, _. split; [lia|]. split; [discriminate|].
  split; [reflexivity|].
  apply (conversions_with_more_depth sample_heap_repr 4 1000 (RObj 0)
           sample_heap); [lia | discriminate | reflexivity].
Defined.
